(** * A verified model of [notebook_v1.py]

    The module reads a Jupyter notebook (a JSON document) into a small
    object model ([Cell], [CodeCell], [MarkdownCell], [Notebook]) and renders
    it back as JSON ([Serializer]), as a py-percent script
    ([PyPercentSerializer]) and as an outline ([Outliner]).

    The development has four parts:
    - the Python values the module manipulates: [str] as a sequence of code
      points with the [str] methods the module calls, JSON documents, and
      exceptions as an error monad;
    - the classes of [notebook_v1.py], function by function;
    - the same three renderers run against a store of mutable objects, to
      account for aliasing and for what they write;
    - the properties. *)

From Stdlib Require Import ZArith NArith List Bool Lia.
From Stdlib Require Import Strings.String Strings.Ascii Strings.Byte.
From stdpp Require Import base list option gmap.

Set Default Proof Using "Type".
Local Open Scope N_scope.

(** ** Python [str] *)

(** A [str] is a sequence of Unicode code points. *)
Definition char := N.
Definition str := list char.

(** Source literals are written in UTF-8 and decoded once. *)
Fixpoint utf8_decode (bs : list N) : str :=
  match bs with
  | [] => []
  | b0 :: r0 =>
    if b0 <? 0x80 then b0 :: utf8_decode r0
    else match r0 with
    | [] => [b0]
    | b1 :: r1 =>
      if b0 <? 0xE0 then ((b0 - 0xC0) * 0x40 + (b1 - 0x80)) :: utf8_decode r1
      else match r1 with
      | [] => [b0; b1]
      | b2 :: r2 =>
        if b0 <? 0xF0
        then ((b0 - 0xE0) * 0x1000 + (b1 - 0x80) * 0x40 + (b2 - 0x80))
               :: utf8_decode r2
        else match r2 with
        | [] => [b0; b1; b2]
        | b3 :: r3 =>
          ((b0 - 0xF0) * 0x40000 + (b1 - 0x80) * 0x1000
             + (b2 - 0x80) * 0x40 + (b3 - 0x80)) :: utf8_decode r3
        end
      end
    end
  end.

(** The escape sequences used below: [\n], and [\x22] for a double quote. *)
Fixpoint unescape (s : str) : str :=
  match s with
  | 92 :: 110 :: s' => 10 :: unescape s'
  | 92 :: 120 :: 50 :: 50 :: s' => 34 :: unescape s'
  | c :: s' => c :: unescape s'
  | [] => []
  end.

(** A literal of the Python source. *)
Definition u (s : string) : str :=
  unescape (utf8_decode (map Byte.to_N (list_byte_of_string s))).

Arguments u : simpl never.

Definition NL : char := 10.
Definition DOT : char := 46.

(** [Py_UNICODE_ISSPACE]: the characters [str.strip()] removes. *)
Definition is_whitespace (c : char) : bool :=
  ((0x09 <=? c) && (c <=? 0x0D)) || ((0x1C <=? c) && (c <=? 0x20))
  || (c =? 0x85) || (c =? 0xA0) || (c =? 0x1680)
  || ((0x2000 <=? c) && (c <=? 0x200A))
  || (c =? 0x2028) || (c =? 0x2029) || (c =? 0x202F) || (c =? 0x205F)
  || (c =? 0x3000).

Fixpoint str_lstrip (s : str) : str :=
  match s with
  | c :: s' => if is_whitespace c then str_lstrip s' else s
  | [] => []
  end.

Definition str_rstrip (s : str) : str := rev (str_lstrip (rev s)).

(** [s.strip()] *)
Definition str_strip (s : str) : str := str_rstrip (str_lstrip s).

(** [sep.join(parts)] *)
Fixpoint str_join (sep : str) (parts : list str) : str :=
  match parts with
  | [] => []
  | [p] => p
  | p :: ps => p ++ sep ++ str_join sep ps
  end.

(** [s.split(sep)] for a one-character separator: never empty. *)
Fixpoint str_split (sep : char) (s : str) : list str :=
  match s with
  | [] => [[]]
  | c :: s' =>
    if c =? sep then [] :: str_split sep s'
    else match str_split sep s' with
         | p :: ps => (c :: p) :: ps
         | [] => [[c]]
         end
  end.

(** [s[:-1]] *)
Definition drop_last (s : str) : str := removelast s.

(** *** Decimal conversions *)

(** Digits of [n], least significant first. [fuel] bounds their number. *)
Fixpoint to_digits (fuel : nat) (n : N) : list N :=
  match fuel with
  | O => []
  | S f => if n <? 10 then [n] else (n mod 10) :: to_digits f (n / 10)
  end.

Definition str_of_N (n : N) : str :=
  map (fun d => 48 + d) (rev (to_digits (S (N.to_nat (N.size n))) n)).

(** [str(z)] for an [int]. *)
Definition str_of_Z (z : Z) : str :=
  match z with
  | Zneg p => 45 :: str_of_N (Npos p)
  | _ => str_of_N (Z.to_N z)
  end.

(** ** JSON documents and exceptions *)

(** What [json.load] returns: [None], [bool], [int], [str], [list] and
    [dict] with [str] keys. A [dict] keeps its entries in insertion order.
    (Floating-point numbers are left out.) *)
#[warnings="-register-all"]
Inductive json :=
| JNull
| JBool (b : bool)
| JInt (z : Z)
| JStr (s : str)
| JList (items : list json)
| JDict (entries : list (str * json)).

Inductive exn :=
| KeyError (key : json)
| IndexError
| TypeError
| ValueError
| AttributeError
| FileNotFoundError
| OSError
| JSONDecodeError
| RuntimeError
| SystemError.

Inductive result (A : Type) :=
| OK (a : A)
| Raise (e : exn).
Arguments OK {A} a.
Arguments Raise {A} e.

#[export] Instance result_ret : MRet result := fun A a => OK a.
#[export] Instance result_bind : MBind result := fun A B f m =>
  match m with
  | OK a => f a
  | Raise e => Raise e
  end.

(** Runs [step] over [l] from left to right, stopping at the first
    exception: the shape of every [for] loop of the module. *)
Fixpoint foldM {A B} (step : A -> B -> result A) (acc : A) (l : list B)
  : result A :=
  match l with
  | [] => OK acc
  | x :: l' => acc' ← step acc x; foldM step acc' l'
  end.

Fixpoint mapM_result {A B} (f : A -> result B) (l : list A) : result (list B) :=
  match l with
  | [] => OK []
  | x :: l' => y ← f x; ys ← mapM_result f l'; OK (y :: ys)
  end.

(** What belongs to the interpreter and its Unicode database rather than to
    the module: the decimal value of a non-ASCII digit, as [int] reads it,
    and the [repr] of a container, as an f-string prints it. *)
Class Interpreter := {
  Py_UNICODE_TODECIMAL : char -> option N;
  container_repr : json -> str;
}.

Fixpoint str_eqb (s t : str) : bool :=
  match s, t with
  | [], [] => true
  | c :: s', d :: t' => (c =? d) && str_eqb s' t'
  | _, _ => false
  end.

(** *** [dict] *)

Fixpoint dict_get {V} (k : str) (d : list (str * V)) : option V :=
  match d with
  | [] => None
  | (k', v) :: d' => if str_eqb k' k then Some v else dict_get k d'
  end.

(** [d[k] = v]: replaces in place, or appends a new entry. *)
Fixpoint dict_set {V} (k : str) (v : V) (d : list (str * V))
  : list (str * V) :=
  match d with
  | [] => [(k, v)]
  | (k', v') :: d' =>
    if str_eqb k' k then (k, v) :: d' else (k', v') :: dict_set k v d'
  end.

(** *** Operators and built-ins *)

Module Py.

(** [a == b] *)
Fixpoint py_eq (a b : json) {struct a} : bool :=
  match a, b with
  | JNull, JNull => true
  | JBool x, JBool y => Bool.eqb x y
  | JBool x, JInt y => (Z.b2z x =? y)%Z
  | JInt x, JBool y => (x =? Z.b2z y)%Z
  | JInt x, JInt y => (x =? y)%Z
  | JStr s, JStr t => str_eqb s t
  | JList l, JList m =>
    (fix all2 (l : list json) (m : list json) : bool :=
       match l, m with
       | [], [] => true
       | x :: l', y :: m' => py_eq x y && all2 l' m'
       | _, _ => false
       end) l m
  | JDict d, JDict e =>
    (length d =? length e)%nat
    && (fix sub (d : list (str * json)) : bool :=
          match d with
          | [] => true
          | (k, v) :: d' =>
            match dict_get k e with
            | Some w => py_eq v w && sub d'
            | None => false
            end
          end) d
  | _, _ => false
  end.

(** [container[key]] with a [str] key. *)
Definition getitem (container : json) (key : str) : result json :=
  match container with
  | JDict d =>
    match dict_get key d with
    | Some v => OK v
    | None => Raise (KeyError (JStr key))
    end
  | _ => Raise TypeError
  end.

(** [seq[i]] on a sequence of length [n]: negative indices count from the
    end. *)
Definition index_of (n : nat) (i : Z) : option nat :=
  let j := if (i <? 0)%Z then (i + Z.of_nat n)%Z else i in
  if ((0 <=? j) && (j <? Z.of_nat n))%Z then Some (Z.to_nat j) else None.

(** [container[i]] with an [int] index. *)
Definition getitem_int (container : json) (i : Z) : result json :=
  match container with
  | JList l =>
    match index_of (length l) i ≫= (l !!.) with
    | Some v => OK v
    | None => Raise IndexError
    end
  | JStr s =>
    match index_of (length s) i ≫= (s !!.) with
    | Some c => OK (JStr [c])
    | None => Raise IndexError
    end
  | JDict _ => Raise (KeyError (JInt i))
  | _ => Raise TypeError
  end.

(** [iter(v)], run to exhaustion. *)
Definition py_iter (v : json) : result (list json) :=
  match v with
  | JList l => OK l
  | JStr s => OK (map (fun c => JStr [c]) s)
  | JDict d => OK (map (fun kv => JStr kv.1) d)
  | _ => Raise TypeError
  end.

(** [len(v)] *)
Definition py_len (v : json) : result nat :=
  match v with
  | JList l => OK (length l)
  | JStr s => OK (length s)
  | JDict d => OK (length d)
  | _ => Raise TypeError
  end.

(** [v.strip()]: only a [str] has the method. *)
Definition strip_method (v : json) : result str :=
  match v with
  | JStr s => OK (str_strip s)
  | _ => Raise AttributeError
  end.

End Py.
Import Py.

Section Interpreted.
Context `{Interpreter}.

(** [f'{v}'] *)
Definition py_format (v : json) : str :=
  match v with
  | JNull => u "None"
  | JBool true => u "True"
  | JBool false => u "False"
  | JInt z => str_of_Z z
  | JStr s => s
  | _ => container_repr v
  end.

(** The value [int] gives to one character of its argument. *)
Definition digit_value (c : char) : option N :=
  if (48 <=? c) && (c <=? 57) then Some (c - 48)
  else if c <? 127 then None
  else d ← Py_UNICODE_TODECIMAL c; if d <? 10 then Some d else None.

(** Digits, with single underscores allowed between them. *)
Fixpoint digits_acc (acc : N) (after_digit : bool) (s : str) : option N :=
  match s with
  | [] => if after_digit then Some acc else None
  | c :: r =>
    if c =? 95 then (if after_digit then digits_acc acc false r else None)
    else d ← digit_value c; digits_acc (10 * acc + d) true r
  end.

(** The blanks [int] skips around the number. *)
Definition is_int_space (c : char) : bool :=
  ((0x09 <=? c) && (c <=? 0x0D)) || (c =? 0x20)
  || ((127 <=? c) && is_whitespace c).

Fixpoint int_lstrip (s : str) : str :=
  match s with
  | c :: s' => if is_int_space c then int_lstrip s' else s
  | [] => []
  end.

Definition int_strip (s : str) : str := rev (int_lstrip (rev (int_lstrip s))).

(** An optional sign, then the digits. *)
Definition py_int_sign (s : str) : bool * str :=
  match s with
  | c :: r =>
    if c =? 45 then (true, r) else if c =? 43 then (false, r)
    else (false, c :: r)
  | [] => (false, [])
  end.

(** [int(s)] for a [str], in base ten. The bound that an interpreter may
    put on the number of digits is a matter of its configuration and is
    not modelled. *)
Definition py_int (s : str) : result Z :=
  let (negative, digits) := py_int_sign (int_strip s) in
  match digits_acc 0 false digits with
  | Some n => OK (if negative then (- Z.of_N n)%Z else Z.of_N n)
  | None => Raise ValueError
  end.

End Interpreted.

(** ** The classes of [notebook_v1.py] *)

(** An instance of [Cell] or of one of its two subclasses, with the
    attributes its constructor sets. *)
Inductive cell :=
| Cell (id source : json)
| CodeCell (execution_count id source : json)
| MarkdownCell (id source : json).

Definition cell_id (c : cell) : json :=
  match c with
  | Cell i _ | CodeCell _ i _ | MarkdownCell i _ => i
  end.

Definition cell_source (c : cell) : json :=
  match c with
  | Cell _ s | CodeCell _ _ s | MarkdownCell _ s => s
  end.

(** [cell.execution_count]: only a [CodeCell] has the attribute. *)
Definition cell_execution_count (c : cell) : result json :=
  match c with
  | CodeCell n _ _ => OK n
  | _ => Raise AttributeError
  end.

(** The class a cell is an instance of. *)
Inductive cell_class := ClsCell | ClsCodeCell | ClsMarkdownCell.

Definition class_of (c : cell) : cell_class :=
  match c with
  | Cell _ _ => ClsCell
  | CodeCell _ _ _ => ClsCodeCell
  | MarkdownCell _ _ => ClsMarkdownCell
  end.

(** [isinstance(cell, MarkdownCell)], [isinstance(cell, CodeCell)] *)
Definition is_MarkdownCell (c : cell) : bool :=
  match c with MarkdownCell _ _ => true | _ => false end.
Definition is_CodeCell (c : cell) : bool :=
  match c with CodeCell _ _ _ => true | _ => false end.

(** [Cell.__init__] *)
Definition Cell_init (ipynb : json) : result cell :=
  i ← getitem ipynb (u "id");
  s ← getitem ipynb (u "source");
  OK (Cell i s).

(** [CodeCell.__init__] *)
Definition CodeCell_init (ipynb : json) : result cell :=
  n ← getitem ipynb (u "execution_count");
  base ← Cell_init ipynb;
  OK (CodeCell n (cell_id base) (cell_source base)).

(** [MarkdownCell.__init__] *)
Definition MarkdownCell_init (ipynb : json) : result cell :=
  base ← Cell_init ipynb;
  OK (MarkdownCell (cell_id base) (cell_source base)).

Record notebook := Notebook {
  version : str;
  cells : list cell;
}.

(** *** Files *)

(** [json.dump] writes every character outside ASCII as an escape, a
    surrogate like any other; [json.load] reads a high surrogate that is
    followed by a low one as the one character the two encode. *)
Definition is_high_surrogate (c : char) : bool := (0xD800 <=? c) && (c <=? 0xDBFF).
Definition is_low_surrogate (c : char) : bool := (0xDC00 <=? c) && (c <=? 0xDFFF).

Fixpoint merge_surrogates (s : str) : str :=
  match s with
  | [] => []
  | c :: s' =>
    match s' with
    | d :: s'' =>
      if is_high_surrogate c && is_low_surrogate d
      then (0x10000 + (c - 0xD800) * 0x400 + (d - 0xDC00)) :: merge_surrogates s''
      else c :: merge_surrogates s'
    | [] => [c]
    end
  end.

(** [json.load] of what [json.dump] wrote for a document: the document
    with the surrogate pairs of its strings and keys merged. A [dict] is
    rebuilt from its pairs: of two keys that have become the same, the
    first keeps the place and the second gives the value. *)
Fixpoint json_reload (j : json) : json :=
  match j with
  | JStr s => JStr (merge_surrogates s)
  | JList items => JList (map json_reload items)
  | JDict entries =>
    JDict ((fix pairs (entries acc : list (str * json)) : list (str * json) :=
              match entries with
              | [] => acc
              | (k, v) :: entries' =>
                pairs entries' (dict_set (merge_surrogates k) (json_reload v) acc)
              end) entries [])
  | _ => j
  end.

(** A file is either freshly truncated or holds what [json.dump] wrote
    for a document. *)
Inductive file :=
| Truncated
| Document (doc : json).

Abbreviation filesystem := (gmap str file).

(** What decides whether [open] gets a file, besides the files
    themselves: the exception it raises for a name, if it raises one (the
    name is empty or has a NUL, a directory of the path is missing, the
    name is that of a directory, the file may not be read or written). *)
Inductive mode := Reading | Writing.

Class Platform := {
  open_refused : mode -> str -> option exn;
}.

Section Notebook.
Context `{Interpreter}.
Context {OS : Platform}.

(** Modelled from the spec: [get_format_version] of [notebook_v0], which is
    not part of the sources. It combines the top-level keys [nbformat] and
    [nbformat_minor] into the string [<major>.<minor>]. *)
Definition get_format_version (ipynb : json) : result str :=
  major ← getitem ipynb (u "nbformat");
  minor ← getitem ipynb (u "nbformat_minor");
  OK (py_format major ++ u "." ++ py_format minor).

(** One turn of the loop of [Notebook.__init__]. *)
Definition Notebook_init_step (cells : list cell) (raw : json)
  : result (list cell) :=
  t ← getitem raw (u "cell_type");
  cells ← (if py_eq t (JStr (u "code"))
           then c ← CodeCell_init raw; OK (cells ++ [c])
           else OK cells);
  t ← getitem raw (u "cell_type");
  if py_eq t (JStr (u "markdown"))
  then c ← MarkdownCell_init raw; OK (cells ++ [c])
  else OK cells.

(** [Notebook.__init__] *)
Definition Notebook_init (ipynb : json) : result notebook :=
  version ← get_format_version ipynb;
  raw_cells ← getitem ipynb (u "cells");
  entries ← py_iter raw_cells;
  cells ← foldM Notebook_init_step [] entries;
  OK (Notebook version cells).

(** [Notebook.from_file]: [open], then [json.load], then the
    constructor. *)
Definition Notebook_from_file (filename : str) (fs : filesystem)
  : result notebook :=
  match open_refused Reading filename with
  | Some e => Raise e
  | None =>
    match fs !! filename with
    | None => Raise FileNotFoundError
    | Some Truncated => Raise JSONDecodeError
    | Some (Document doc) => Notebook_init (json_reload doc)
    end
  end.

End Notebook.

(** [Notebook.__iter__], run to exhaustion. *)
Definition Notebook_iter (nb : notebook) : list cell := cells nb.

(** A text file holds the characters that were written to it. *)
Abbreviation text_filesystem := (gmap str str).

(** The code points that UTF-8 does not encode: the surrogates. *)
Definition is_surrogate (c : char) : bool := (0xD800 <=? c) && (c <=? 0xDFFF).

Module PyPercentSerializer.
Section PyPercentSerializer.
Context {OS : Platform}.

(** [[i.strip() for i in cell.source]] *)
Definition stripped_lines (source : json) : result (list str) :=
  lines ← py_iter source; mapM_result strip_method lines.

(** One turn of the loop of [to_py_percent]. *)
Definition to_py_percent_step (text : str) (c : cell) : result str :=
  if is_MarkdownCell c then
    let text := text ++ u "\n# %% [markdown]\n" in
    lines ← stripped_lines (cell_source c);
    OK (text ++ (u "# " ++ str_join (u "\n# ") lines ++ u "\n"))
  else if is_CodeCell c then
    let text := text ++ u "\n# %%\n" in
    lines ← stripped_lines (cell_source c);
    OK (text ++ (str_join (u "\n") lines ++ u "\n"))
  else OK text.

(** [PyPercentSerializer.to_py_percent] *)
Definition to_py_percent (nb : notebook) : result str :=
  text ← foldM to_py_percent_step [] (Notebook_iter nb);
  OK (str_strip text).

(** [PyPercentSerializer.to_file]: [open] comes first, and when it raises
    nothing else happens. Otherwise the file is emptied before
    [to_py_percent] runs; [print] then writes the text and a newline. A
    text that UTF-8 cannot encode is refused when it is written
    ([UnicodeEncodeError], which is a [ValueError]), and nothing of it
    reaches the file. The content is that of the text stream: what a
    platform does to newlines on the way to the disk is left out. *)
Definition to_file (nb : notebook) (filename : str) (fs : text_filesystem)
  : result unit * text_filesystem :=
  match open_refused Writing filename with
  | Some e => (Raise e, fs)
  | None =>
    let fs := <[filename := []]> fs in
    match to_py_percent nb with
    | OK text =>
      if existsb is_surrogate text then (Raise ValueError, fs)
      else (OK (), <[filename := text ++ u "\n"]> fs)
    | Raise e => (Raise e, fs)
    end
  end.

End PyPercentSerializer.
End PyPercentSerializer.

Module Serializer.
Section Serializer.
Context `{Interpreter}.
Context {OS : Platform}.

(** One turn of the loop of [serialize]: the entry built for [c] is
    appended to [s['cells']]. *)
Definition serialize_step (cells : list json) (c : cell) : result (list json) :=
  let dictionnaire1 :=
    [(u "cell_type", JInt 0); (u "id", cell_id c);
     (u "metadata", JDict []); (u "source", cell_source c)] in
  dictionnaire1 ←
    (if is_MarkdownCell c then
       OK (dict_set (u "cell_type") (JStr (u "markdown")) dictionnaire1)
     else if is_CodeCell c then
       let dictionnaire1 :=
         dict_set (u "cell_type") (JStr (u "code")) dictionnaire1 in
       n ← cell_execution_count c;
       let dictionnaire1 := dict_set (u "execution_count") n dictionnaire1 in
       OK (dict_set (u "outputs") (JList []) dictionnaire1)
     else OK dictionnaire1);
  OK (cells ++ [JDict dictionnaire1]).

(** [Serializer.serialize] *)
Definition serialize (nb : notebook) : result json :=
  match str_split DOT (version nb) with
  | [n1; n2] =>
    major ← py_int n1;
    minor ← py_int n2;
    cells ← foldM serialize_step [] (Notebook_iter nb);
    OK (JDict [(u "cells", JList cells); (u "metadata", JDict []);
               (u "nbformat", JInt major); (u "nbformat_minor", JInt minor)])
  | _ => Raise ValueError
  end.

(** [Serializer.to_file]: [open] comes first, and when it raises nothing
    else happens. Otherwise the file is truncated before [serialize] runs,
    and [json.dump] then writes what [serialize] returned. *)
Definition to_file (nb : notebook) (filename : str) (fs : filesystem)
  : result unit * filesystem :=
  match open_refused Writing filename with
  | Some e => (Raise e, fs)
  | None =>
    let fs := <[filename := Truncated]> fs in
    match serialize nb with
    | OK s => (OK (), <[filename := Document s]> fs)
    | Raise e => (Raise e, fs)
    end
  end.

End Serializer.
End Serializer.

Module Outliner.
Section Outliner.
Context `{Interpreter}.

(** The choice of [start] for one [line] of [cell.source]. *)
Definition start (source line : json) : result str :=
  n ← py_len source;
  if (1 <? n)%nat then
    first ← getitem_int source 0;
    if py_eq line first then OK (u "┌ ")
    else
      last ← getitem_int source (-1);
      if py_eq line last then OK (u "└ ") else OK (u "│ ")
  else OK (u "|").

(** One turn of the inner loop of [outline]. *)
Definition outline_line (source : json) (text : str) (line : json)
  : result str :=
  start ← start source line;
  stripped ← strip_method line;
  OK (text ++ (u "    " ++ start ++ u " " ++ stripped ++ u "\n")).

(** One turn of the outer loop of [outline]. *)
Definition outline_step (text : str) (c : cell) : result str :=
  '(cell_type, count) ←
    (if is_MarkdownCell c then OK (u "Markdown", u "")
     else
       n ← cell_execution_count c;
       OK (u "Code", u " (" ++ py_format n ++ u ")"));
  let text :=
    text ++ (u "└─▶ " ++ cell_type ++ u " cell #" ++ py_format (cell_id c)
               ++ count ++ u "\n") in
  lines ← py_iter (cell_source c);
  foldM (outline_line (cell_source c)) text lines.

(** [Outliner.outline] *)
Definition outline (nb : notebook) : result str :=
  let text := u "Jupyter Notebook v" ++ version nb ++ u "\n" in
  text ← foldM outline_step text (Notebook_iter nb);
  OK (drop_last text).

End Outliner.
End Outliner.


Local Close Scope N_scope.

(** ** The renderers over a store of objects

    Lists, dicts and instances are mutable objects that several names can
    refer to: [serialize] puts the very list that is [cell.source] into the
    entry it returns. Here the three renderers run against a store, where
    every read and every write of an object is explicit. *)

Module Heap.

Abbreviation loc := nat.

(** A value is immediate or a reference to an object of the store. *)
Inductive value :=
| VNone
| VBool (b : bool)
| VInt (z : Z)
| VStr (s : str)
| VRef (l : loc).

Inductive object :=
| OList (items : list value)
| ODict (entries : list (str * value))
| OCell (cls : cell_class) (attrs : list (str * value))
| ONotebook (attrs : list (str * value)).

(** The store: an object lives at its index; a new one goes at the end. *)
Abbreviation heap := (list object).

(** A run ends with a value or an exception, or is cut short. *)
Inductive outcome (A : Type) :=
| Done (a : A)
| Raised (e : exn)
| OutOfFuel.
Arguments Done {A} a.
Arguments Raised {A} e.
Arguments OutOfFuel {A}.

#[export] Instance outcome_ret : MRet outcome := fun A a => Done a.
#[export] Instance outcome_bind : MBind outcome := fun A B f m =>
  match m with
  | Done a => f a
  | Raised e => Raised e
  | OutOfFuel => OutOfFuel
  end.

Definition M (A : Type) : Type := heap -> outcome A * heap.

#[export] Instance M_ret : MRet M := fun A a h => (Done a, h).
#[export] Instance M_bind : MBind M := fun A B f m h =>
  match m h with
  | (Done a, h') => f a h'
  | (Raised e, h') => (Raised e, h')
  | (OutOfFuel, h') => (OutOfFuel, h')
  end.

(** A computation that leaves the store as it found it. *)
Definition read_only {A} (m : M A) : Prop := ∀ h, (m h).2 = h.

Definition raise {A} (e : exn) : M A := fun h => (Raised e, h).
Definition out_of_fuel {A} : M A := fun h => (OutOfFuel, h).

Definition lift {A} (r : result A) : M A :=
  match r with
  | OK a => mret a
  | Raise e => raise e
  end.

Definition alloc (o : object) : M loc := fun h => (Done (length h), h ++ [o]).

Definition read (l : loc) : M object := fun h =>
  match h !! l with
  | Some o => (Done o, h)
  | None => (Raised SystemError, h)
  end.

Definition write (l : loc) (o : object) : M unit := fun h =>
  (Done (), <[l := o]> h).

(** [v.name] *)
Definition getattr (v : value) (name : str) : M value :=
  match v with
  | VRef l =>
    o ← read l;
    match o with
    | OCell _ attrs | ONotebook attrs =>
      match dict_get name attrs with
      | Some x => mret x
      | None => raise AttributeError
      end
    | _ => raise AttributeError
    end
  | _ => raise AttributeError
  end.

Definition cell_class_eqb (a b : cell_class) : bool :=
  match a, b with
  | ClsCell, ClsCell | ClsCodeCell, ClsCodeCell
  | ClsMarkdownCell, ClsMarkdownCell => true
  | _, _ => false
  end.

(** [isinstance(v, cls)] for one of the two subclasses. *)
Definition isinstance (v : value) (cls : cell_class) : M bool :=
  match v with
  | VRef l =>
    o ← read l;
    mret (match o with
          | OCell c _ => cell_class_eqb c cls
          | _ => false
          end)
  | _ => mret false
  end.

(** [container[key]] with a [str] key. *)
Definition getitem (container : value) (key : str) : M value :=
  match container with
  | VRef l =>
    o ← read l;
    match o with
    | ODict entries =>
      match dict_get key entries with
      | Some x => mret x
      | None => raise (KeyError (JStr key))
      end
    | _ => raise TypeError
    end
  | _ => raise TypeError
  end.

(** [container[i]] with an [int] index. *)
Definition getitem_int (container : value) (i : Z) : M value :=
  match container with
  | VStr s =>
    match index_of (length s) i ≫= (s !!.) with
    | Some c => mret (VStr [c])
    | None => raise IndexError
    end
  | VRef l =>
    o ← read l;
    match o with
    | OList items =>
      match index_of (length items) i ≫= (items !!.) with
      | Some x => mret x
      | None => raise IndexError
      end
    | ODict _ => raise (KeyError (JInt i))
    | _ => raise TypeError
    end
  | _ => raise TypeError
  end.

(** [d[key] = v] *)
Definition dict_setitem (d : value) (key : str) (v : value) : M unit :=
  match d with
  | VRef l =>
    o ← read l;
    match o with
    | ODict entries => write l (ODict (dict_set key v entries))
    | _ => raise TypeError
    end
  | _ => raise TypeError
  end.

(** [l.append(v)] *)
Definition list_append (l : value) (v : value) : M unit :=
  match l with
  | VRef a =>
    o ← read a;
    match o with
    | OList items => write a (OList (items ++ [v]))
    | _ => raise AttributeError
    end
  | _ => raise AttributeError
  end.

(** [len(v)] *)
Definition py_len (v : value) : M nat :=
  match v with
  | VStr s => mret (length s)
  | VRef l =>
    o ← read l;
    match o with
    | OList items => mret (length items)
    | ODict entries => mret (length entries)
    | _ => raise TypeError
    end
  | _ => raise TypeError
  end.

(** [v.strip()] *)
Definition strip_method (v : value) : M str :=
  match v with
  | VStr s => mret (str_strip s)
  | _ => raise AttributeError
  end.

(** *** Iteration *)

(** An iterator belongs to the loop that made it: its position is a local
    of that loop. It reads the object it runs over afresh at every step. *)
Inductive iterator :=
| ListIter (l : loc) (i : nat)
| DictIter (l : loc) (i : nat) (size : nat)
| StrIter (rest : str).

(** [iter(v)]. A notebook answers with [iter(self.cells)]
    ([Notebook.__iter__]). *)
Fixpoint py_iter (fuel : nat) (v : value) : M iterator :=
  match v with
  | VStr s => mret (StrIter s)
  | VRef l =>
    o ← read l;
    match o with
    | OList _ => mret (ListIter l 0)
    | ODict entries => mret (DictIter l 0 (length entries))
    | ONotebook _ =>
      match fuel with
      | O => out_of_fuel
      | S fuel' => cells ← getattr v (u "cells"); py_iter fuel' cells
      end
    | OCell _ _ => raise TypeError
    end
  | _ => raise TypeError
  end.

(** [next(it)]: the next item and the iterator advanced, or nothing. *)
Definition py_next (it : iterator) : M (option (value * iterator)) :=
  match it with
  | ListIter l i =>
    o ← read l;
    match o with
    | OList items =>
      mret (match items !! i with
            | Some x => Some (x, ListIter l (S i))
            | None => None
            end)
    | _ => raise SystemError
    end
  | DictIter l i size =>
    o ← read l;
    match o with
    | ODict entries =>
      if negb (length entries =? size) then raise RuntimeError
      else mret (match entries !! i with
                 | Some (k, _) => Some (VStr k, DictIter l (S i) size)
                 | None => None
                 end)
    | _ => raise SystemError
    end
  | StrIter s =>
    mret (match s with
          | c :: s' => Some (VStr [c], StrIter s')
          | [] => None
          end)
  end.

(** [for x in it: acc = body(acc, x)] *)
Fixpoint for_loop {A} (fuel : nat) (it : iterator)
    (body : A -> value -> M A) (acc : A) : M A :=
  match fuel with
  | O => out_of_fuel
  | S fuel' =>
    step ← py_next it;
    match step with
    | None => mret acc
    | Some (x, it') => acc' ← body acc x; for_loop fuel' it' body acc'
    end
  end.

Definition py_for {A} (fuel : nat) (iterable : value)
    (body : A -> value -> M A) (acc : A) : M A :=
  it ← py_iter fuel iterable; for_loop fuel it body acc.

(** *** Values as documents *)

Fixpoint mapM_outcome {A B} (f : A -> outcome B) (l : list A)
  : outcome (list B) :=
  match l with
  | [] => Done []
  | x :: l' => y ← f x; ys ← mapM_outcome f l'; Done (y :: ys)
  end.

(** The document a value stands for, down to [depth] levels of nesting. *)
Fixpoint read_json (depth : nat) (h : heap) (v : value) : outcome json :=
  match v with
  | VNone => Done JNull
  | VBool b => Done (JBool b)
  | VInt z => Done (JInt z)
  | VStr s => Done (JStr s)
  | VRef l =>
    match depth with
    | O => OutOfFuel
    | S depth' =>
      match h !! l with
      | Some (OList items) =>
        js ← mapM_outcome (read_json depth' h) items; Done (JList js)
      | Some (ODict entries) =>
        d ← mapM_outcome
              (fun kv => j ← read_json depth' h kv.2; Done (kv.1, j)) entries;
        Done (JDict d)
      | Some _ => Raised TypeError
      | None => Raised SystemError
      end
    end
  end.

Definition read_value (depth : nat) (v : value) : M json := fun h =>
  (read_json depth h v, h).

(** The cell and the notebook an instance stands for. *)
Definition read_attr (depth : nat) (h : heap) (attrs : list (str * value))
    (name : str) : outcome json :=
  match dict_get name attrs with
  | Some x => read_json depth h x
  | None => Raised AttributeError
  end.

(** The attributes the constructor of each class sets, in the order it
    sets them. *)
Definition attribute_names (cls : cell_class) : list str :=
  match cls with
  | ClsCodeCell => [u "execution_count"; u "id"; u "source"]
  | _ => [u "id"; u "source"]
  end.

Fixpoint names_eqb (a b : list str) : bool :=
  match a, b with
  | [], [] => true
  | s :: a', t :: b' => str_eqb s t && names_eqb a' b'
  | _, _ => false
  end.

Definition read_cell (depth : nat) (h : heap) (v : value) : outcome cell :=
  match v with
  | VRef l =>
    match h !! l with
    | Some (OCell cls attrs) =>
      if negb (names_eqb (map fst attrs) (attribute_names cls))
      then Raised TypeError
      else
        i ← read_attr depth h attrs (u "id");
        src ← read_attr depth h attrs (u "source");
        match cls with
        | ClsCell => Done (Cell i src)
        | ClsCodeCell =>
          n ← read_attr depth h attrs (u "execution_count");
          Done (CodeCell n i src)
        | ClsMarkdownCell => Done (MarkdownCell i src)
        end
    | Some _ => Raised TypeError
    | None => Raised SystemError
    end
  | _ => Raised TypeError
  end.

Definition read_notebook (depth : nat) (h : heap) (v : value)
  : outcome notebook :=
  match v with
  | VRef l =>
    match h !! l with
    | Some (ONotebook attrs) =>
      match dict_get (u "version") attrs, dict_get (u "cells") attrs with
      | Some (VStr version), Some (VRef cells) =>
        match h !! cells with
        | Some (OList items) =>
          cs ← mapM_outcome (read_cell depth h) items;
          Done (Notebook version cs)
        | _ => Raised TypeError
        end
      | _, _ => Raised TypeError
      end
    | Some _ => Raised TypeError
    | None => Raised SystemError
    end
  | _ => Raised TypeError
  end.

(** A loop whose body does not fail to terminate, as a fold. *)
Fixpoint fold_outcome {A B} (step : A -> B -> outcome A) (acc : A)
    (l : list B) : outcome A :=
  match l with
  | [] => Done acc
  | x :: l' => acc' ← step acc x; fold_outcome step acc' l'
  end.

Definition outcome_of {A} (r : result A) : outcome A :=
  match r with
  | OK a => Done a
  | Raise e => Raised e
  end.

(** [a == b], on the documents the two values stand for. *)
Definition py_eq_value (depth : nat) (a b : value) : M bool :=
  ja ← read_value depth a; jb ← read_value depth b; mret (py_eq ja jb).

Section Interpreted.
Context `{Interpreter}.

(** [f'{v}'] *)
Definition format_value (depth : nat) (v : value) : M str :=
  j ← read_value depth v; mret (py_format j).

(** [[i.strip() for i in source]] *)
Definition stripped_lines (fuel : nat) (source : value) : M (list str) :=
  py_for fuel source (fun lines i => s ← strip_method i; mret (lines ++ [s])) [].

(** One turn of the loop of [to_py_percent]. *)
Definition to_py_percent_step (fuel : nat) (text : str) (cell : value)
  : M str :=
  markdown ← isinstance cell ClsMarkdownCell;
  if markdown : bool then
    let text := text ++ u "\n# %% [markdown]\n" in
    source ← getattr cell (u "source");
    lines ← stripped_lines fuel source;
    mret (text ++ (u "# " ++ str_join (u "\n# ") lines ++ u "\n"))
  else
    code ← isinstance cell ClsCodeCell;
    if code : bool then
      let text := text ++ u "\n# %%\n" in
      source ← getattr cell (u "source");
      lines ← stripped_lines fuel source;
      mret (text ++ (str_join (u "\n") lines ++ u "\n"))
    else mret text.

(** [PyPercentSerializer.to_py_percent] *)
Definition to_py_percent (fuel : nat) (notebook : value) : M str :=
  text ← py_for fuel notebook (to_py_percent_step fuel) [];
  mret (str_strip text).

(** One turn of the loop of [serialize], for the dict [s] under
    construction. *)
Definition serialize_step (s : loc) (_ : unit) (cell : value) : M unit :=
  i ← getattr cell (u "id");
  metadata ← alloc (ODict []);
  source ← getattr cell (u "source");
  dictionnaire1 ← alloc (ODict [(u "cell_type", VInt 0); (u "id", i);
                                (u "metadata", VRef metadata);
                                (u "source", source)]);
  markdown ← isinstance cell ClsMarkdownCell;
  (if markdown : bool then
     dict_setitem (VRef dictionnaire1) (u "cell_type") (VStr (u "markdown"))
   else
     code ← isinstance cell ClsCodeCell;
     if code : bool then
       dict_setitem (VRef dictionnaire1) (u "cell_type") (VStr (u "code"));;
       n ← getattr cell (u "execution_count");
       dict_setitem (VRef dictionnaire1) (u "execution_count") n;;
       outputs ← alloc (OList []);
       dict_setitem (VRef dictionnaire1) (u "outputs") (VRef outputs)
     else mret ());;
  cells ← getitem (VRef s) (u "cells");
  list_append cells (VRef dictionnaire1).

(** [Serializer.serialize]: returns a reference to the new dict [s]. *)
Definition serialize (fuel : nat) (notebook : value) : M value :=
  version ← getattr notebook (u "version");
  parts ← match version with
          | VStr v => mret (str_split DOT v)
          | _ => raise AttributeError
          end;
  match parts with
  | [n1; n2] =>
    cells ← alloc (OList []);
    metadata ← alloc (ODict []);
    major ← lift (py_int n1);
    minor ← lift (py_int n2);
    s ← alloc (ODict [(u "cells", VRef cells); (u "metadata", VRef metadata);
                      (u "nbformat", VInt major);
                      (u "nbformat_minor", VInt minor)]);
    py_for fuel notebook (serialize_step s) ();;
    mret (VRef s)
  | _ => raise ValueError
  end.

(** The choice of [start] in [Outliner.outline]. *)
Definition start (fuel : nat) (cell line : value) : M str :=
  source ← getattr cell (u "source");
  n ← py_len source;
  if (1 <? n)%nat then
    source ← getattr cell (u "source");
    first ← getitem_int source 0;
    same ← py_eq_value fuel line first;
    if same : bool then mret (u "┌ ")
    else
      source ← getattr cell (u "source");
      last ← getitem_int source (-1);
      same ← py_eq_value fuel line last;
      if same : bool then mret (u "└ ") else mret (u "│ ")
  else mret (u "|").

(** One turn of the inner loop of [outline]. *)
Definition outline_line (fuel : nat) (cell : value) (text : str)
    (line : value) : M str :=
  start ← start fuel cell line;
  stripped ← strip_method line;
  mret (text ++ (u "    " ++ start ++ u " " ++ stripped ++ u "\n")).

(** One turn of the outer loop of [outline]. *)
Definition outline_step (fuel : nat) (text : str) (cell : value) : M str :=
  markdown ← isinstance cell ClsMarkdownCell;
  '(cell_type, count) ←
    (if markdown : bool then mret (u "Markdown", u "")
     else
       n ← getattr cell (u "execution_count");
       n ← format_value fuel n;
       mret (u "Code", u " (" ++ n ++ u ")"));
  i ← getattr cell (u "id");
  i ← format_value fuel i;
  let text := text ++ (u "└─▶ " ++ cell_type ++ u " cell #" ++ i
                         ++ count ++ u "\n") in
  source ← getattr cell (u "source");
  py_for fuel source (outline_line fuel cell) text.

(** [Outliner.outline] *)
Definition outline (fuel : nat) (notebook : value) : M str :=
  version ← getattr notebook (u "version");
  version ← format_value fuel version;
  let text := u "Jupyter Notebook v" ++ version ++ u "\n" in
  text ← py_for fuel notebook (outline_step fuel) text;
  mret (drop_last text).

End Interpreted.

(** *** Laying a notebook out in the store *)

(** What [json.load] builds: one new object for every list and dict. *)
Fixpoint store_json (j : json) : M value :=
  match j with
  | JNull => mret VNone
  | JBool b => mret (VBool b)
  | JInt z => mret (VInt z)
  | JStr s => mret (VStr s)
  | JList items =>
    vs ← (fix store_items (items : list json) : M (list value) :=
            match items with
            | [] => mret []
            | x :: items' =>
              v ← store_json x; vs ← store_items items'; mret (v :: vs)
            end) items;
    l ← alloc (OList vs);
    mret (VRef l)
  | JDict entries =>
    es ← (fix store_entries (entries : list (str * json))
            : M (list (str * value)) :=
            match entries with
            | [] => mret []
            | (k, x) :: entries' =>
              v ← store_json x; es ← store_entries entries';
              mret ((k, v) :: es)
            end) entries;
    l ← alloc (ODict es);
    mret (VRef l)
  end.

(** An instance with the attributes its constructor sets, in the order
    it sets them. *)
Definition store_cell (c : cell) : M value :=
  match c with
  | Cell i src =>
    i ← store_json i; src ← store_json src;
    l ← alloc (OCell ClsCell [(u "id", i); (u "source", src)]);
    mret (VRef l)
  | CodeCell n i src =>
    n ← store_json n; i ← store_json i; src ← store_json src;
    l ← alloc (OCell ClsCodeCell
                 [(u "execution_count", n); (u "id", i); (u "source", src)]);
    mret (VRef l)
  | MarkdownCell i src =>
    i ← store_json i; src ← store_json src;
    l ← alloc (OCell ClsMarkdownCell [(u "id", i); (u "source", src)]);
    mret (VRef l)
  end.

Fixpoint store_cells (cs : list cell) : M (list value) :=
  match cs with
  | [] => mret []
  | c :: cs' => v ← store_cell c; vs ← store_cells cs'; mret (v :: vs)
  end.

Definition store_notebook (nb : notebook) : M value :=
  cs ← store_cells (cells nb);
  l ← alloc (OList cs);
  self ← alloc (ONotebook [(u "version", VStr (version nb));
                           (u "cells", VRef l)]);
  mret (VRef self).

(** What holds of the store while [serialize] runs from [h0], once it has
    made its dict [s]: the objects of [h0] are as they were, and [s] refers
    to a list [cells] that [serialize] made too. *)
Definition serializing (h0 : heap) (s cells : loc) (h : heap) : Prop :=
  h0 `prefix_of` h ∧ length h0 ≤ cells ∧ cells ≠ s
  ∧ ∃ entries, h !! s = Some (ODict entries)
               ∧ dict_get (u "cells") entries = Some (VRef cells).

Definition keeps {A} (I : heap -> Prop) (m : M A) : Prop :=
  ∀ h, I h → I (m h).2.

(** [list(notebook)]: the cells that one iteration of the notebook yields. *)
Definition iterate (fuel : nat) (notebook : value) : M (list value) :=
  py_for fuel notebook (fun seen cell => mret (seen ++ [cell])) [].

End Heap.

(** ** Vocabulary of the specification *)

(** [cls(ipynb)] for each of the three classes. *)
Definition construct (cls : cell_class) (ipynb : json) : result cell :=
  match cls with
  | ClsCell => Cell_init ipynb
  | ClsCodeCell => CodeCell_init ipynb
  | ClsMarkdownCell => MarkdownCell_init ipynb
  end.

(** The keys a raw cell must have: [id] and [source], and for a code cell
    [execution_count] too. *)
Definition required_keys (cls : cell_class) : list str :=
  match cls with
  | ClsCodeCell => [u "execution_count"; u "id"; u "source"]
  | _ => [u "id"; u "source"]
  end.

(** [raw['cell_type'] == t] for a raw entry that has the key. *)
Definition has_cell_type (t : str) (raw : json) : bool :=
  match getitem raw (u "cell_type") with
  | OK v => py_eq v (JStr t)
  | Raise _ => false
  end.

(** The entries a notebook retains: those whose [cell_type] is ["code"] or
    ["markdown"]. *)
Definition recognized (raw : json) : bool :=
  has_cell_type (u "code") raw || has_cell_type (u "markdown") raw.

Definition unrecognized (raw : json) : bool := negb (recognized raw).

(** What a retained entry becomes: a [CodeCell] for ["code"], a
    [MarkdownCell] for ["markdown"]. *)
Inductive retained_as (raw : json) (c : cell) : Prop :=
| retained_code :
    has_cell_type (u "code") raw = true → CodeCell_init raw = OK c →
    retained_as raw c
| retained_markdown :
    has_cell_type (u "markdown") raw = true → MarkdownCell_init raw = OK c →
    retained_as raw c.

(** A raw entry the loop of [Notebook.__init__] gets through: it has a
    [cell_type], and the fields of a cell if it is one of the two kinds
    the notebook retains. Nothing is asked of any other entry. *)
Definition loadable (raw : json) : Prop :=
  ∃ t, getitem raw (u "cell_type") = OK t
       ∧ (t = JStr (u "code") → ∃ c, CodeCell_init raw = OK c)
       ∧ (t = JStr (u "markdown") → ∃ c, MarkdownCell_init raw = OK c).

(** Every cell is an instance of one of the two subclasses. *)
Definition subclass_instance (c : cell) : Prop :=
  is_CodeCell c = true ∨ is_MarkdownCell c = true.

(** The entry [serialize] writes for a cell: [cell_type], [id], an empty
    [metadata] and the [source], and for a code cell its [execution_count]
    and an empty list of [outputs]. *)
Definition serialized_cell (c : cell) : json :=
  match c with
  | MarkdownCell i s =>
    JDict [(u "cell_type", JStr (u "markdown")); (u "id", i);
           (u "metadata", JDict []); (u "source", s)]
  | CodeCell n i s =>
    JDict [(u "cell_type", JStr (u "code")); (u "id", i);
           (u "metadata", JDict []); (u "source", s);
           (u "execution_count", n); (u "outputs", JList [])]
  | Cell i s =>
    JDict [(u "cell_type", JInt 0); (u "id", i);
           (u "metadata", JDict []); (u "source", s)]
  end.

(** The number of ["."] in a version string. *)
Definition count_dots (v : str) : nat :=
  length (List.filter (fun c => N.eqb c DOT) v).

(** A half of a version string is numeric when [int] accepts it. *)
Definition numeric `{Interpreter} (s : str) : Prop := ∃ z, py_int s = OK z.

(** An interpreter that knows no digits but the ASCII ones, to run the
    examples. *)
Definition ascii_interpreter : Interpreter := {|
  Py_UNICODE_TODECIMAL := fun _ => None;
  container_repr := fun _ => u "[...]";
|}.

(** A platform to run the examples on: [open] refuses the empty name (no
    such file) and a name with a NUL, and no other name. *)
Definition sample_platform : Platform := {|
  open_refused := fun _ name =>
    match name with
    | [] => Some FileNotFoundError
    | _ => if existsb (N.eqb 0) name then Some ValueError else None
    end;
|}.

(** A document with the cells that the docstrings show for
    [samples/hello-world.ipynb] (the file itself is not part of the
    sources: the output recorded for the code cell is a stand-in), and a
    variant with a raw cell in third position. *)
Definition hello_world_cells : list json :=
  [JDict [(u "cell_type", JStr (u "markdown")); (u "id", JStr (u "a9541506"));
          (u "metadata", JDict []);
          (u "source", JList [JStr (u "Hello world!\n");
                              JStr (u "============\n");
                              JStr (u "Print `Hello world!`:")])];
   JDict [(u "cell_type", JStr (u "code")); (u "execution_count", JInt 1);
          (u "id", JStr (u "b777420a")); (u "metadata", JDict []);
          (u "outputs", JList [JDict [(u "name", JStr (u "stdout"));
                                      (u "output_type", JStr (u "stream"));
                                      (u "text", JList [JStr (u "Hello world!\n")])]]);
          (u "source", JList [JStr (u "print(\x22Hello world!\x22)")])];
   JDict [(u "cell_type", JStr (u "markdown")); (u "id", JStr (u "a23ab5ac"));
          (u "metadata", JDict []);
          (u "source", JList [JStr (u "Goodbye! 👋")])]].

Definition ipynb_of (cells : list json) : json :=
  JDict [(u "cells", JList cells); (u "metadata", JDict []);
         (u "nbformat", JInt 4); (u "nbformat_minor", JInt 5)].

Definition hello_world : json := ipynb_of hello_world_cells.

Definition raw_cell : json :=
  JDict [(u "cell_type", JStr (u "raw")); (u "id", JStr (u "c0ffee00"));
         (u "metadata", JDict []); (u "source", JList [JStr (u "---")])].

Definition hello_world_raw : json :=
  ipynb_of (take 2 hello_world_cells ++ raw_cell :: drop 2 hello_world_cells).

(** The document [serialize] returns. *)
Definition serialized_notebook (major minor : Z) (cells : list cell) : json :=
  JDict [(u "cells", JList (map serialized_cell cells));
         (u "metadata", JDict []);
         (u "nbformat", JInt major); (u "nbformat_minor", JInt minor)].





(** *** The py-percent rendering *)

(** The source lines of a cell whose [source] is a list of [str]. *)
Fixpoint str_items (items : list json) : list str :=
  match items with
  | [] => []
  | JStr s :: items' => s :: str_items items'
  | _ :: items' => str_items items'
  end.

Definition lines_of (c : cell) : list str :=
  match cell_source c with
  | JList items => str_items items
  | _ => []
  end.

Definition has_source_list (c : cell) : Prop :=
  cell_source c = JList (map JStr (lines_of c)).

(** The marker line of a cell and the prefix of its body lines. *)
Definition marker (c : cell) : str :=
  if is_MarkdownCell c then u "# %% [markdown]" else u "# %%".

Definition line_prefix (c : cell) : str :=
  if is_MarkdownCell c then u "# " else u "".

(** What is emitted for a cell: a blank separator line, the marker line,
    then each source line, stripped and prefixed, on a line of its own. *)
Definition emitted (c : cell) : str :=
  match class_of c with
  | ClsCell => []
  | _ =>
    [NL] ++ marker c ++ [NL]
    ++ concat (map (fun l => line_prefix c ++ str_strip l ++ [NL]) (lines_of c))
  end.

(** The same for a cell that may have no source line at all: the body is
    then one line that holds the prefix and nothing else. *)
Definition emitted_or_empty (c : cell) : str :=
  match class_of c, lines_of c with
  | ClsCell, _ => []
  | _, [] => [NL] ++ marker c ++ [NL] ++ line_prefix c ++ [NL]
  | _, _ => emitted c
  end.

Definition hello_code_cell : cell :=
  CodeCell (JInt 1) (JStr (u "b777420a"))
    (JList [JStr (u "print(\x22Hello world!\x22)")]).

Definition hello_world_notebook : notebook :=
  Notebook (u "4.5")
    [MarkdownCell (JStr (u "a9541506"))
       (JList [JStr (u "Hello world!\n"); JStr (u "============\n");
               JStr (u "Print `Hello world!`:")]);
     hello_code_cell;
     MarkdownCell (JStr (u "a23ab5ac")) (JList [JStr (u "Goodbye! 👋")])].

(** *** The outline *)

(** The glyph in front of a source line: ["|"] when the cell has one line;
    otherwise ["┌ "] for a line equal to the first one, else ["└ "] for a
    line equal to the last one, else ["│ "]. *)
Definition glyph (lines : list str) (line : str) : str :=
  match lines with
  | [] | [_] => u "|"
  | first :: rest =>
    if str_eqb line first then u "┌ "
    else if str_eqb line (List.last rest first) then u "└ "
    else u "│ "
  end.

(** The glyph a line would get from its position alone. *)
Definition glyph_at (n i : nat) : str :=
  if n <=? 1 then u "|"
  else if i =? 0 then u "┌ "
  else if i =? n - 1 then u "└ "
  else u "│ ".

(** The header line of a cell in the outline. *)
Definition cell_header `{Interpreter} (c : cell) : str :=
  match c with
  | MarkdownCell i _ => u "└─▶ Markdown cell #" ++ py_format i ++ u "\n"
  | CodeCell n i _ =>
    u "└─▶ Code cell #" ++ py_format i ++ u " (" ++ py_format n ++ u ")\n"
  | Cell _ _ => []
  end.

(** A source line in the outline: four spaces, the glyph, a space, the
    stripped line. *)
Definition outlined (lines : list str) (line : str) : str :=
  u "    " ++ glyph lines line ++ u " " ++ str_strip line ++ u "\n".

(** *** Running on the store *)

(** Enough turns for every loop over the notebook: more than it has cells,
    and more than any of their sources has items. *)
Definition enough_fuel (fuel : nat) (n : notebook) : Prop :=
  length (cells n) < fuel
  ∧ Forall (fun c => ∀ k, Py.py_len (cell_source c) = OK k → k < fuel) (cells n).

(** The entry that [serialize] has built at [p] for the cell [c], in a
    store [hk] that grew out of [h]: the dict refers to the very values
    that are the attributes of the cell in [h], and to containers made for
    it at or after [fresh]. *)
Definition serialized_at (depth : nat) (h : Heap.heap) (fresh : nat)
    (hk : Heap.heap) (p : nat) (c : cell) : Prop :=
  fresh ≤ p
  ∧ ∃ xi xs m,
      Heap.read_json depth h xi = Heap.Done (cell_id c)
      ∧ Heap.read_json depth h xs = Heap.Done (cell_source c)
      ∧ fresh ≤ m ∧ hk !! m = Some (Heap.ODict [])
      ∧ match c with
        | MarkdownCell _ _ =>
          hk !! p = Some (Heap.ODict
            [(u "cell_type", Heap.VStr (u "markdown")); (u "id", xi);
             (u "metadata", Heap.VRef m); (u "source", xs)])
        | CodeCell n _ _ =>
          ∃ xn o,
            Heap.read_json depth h xn = Heap.Done n
            ∧ fresh ≤ o ∧ hk !! o = Some (Heap.OList [])
            ∧ hk !! p = Some (Heap.ODict
                [(u "cell_type", Heap.VStr (u "code")); (u "id", xi);
                 (u "metadata", Heap.VRef m); (u "source", xs);
                 (u "execution_count", xn); (u "outputs", Heap.VRef o)])
        | Cell _ _ =>
          hk !! p = Some (Heap.ODict
            [(u "cell_type", Heap.VInt 0); (u "id", xi);
             (u "metadata", Heap.VRef m); (u "source", xs)])
        end.

(** What holds of the store [hk] when [serialize], started in [h], has
    been through the cells [done]: its dict [s] and its two containers are
    in place, and the list holds one entry for each of those cells. *)
Definition serializing_cells (depth : nat) (h : Heap.heap)
    (s cl md : nat) (major minor : Z) (fresh : nat)
    (done : list cell) (hk : Heap.heap) : Prop :=
  h `prefix_of` hk ∧ fresh ≤ length hk
  ∧ length h ≤ cl ∧ cl < fresh ∧ s < fresh ∧ md < fresh
  ∧ cl ≠ s ∧ cl ≠ md
  ∧ hk !! s = Some (Heap.ODict
      [(u "cells", Heap.VRef cl); (u "metadata", Heap.VRef md);
       (u "nbformat", Heap.VInt major); (u "nbformat_minor", Heap.VInt minor)])
  ∧ hk !! md = Some (Heap.ODict [])
  ∧ ∃ ps, hk !! cl = Some (Heap.OList (map Heap.VRef ps))
          ∧ Forall2 (serialized_at depth h fresh hk) ps done.

(** *** Further vocabulary *)

(** The first key, in the order in which the constructor of [cls] reads
    them, that a raw dict lacks. *)
Definition first_missing (cls : cell_class) (d : list (str * json))
  : option str :=
  List.find (fun k => match dict_get k d with Some _ => false | None => true end)
    (required_keys cls).

(** What the loop of [Notebook.__init__] raises on a raw entry, if it
    raises: an entry has to be a dict with a [cell_type], and with the
    fields of a cell if it is a code or a markdown entry. *)
Definition entry_error (raw : json) : option exn :=
  match raw with
  | JDict d =>
    match dict_get (u "cell_type") d with
    | None => Some (KeyError (JStr (u "cell_type")))
    | Some t =>
      if py_eq t (JStr (u "code"))
      then (fun k => KeyError (JStr k)) <$> first_missing ClsCodeCell d
      else if py_eq t (JStr (u "markdown"))
      then (fun k => KeyError (JStr k)) <$> first_missing ClsMarkdownCell d
      else None
    end
  | _ => Some TypeError
  end.

(** The same cell with another [source]. *)
Definition with_source (c : cell) (source : json) : cell :=
  match c with
  | Cell i _ => Cell i source
  | CodeCell n i _ => CodeCell n i source
  | MarkdownCell i _ => MarkdownCell i source
  end.

(** The list of the characters of a [str], each a [str] of length one. *)
Definition characters (s : str) : json := JList (map (fun ch => JStr [ch]) s).

(** A cell [to_py_percent] gets through: one of the base class, which it
    skips, or one whose [source] yields [str] items only. *)
Definition renderable (c : cell) : Prop :=
  class_of c = ClsCell ∨ ∃ lines, py_iter (cell_source c) = OK (map JStr lines).

(** What [outline] writes for a cell: its header line, then its source
    lines. *)
Definition outline_block `{Interpreter} (c : cell) : str :=
  cell_header c ++ concat (map (outlined (lines_of c)) (lines_of c)).

(** A cell whose [source] is a [str], with the list of its characters in
    the place of the [str]; any other cell as it is. *)
Definition by_character (c : cell) : cell :=
  match cell_source c with
  | JStr s => with_source c (characters s)
  | _ => c
  end.

(** The entry at [p] of a store [hk] that grew out of [h] holds the very
    values that are the attributes [id] and [source] of the instance [x]:
    for a list, the same object and not a copy of it. *)
Definition entry_shares (h hk : Heap.heap) (x : Heap.value) (p : nat) : Prop :=
  ∃ entries xi xs,
    hk !! p = Some (Heap.ODict entries)
    ∧ Heap.getattr x (u "id") h = (Heap.Done xi, h)
    ∧ dict_get (u "id") entries = Some xi
    ∧ Heap.getattr x (u "source") h = (Heap.Done xs, h)
    ∧ dict_get (u "source") entries = Some xs.

(** The lines [to_py_percent] writes for a code or a markdown cell: the
    marker, then the source lines, stripped and prefixed; a cell without
    source lines has one body line, which holds the prefix. *)
Definition block_lines (c : cell) : list str :=
  marker c :: match lines_of c with
              | [] => [line_prefix c]
              | ls => map (fun l => line_prefix c ++ str_strip l) ls
              end.

(** The lines of the blocks of the cells, an empty line between two
    blocks. *)
Fixpoint blocks_lines (cs : list cell) : list str :=
  match cs with
  | [] => []
  | [c] => block_lines c
  | c :: cs' => block_lines c ++ [] :: blocks_lines cs'
  end.

(** The lines of the blocks of [cs], an empty line, and the lines [rest];
    the lines [rest] alone when there is no cell before them. *)
Definition lines_then (cs : list cell) (rest : list str) : list str :=
  match cs with
  | [] => rest
  | _ => blocks_lines cs ++ [] :: rest
  end.

(** An empty line and the lines of the blocks of [cs]; nothing when there
    is no cell. *)
Definition then_lines (cs : list cell) : list str :=
  match cs with
  | [] => []
  | _ => [] :: blocks_lines cs
  end.
(** * Properties *)

(** ** Strings *)

Lemma str_eqb_eq (s t : str) : str_eqb s t = true ↔ s = t.
Proof.
  revert t. induction s as [|c s IH]; intros [|d t]; simpl; try easy.
  rewrite andb_true_iff, N.eqb_eq, IH. split.
  - intros [-> ->]. reflexivity.
  - intros [= -> ->]. auto.
Qed.

Lemma str_eqb_refl (s : str) : str_eqb s s = true.
Proof. apply str_eqb_eq. reflexivity. Qed.

Lemma str_eqb_neq (s t : str) : str_eqb s t = false ↔ s ≠ t.
Proof.
  rewrite <- str_eqb_eq. destruct (str_eqb s t); split; congruence.
Qed.


Lemma str_lstrip_head (s : str) (c : char) :
  head (str_lstrip s) = Some c → is_whitespace c = false.
Proof.
  induction s as [|d s IH]; simpl; [discriminate|].
  destruct (is_whitespace d) eqn:Hd; [exact IH|].
  simpl. intros [= <-]. exact Hd.
Qed.

Lemma head_rev {A} (l : list A) : head (rev l) = last l.
Proof.
  induction l as [|x l IH]; [reflexivity|].
  simpl. rewrite last_cons, <- IH.
  destruct (rev l); reflexivity.
Qed.

Lemma last_rev {A} (l : list A) : last (rev l) = head l.
Proof. rewrite <- head_rev, rev_involutive. reflexivity. Qed.


Lemma str_strip_last (s : str) (c : char) :
  last (str_strip s) = Some c → is_whitespace c = false.
Proof.
  unfold str_strip, str_rstrip. rewrite last_rev. apply str_lstrip_head.
Qed.

Lemma str_lstrip_id (s : str) (c : char) :
  is_whitespace c = false → str_lstrip (c :: s) = c :: s.
Proof. intros Hc. simpl. rewrite Hc. reflexivity. Qed.

(** ** The error monad *)

Lemma bind_OK {A B} (m : result A) (f : A → result B) (b : B) :
  m ≫= f = OK b ↔ ∃ a, m = OK a ∧ f a = OK b.
Proof.
  destruct m as [a|e]; simpl.
  - split; [eauto | intros (? & [= <-] & ?); assumption].
  - split; [discriminate | intros (? & [=] & _)].
Qed.

Lemma foldM_app {A B} (step : A → B → result A) (acc : A) (l1 l2 : list B) :
  foldM step acc (l1 ++ l2) = foldM step acc l1 ≫= fun acc' => foldM step acc' l2.
Proof.
  revert acc. induction l1 as [|x l1 IH]; intros acc; simpl; [reflexivity|].
  destruct (step acc x); simpl; [apply IH | reflexivity].
Qed.

Lemma mapM_result_OK {A B} (f : A → result B) (g : A → B) (l : list A) :
  Forall (fun x => f x = OK (g x)) l → mapM_result f l = OK (map g l).
Proof.
  induction 1 as [|x l Hx _ IH]; simpl; [reflexivity|].
  rewrite Hx, IH. reflexivity.
Qed.

(** ** Decimal conversions *)

Section Decimal.
Context `{Interpreter}.
Local Open Scope N_scope.

(** The number a little-endian list of digits stands for. *)
Lemma to_digits_spec (fuel : nat) (n : N) :
  n < 2 ^ N.of_nat fuel →
  ∃ d ds, to_digits (S fuel) n = d :: ds
          ∧ Forall (fun d => d < 10) (d :: ds)
          ∧ fold_right (fun d acc => d + 10 * acc) 0 (d :: ds) = n.
Proof.
  revert n. induction fuel as [|fuel IH]; intros n Hn.
  - assert (n = 0) as -> by (simpl in Hn; lia).
    exists 0, []. repeat split. repeat constructor.
  - change (to_digits (S (S fuel)) n)
      with (if n <? 10 then [n] else (n mod 10) :: to_digits (S fuel) (n / 10)).
    destruct (N.ltb_spec n 10) as [Hlt|Hge].
    + exists n, []. repeat split; [repeat constructor; exact Hlt | simpl; lia].
    + destruct (IH (n / 10)) as (d & ds & Hd & Hall & Hval).
      { apply N.Div0.div_lt_upper_bound.
        rewrite Nat2N.inj_succ, N.pow_succ_r' in Hn. lia. }
      exists (n mod 10), (d :: ds). rewrite Hd. split; [reflexivity|]. split.
      * constructor; [apply N.mod_lt; lia | exact Hall].
      * change (n mod 10 + 10 * fold_right (fun d acc => d + 10 * acc) 0 (d :: ds) = n).
        rewrite Hval. pose proof (N.div_mod n 10). lia.
Qed.

Lemma digit_value_ascii (d : N) : d < 10 → digit_value (48 + d) = Some d.
Proof.
  intros Hd. unfold digit_value.
  replace ((48 <=? 48 + d) && (48 + d <=? 57)) with true.
  - f_equal. lia.
  - symmetry. apply andb_true_iff. split; apply N.leb_le; lia.
Qed.

Lemma digits_acc_ascii (ds : list N) (acc : N) (after : bool) :
  Forall (fun d => d < 10) ds → ds ≠ [] ∨ after = true →
  digits_acc acc after (map (fun d => 48 + d) ds)
  = Some (fold_left (fun a d => 10 * a + d) ds acc).
Proof.
  intros Hall. revert acc after.
  induction Hall as [|d ds Hd _ IH]; intros acc after Hne.
  - destruct Hne as [Hne| ->]; [contradiction | reflexivity].
  - cbn [map digits_acc].
    replace (48 + d =? 95) with false by (symmetry; apply N.eqb_neq; lia).
    rewrite digit_value_ascii by exact Hd. simpl.
    apply IH. right. reflexivity.
Qed.

Lemma fold_left_rev_digits (ds : list N) :
  fold_left (fun a d => 10 * a + d) (rev ds) 0
  = fold_right (fun d acc => d + 10 * acc) 0 ds.
Proof.
  induction ds as [|d ds IH]; [reflexivity|].
  simpl. rewrite fold_left_app. simpl. rewrite IH. lia.
Qed.

(** The digits of [str(n)] read back as [n]. *)
Lemma digits_acc_str_of_N (n : N) :
  digits_acc 0 false (str_of_N n) = Some n.
Proof.
  unfold str_of_N.
  destruct (to_digits_spec (N.to_nat (N.size n)) n) as (d & ds & Hd & Hall & Hv).
  { rewrite N2Nat.id. apply N.size_gt. }
  rewrite Hd, digits_acc_ascii.
  - rewrite fold_left_rev_digits, Hv. reflexivity.
  - apply Forall_rev, Hall.
  - left. simpl. destruct (rev ds); discriminate.
Qed.

(** [str(n)] is a non-empty run of ASCII digits. *)
Lemma str_of_N_digits (n : N) :
  str_of_N n ≠ [] ∧ Forall (fun c => 48 <= c <= 57) (str_of_N n).
Proof.
  unfold str_of_N.
  destruct (to_digits_spec (N.to_nat (N.size n)) n) as (d & ds & Hd & Hall & _).
  { rewrite N2Nat.id. apply N.size_gt. }
  rewrite Hd. split.
  - simpl. rewrite map_app. destruct (map _ (rev ds)); discriminate.
  - apply Forall_map, Forall_rev. eapply Forall_impl; [exact Hall|].
    simpl. intros; lia.
Qed.

Lemma str_of_Z_chars (z : Z) :
  str_of_Z z ≠ []
  ∧ Forall (fun c => c = 45 ∨ 48 <= c <= 57) (str_of_Z z)
  ∧ ∀ c, last (str_of_Z z) = Some c → 48 <= c <= 57.
Proof.
  assert (Hlast : ∀ n c, last (str_of_N n) = Some c → 48 <= c <= 57).
  { intros n c Hc. destruct (str_of_N_digits n) as [_ Hall].
    rewrite Forall_forall in Hall. apply Hall.
    apply last_Some_elem_of, Hc. }
  assert (Hdig : ∀ n, Forall (fun c => c = 45 ∨ 48 <= c <= 57) (str_of_N n)).
  { intros n. destruct (str_of_N_digits n) as [_ Hall].
    eapply Forall_impl; [exact Hall|]. simpl. auto. }
  destruct z as [|p|p].
  - change (str_of_Z 0) with (str_of_N 0).
    split; [apply str_of_N_digits|]. split; [apply Hdig | apply Hlast].
  - change (str_of_Z (Z.pos p)) with (str_of_N (N.pos p)).
    split; [apply str_of_N_digits|]. split; [apply Hdig | apply Hlast].
  - change (str_of_Z (Z.neg p)) with (45 :: str_of_N (N.pos p)).
    split; [discriminate|]. split; [constructor; [auto | apply Hdig]|].
    intros c. rewrite last_cons.
    destruct (last (str_of_N (N.pos p))) eqn:E.
    + intros [= <-]. eapply Hlast, E.
    + apply last_None in E. destruct (str_of_N_digits (N.pos p)). contradiction.
Qed.

Lemma int_lstrip_id (c : char) (s : str) :
  is_int_space c = false → int_lstrip (c :: s) = c :: s.
Proof. intros Hc. simpl. rewrite Hc. reflexivity. Qed.

Lemma not_int_space (c : char) :
  c = 45 ∨ 48 <= c <= 57 → is_int_space c = false.
Proof.
  intros Hc. unfold is_int_space.
  replace (127 <=? c) with false by (symmetry; apply N.leb_gt; lia).
  replace (c =? 32) with false by (symmetry; apply N.eqb_neq; lia).
  replace (c <=? 13) with false by (symmetry; apply N.leb_gt; lia).
  rewrite andb_false_r. reflexivity.
Qed.

(** Nothing is stripped from a string with no blank at either end. *)
Lemma int_strip_id (s : str) :
  (∀ c, head s = Some c → is_int_space c = false) →
  (∀ c, last s = Some c → is_int_space c = false) →
  int_strip s = s.
Proof.
  intros Hhead Hlast. unfold int_strip. destruct s as [|c s]; [reflexivity|].
  rewrite int_lstrip_id by (apply Hhead; reflexivity).
  destruct (rev (c :: s)) as [|c' s'] eqn:Er.
  { apply (f_equal (@length _)) in Er. rewrite length_rev in Er. discriminate. }
  rewrite int_lstrip_id, <- Er, rev_involutive; [reflexivity|].
  apply Hlast. rewrite <- head_rev, Er. reflexivity.
Qed.

(** [int(str(z)) == z] *)
Lemma py_int_str_of_Z (z : Z) : py_int (str_of_Z z) = OK z.
Proof.
  destruct (str_of_Z_chars z) as (Hne & Hall & Hlast).
  assert (Hstrip : int_strip (str_of_Z z) = str_of_Z z).
  { apply int_strip_id; intros c Hc; apply not_int_space.
    - rewrite Forall_forall in Hall. apply Hall, head_Some_elem_of, Hc.
    - right. apply Hlast, Hc. }
  unfold py_int. rewrite Hstrip. clear Hstrip Hne Hall Hlast.
  assert (Hpos : ∀ n, py_int_sign (str_of_N n) = (false, str_of_N n)).
  { intros n. destruct (str_of_N_digits n) as [Hn Hdig].
    destruct (str_of_N n) as [|c r]; [contradiction|].
    inversion Hdig as [|? ? Hc _]; subst. unfold py_int_sign.
    replace (c =? 45) with false by (symmetry; apply N.eqb_neq; lia).
    replace (c =? 43) with false by (symmetry; apply N.eqb_neq; lia).
    reflexivity. }
  destruct z as [|p|p].
  - change (str_of_Z 0) with (str_of_N 0).
    rewrite Hpos. cbv iota beta. rewrite digits_acc_str_of_N. reflexivity.
  - change (str_of_Z (Z.pos p)) with (str_of_N (N.pos p)).
    rewrite Hpos. cbv iota beta. rewrite digits_acc_str_of_N. reflexivity.
  - change (str_of_Z (Z.neg p)) with (45 :: str_of_N (N.pos p)).
    change (py_int_sign (45 :: str_of_N (N.pos p)))
      with (true, str_of_N (N.pos p)).
    cbv iota beta. rewrite digits_acc_str_of_N. reflexivity.
Qed.

End Decimal.

(** ** Cells *)

Ltac elem_of_list :=
  repeat match goal with
         | H : _ ∈ _ |- _ => apply list_elem_of_In in H; simpl in H
         end;
  apply list_elem_of_In; simpl; intuition (subst; auto).

Lemma getitem_dict (d : list (str * json)) (k : str) :
  getitem (JDict d) k
  = match dict_get k d with
    | Some v => OK v
    | None => Raise (KeyError (JStr k))
    end.
Proof. reflexivity. Qed.

(** With every required key present the constructor succeeds, and stores
    the values verbatim. *)
Lemma Cell_init_OK (d : list (str * json)) (i s : json) :
  dict_get (u "id") d = Some i → dict_get (u "source") d = Some s →
  Cell_init (JDict d) = OK (Cell i s).
Proof.
  intros Hi Hs. unfold Cell_init. rewrite !getitem_dict, Hi, Hs. reflexivity.
Qed.

Lemma MarkdownCell_init_OK (d : list (str * json)) (i s : json) :
  dict_get (u "id") d = Some i → dict_get (u "source") d = Some s →
  MarkdownCell_init (JDict d) = OK (MarkdownCell i s).
Proof.
  intros Hi Hs. unfold MarkdownCell_init.
  rewrite (Cell_init_OK d i s Hi Hs). reflexivity.
Qed.

Lemma CodeCell_init_OK (d : list (str * json)) (n i s : json) :
  dict_get (u "execution_count") d = Some n →
  dict_get (u "id") d = Some i → dict_get (u "source") d = Some s →
  CodeCell_init (JDict d) = OK (CodeCell n i s).
Proof.
  intros Hn Hi Hs. unfold CodeCell_init.
  rewrite getitem_dict, Hn, (Cell_init_OK d i s Hi Hs). reflexivity.
Qed.

(** C8. Constructing a cell from a raw structure that lacks a required key
    fails with [KeyError]: [id] and [source] are required by every class,
    [execution_count] by [CodeCell] as well. The exception names a required
    key that is absent. *)
Theorem cell_init_missing_key
    (cls : cell_class) (d : list (str * json)) (k : str) :
  k ∈ required_keys cls → dict_get k d = None →
  ∃ k', k' ∈ required_keys cls ∧ dict_get k' d = None
        ∧ construct cls (JDict d) = Raise (KeyError (JStr k')).
Proof.
  intros Hk Hnone.
  assert (Hbase : dict_get (u "id") d = None ∨ dict_get (u "source") d = None →
    ∃ k', k' ∈ [u "id"; u "source"] ∧ dict_get k' d = None
          ∧ Cell_init (JDict d) = Raise (KeyError (JStr k'))).
  { intros Hmiss. unfold Cell_init. rewrite !getitem_dict.
    destruct (dict_get (u "id") d) as [i|] eqn:Hi.
    - destruct Hmiss as [|Hs]; [discriminate|].
      exists (u "source"). rewrite Hs. split; [elem_of_list | split; reflexivity].
    - exists (u "id"). split; [elem_of_list | split; [assumption | reflexivity]]. }
  assert (Hin : cls = ClsCodeCell ∧ k = u "execution_count"
                ∨ k ∈ [u "id"; u "source"]).
  { apply list_elem_of_In in Hk.
    destruct cls; simpl in Hk; [right; elem_of_list| |right; elem_of_list].
    destruct Hk as [<-|Hk]; [left; split; reflexivity | right; elem_of_list]. }
  assert (Hmiss : k ∈ [u "id"; u "source"] →
                  dict_get (u "id") d = None ∨ dict_get (u "source") d = None).
  { intros Hk'. apply list_elem_of_In in Hk'. simpl in Hk'.
    destruct Hk' as [<-|[<-|[]]]; auto. }
  destruct cls; simpl.
  - destruct Hin as [[[=] _]|Hk']. apply Hbase, Hmiss, Hk'.
  - unfold CodeCell_init. rewrite getitem_dict.
    destruct (dict_get (u "execution_count") d) as [n|] eqn:Hn.
    + destruct Hin as [[_ ->]|Hk']; [congruence|].
      destruct (Hbase (Hmiss Hk')) as (k' & Hk'in & Hk'none & Hraise).
      exists k'. simpl. rewrite Hraise.
      split; [elem_of_list | split; [assumption | reflexivity]].
    + exists (u "execution_count").
      split; [elem_of_list | split; [assumption | reflexivity]].
  - unfold MarkdownCell_init.
    destruct Hin as [[[=] _]|Hk'].
    destruct (Hbase (Hmiss Hk')) as (k' & Hk'in & Hk'none & Hraise).
    exists k'. rewrite Hraise. split; [assumption | split; [assumption | reflexivity]].
Qed.

Lemma cell_init_missing_key_witness :
  ∃ k', k' ∈ required_keys ClsCodeCell
        ∧ dict_get k' [(u "id", JStr (u "b777420a")); (u "source", JList [])]
          = None
        ∧ construct ClsCodeCell
            (JDict [(u "id", JStr (u "b777420a")); (u "source", JList [])])
          = Raise (KeyError (JStr k')).
Proof.
  apply (cell_init_missing_key ClsCodeCell _ (u "execution_count")).
  - elem_of_list.
  - reflexivity.
Defined.

(** ** Notebook construction *)

Lemma py_eq_str (v : json) (t : str) : py_eq v (JStr t) = true ↔ v = JStr t.
Proof.
  destruct v; simpl; try (split; [discriminate | intros [=]]).
  rewrite str_eqb_eq. split; [intros -> | intros [= ->]]; reflexivity.
Qed.

Lemma py_eq_str_false (v : json) (t : str) :
  py_eq v (JStr t) = false ↔ v ≠ JStr t.
Proof.
  rewrite <- py_eq_str. destruct (py_eq v (JStr t)); split; congruence.
Qed.

Lemma CodeCell_init_is_CodeCell (raw : json) (c : cell) :
  CodeCell_init raw = OK c → is_CodeCell c = true.
Proof.
  unfold CodeCell_init. intros Hc.
  apply bind_OK in Hc as (n & _ & Hc). apply bind_OK in Hc as (b & _ & [= <-]).
  reflexivity.
Qed.

Lemma MarkdownCell_init_is_MarkdownCell (raw : json) (c : cell) :
  MarkdownCell_init raw = OK c → is_MarkdownCell c = true.
Proof.
  unfold MarkdownCell_init. intros Hc.
  apply bind_OK in Hc as (b & _ & [= <-]). reflexivity.
Qed.

Lemma retained_as_subclass (raw : json) (c : cell) :
  retained_as raw c → subclass_instance c.
Proof.
  intros [_ Hc|_ Hc]; [left | right];
    eauto using CodeCell_init_is_CodeCell, MarkdownCell_init_is_MarkdownCell.
Qed.

(** One turn of the loop, on an entry it gets through: a recognized entry
    appends its cell, any other leaves the list as it is. *)
Lemma Notebook_init_step_loadable (acc : list cell) (raw : json) :
  loadable raw →
  (recognized raw = true
   ∧ ∃ c, retained_as raw c ∧ Notebook_init_step acc raw = OK (acc ++ [c]))
  ∨ (recognized raw = false ∧ Notebook_init_step acc raw = OK acc).
Proof.
  intros (t & Ht & Hcode & Hmd).
  unfold Notebook_init_step, recognized, has_cell_type. rewrite Ht. simpl.
  destruct (py_eq t (JStr (u "code"))) eqn:Ec.
  - apply py_eq_str in Ec. destruct (Hcode Ec) as [c Hc].
    left. split; [reflexivity|]. exists c. split.
    + apply retained_code; [|exact Hc].
      unfold has_cell_type. rewrite Ht. apply py_eq_str, Ec.
    + rewrite Hc. simpl.
      replace (py_eq t (JStr (u "markdown"))) with false; [reflexivity|].
      symmetry. apply py_eq_str_false. rewrite Ec. discriminate.
  - simpl. destruct (py_eq t (JStr (u "markdown"))) eqn:Em.
    + apply py_eq_str in Em. destruct (Hmd Em) as [c Hc].
      left. split; [reflexivity|]. exists c. split.
      * apply retained_markdown; [|exact Hc].
        unfold has_cell_type. rewrite Ht. apply py_eq_str, Em.
      * rewrite Hc. reflexivity.
    + right. split; reflexivity.
Qed.

Lemma Notebook_init_fold (acc : list cell) (entries : list json) :
  Forall loadable entries →
  ∃ new, foldM Notebook_init_step acc entries = OK (acc ++ new)
         ∧ Forall2 retained_as (List.filter recognized entries) new
         ∧ length new + length (List.filter unrecognized entries)
           = length entries.
Proof.
  intros Hall. revert acc.
  induction Hall as [|raw entries Hraw _ IH]; intros acc.
  - exists []. rewrite app_nil_r. repeat split. constructor.
  - simpl. unfold unrecognized in *.
    destruct (Notebook_init_step_loadable acc raw Hraw)
      as [(Hrec & c & Hc & Hstep)|(Hrec & Hstep)]; rewrite Hstep, Hrec; simpl.
    + destruct (IH (acc ++ [c])) as (new & Hfold & Hret & Hlen).
      exists (c :: new). rewrite Hfold, <- app_assoc. simpl.
      split; [reflexivity|]. split; [constructor; assumption | lia].
    + destruct (IH acc) as (new & Hfold & Hret & Hlen).
      exists new. simpl. split; [assumption|]. split; [assumption | lia].
Qed.

(** The loop only succeeds on entries it gets through. *)
Lemma Notebook_init_step_inv (acc acc' : list cell) (raw : json) :
  Notebook_init_step acc raw = OK acc' → loadable raw.
Proof.
  unfold Notebook_init_step. intros Hstep.
  apply bind_OK in Hstep as (t & Ht & Hstep).
  apply bind_OK in Hstep as (acc1 & H1 & Hstep).
  rewrite Ht in Hstep. simpl in Hstep.
  exists t. split; [exact Ht|]. split; intros ->.
  - rewrite (proj2 (py_eq_str _ _) eq_refl) in H1.
    apply bind_OK in H1 as (c & Hc & _). eauto.
  - rewrite (proj2 (py_eq_str _ _) eq_refl) in Hstep.
    apply bind_OK in Hstep as (c & Hc & _). eauto.
Qed.

Lemma Notebook_init_fold_inv (acc acc' : list cell) (entries : list json) :
  foldM Notebook_init_step acc entries = OK acc' → Forall loadable entries.
Proof.
  revert acc. induction entries as [|raw entries IH]; intros acc Hfold.
  - constructor.
  - simpl in Hfold. apply bind_OK in Hfold as (acc1 & Hstep & Hfold).
    constructor; eauto using Notebook_init_step_inv.
Qed.

Section NotebookProps.
Context `{Interpreter}.

(** Every cell of a constructed notebook is a [CodeCell] or a
    [MarkdownCell]. *)
Lemma Notebook_init_subclass (ipynb : json) (nb : notebook) :
  Notebook_init ipynb = OK nb → Forall subclass_instance (cells nb).
Proof.
  unfold Notebook_init. intros Hnb.
  apply bind_OK in Hnb as (v & _ & Hnb).
  apply bind_OK in Hnb as (raw_cells & _ & Hnb).
  apply bind_OK in Hnb as (entries & _ & Hnb).
  apply bind_OK in Hnb as (cs & Hfold & [= <-]). simpl.
  destruct (Notebook_init_fold [] entries) as (new & Hfold' & Hret & _);
    [eauto using Notebook_init_fold_inv|].
  rewrite Hfold in Hfold'. injection Hfold' as ->. simpl.
  clear Hfold. induction Hret; constructor; eauto using retained_as_subclass.
Qed.

(** C2. [Notebook.__init__] retains exactly the raw entries whose
    [cell_type] is ["code"] or ["markdown"], as a [CodeCell] or a
    [MarkdownCell] respectively and in their original order; every other
    entry is dropped without an error, so the number of cells is the number
    of entries less the unrecognized ones, and nothing is lost when all
    entries are recognized. *)
Theorem notebook_init_retains
    (ipynb : json) (v : str) (entries : list json) :
  get_format_version ipynb = OK v →
  getitem ipynb (u "cells") ≫= py_iter = OK entries →
  Forall loadable entries →
  ∃ cs, Notebook_init ipynb = OK (Notebook v cs)
        ∧ Forall2 retained_as (List.filter recognized entries) cs
        ∧ length cs + length (List.filter unrecognized entries)
          = length entries
        ∧ (forallb recognized entries = true →
           Forall2 retained_as entries cs ∧ length cs = length entries).
Proof.
  intros Hv Hcells Hall.
  apply bind_OK in Hcells as (raw_cells & Hraw & Hiter).
  destruct (Notebook_init_fold [] entries Hall) as (cs & Hfold & Hret & Hlen).
  exists cs. unfold Notebook_init. rewrite Hv. simpl. rewrite Hraw. simpl.
  rewrite Hiter. simpl. rewrite Hfold. simpl.
  split; [reflexivity|]. split; [exact Hret|]. split; [exact Hlen|].
  intros Hrec.
  assert (Hid : List.filter recognized entries = entries).
  { clear -Hrec. induction entries as [|raw entries IH]; [reflexivity|].
    simpl in *. apply andb_true_iff in Hrec as [-> Hrec]. now rewrite IH. }
  rewrite Hid in Hret. split; [exact Hret|].
  symmetry. eapply Forall2_length, Hret.
Qed.

End NotebookProps.

(** An entry without a [cell_type] is not dropped: the lookup fails. *)
Lemma Notebook_init_missing_cell_type :
  Notebook_init (H := ascii_interpreter)
    (ipynb_of [JDict [(u "id", JStr (u "c0ffee00")); (u "source", JList [])]])
  = Raise (KeyError (JStr (u "cell_type"))).
Proof. reflexivity. Qed.

Ltac loadable_entries :=
  repeat (constructor;
          [eexists; split; [reflexivity|];
           split; intros E; try discriminate E; eexists; reflexivity|]);
  constructor.

Lemma notebook_init_retains_witness :
  let entries := take 2 hello_world_cells ++ raw_cell :: drop 2 hello_world_cells in
  ∃ cs, Notebook_init (H := ascii_interpreter) hello_world_raw
        = OK (Notebook (u "4.5") cs)
        ∧ Forall2 retained_as (List.filter recognized entries) cs
        ∧ length cs + length (List.filter unrecognized entries)
          = length entries
        ∧ (forallb recognized entries = true →
           Forall2 retained_as entries cs ∧ length cs = length entries).
Proof.
  apply (notebook_init_retains (H := ascii_interpreter)).
  - reflexivity.
  - reflexivity.
  - simpl. loadable_entries.
Defined.

(** ** [str.split] *)

Lemma str_split_nonempty (sep : char) (s : str) : str_split sep s ≠ [].
Proof.
  destruct s as [|c s]; simpl; [discriminate|].
  destruct (N.eqb c sep); [discriminate|].
  destruct (str_split sep s); discriminate.
Qed.

Lemma str_split_length (s : str) :
  length (str_split DOT s) = S (count_dots s).
Proof.
  unfold count_dots. induction s as [|c s IH]; simpl; [reflexivity|].
  destruct (N.eqb c DOT); simpl; [rewrite IH; reflexivity|].
  destruct (str_split DOT s); simpl in *; [discriminate | exact IH].
Qed.

(** Joining the pieces with the separator gives the string back. *)
Lemma str_split_join (sep : char) (s : str) :
  str_join [sep] (str_split sep s) = s.
Proof.
  induction s as [|c s IH]; simpl; [reflexivity|].
  destruct (N.eqb_spec c sep) as [->|Hne].
  - pose proof (str_split_nonempty sep s).
    destruct (str_split sep s) as [|p ps]; [contradiction|].
    simpl in *. rewrite IH. reflexivity.
  - destruct (str_split sep s) as [|p [|q ps]]; simpl in *; congruence.
Qed.

Lemma str_split_two (s n1 n2 : str) :
  str_split DOT s = [n1; n2] → s = n1 ++ DOT :: n2 ∧ count_dots s = 1.
Proof.
  intros Hs. split.
  - rewrite <- (str_split_join DOT s), Hs. reflexivity.
  - pose proof (str_split_length s) as Hl. rewrite Hs in Hl. simpl in Hl. lia.
Qed.

Lemma count_dots_app (s t : str) :
  count_dots (s ++ t) = count_dots s + count_dots t.
Proof. unfold count_dots. rewrite List.filter_app, length_app. reflexivity. Qed.

Lemma str_split_no_dot (s : str) : count_dots s = 0 → str_split DOT s = [s].
Proof.
  unfold count_dots. induction s as [|c s IH]; simpl; [reflexivity|].
  destruct (N.eqb c DOT); simpl; [discriminate|].
  intros Hs. rewrite (IH Hs). reflexivity.
Qed.

Lemma str_split_one_dot (n1 n2 : str) :
  count_dots n1 = 0 → count_dots n2 = 0 →
  str_split DOT (n1 ++ DOT :: n2) = [n1; n2].
Proof.
  intros H1 H2. unfold count_dots in H1.
  induction n1 as [|c n1 IH]; simpl in *.
  - rewrite str_split_no_dot by exact H2. reflexivity.
  - destruct (N.eqb c DOT); simpl in *; [discriminate|].
    rewrite (IH H1). reflexivity.
Qed.

(** A string with exactly one dot splits in two at that dot. *)
Lemma str_split_halves (n1 n2 : str) :
  count_dots (n1 ++ DOT :: n2) = 1 →
  str_split DOT (n1 ++ DOT :: n2) = [n1; n2].
Proof.
  intros Hc. rewrite count_dots_app in Hc.
  change (count_dots (DOT :: n2)) with (S (count_dots n2)) in Hc.
  apply str_split_one_dot; lia.
Qed.

Lemma str_of_Z_no_dot (z : Z) : count_dots (str_of_Z z) = 0.
Proof.
  destruct (str_of_Z_chars z) as (_ & Hall & _).
  unfold count_dots. induction Hall as [|c s Hc _ IH]; [reflexivity|].
  simpl. replace (N.eqb c DOT) with false; [exact IH|].
  symmetry. apply N.eqb_neq. unfold DOT. lia.
Qed.

(** ** The JSON serializer *)

Section SerializerProps.
Context `{Interpreter}.
Import Serializer.

Lemma serialize_step_OK (acc : list json) (c : cell) :
  serialize_step acc c = OK (acc ++ [serialized_cell c]).
Proof. destruct c; reflexivity. Qed.

(** The loop of [serialize] never fails: it writes one entry per cell, in
    order. *)
Lemma serialize_fold (acc : list json) (cs : list cell) :
  foldM serialize_step acc cs = OK (acc ++ map serialized_cell cs).
Proof.
  revert acc. induction cs as [|c cs IH]; intros acc; simpl.
  - rewrite app_nil_r. reflexivity.
  - rewrite serialize_step_OK. simpl. rewrite IH, <- app_assoc. reflexivity.
Qed.

Lemma serialize_unfold (nb : notebook) :
  serialize nb
  = match str_split DOT (version nb) with
    | [n1; n2] =>
      major ← py_int n1; minor ← py_int n2;
      OK (serialized_notebook major minor (cells nb))
    | _ => Raise ValueError
    end.
Proof.
  unfold serialize, Notebook_iter. rewrite serialize_fold. reflexivity.
Qed.

Lemma serialize_OK (nb : notebook) (n1 n2 : str) (major minor : Z) :
  version nb = n1 ++ DOT :: n2 → count_dots (version nb) = 1 →
  py_int n1 = OK major → py_int n2 = OK minor →
  serialize nb = OK (serialized_notebook major minor (cells nb)).
Proof.
  intros Hv Hc H1 H2. rewrite serialize_unfold.
  rewrite Hv in Hc |- *. rewrite (str_split_halves n1 n2 Hc), H1. simpl.
  rewrite H2. reflexivity.
Qed.

Lemma serialize_inv (nb : notebook) (s : json) :
  serialize nb = OK s →
  ∃ n1 n2 major minor,
    version nb = n1 ++ DOT :: n2 ∧ count_dots (version nb) = 1
    ∧ py_int n1 = OK major ∧ py_int n2 = OK minor
    ∧ s = serialized_notebook major minor (cells nb).
Proof.
  rewrite serialize_unfold. intros Hs.
  destruct (str_split DOT (version nb)) as [|n1 [|n2 [|? ?]]] eqn:E;
    try discriminate.
  apply bind_OK in Hs as (major & H1 & Hs).
  apply bind_OK in Hs as (minor & H2 & [= <-]).
  destruct (str_split_two _ _ _ E) as [Hv Hc].
  exists n1, n2, major, minor. auto.
Qed.

(** What [int] takes for a number: also a sign, blanks around it, leading
    zeros and single underscores between digits. *)
Lemma py_int_examples :
  py_int (u "4") = OK 4%Z ∧ py_int (u "10") = OK 10%Z
  ∧ py_int (u "-4") = OK (-4)%Z ∧ py_int (u " +4_0 ") = OK 40%Z
  ∧ py_int (u "04") = OK 4%Z
  ∧ py_int (u "") = Raise ValueError ∧ py_int (u "4a") = Raise ValueError
  ∧ py_int (u "4__0") = Raise ValueError ∧ py_int (u "- 4") = Raise ValueError.
Proof. repeat split; reflexivity. Qed.

(** A non-empty run of ASCII digits is numeric. *)
Lemma numeric_digits (s : str) :
  s ≠ [] → Forall (fun c => (48 <= c <= 57)%N) s → numeric s.
Proof.
  intros Hne Hall. unfold numeric, py_int.
  assert (Hspace : ∀ c, (48 <= c <= 57)%N → is_int_space c = false).
  { intros c Hc. apply not_int_space. right. exact Hc. }
  assert (Hstrip : int_strip s = s).
  { rewrite Forall_forall in Hall.
    apply int_strip_id; intros c Hc; apply Hspace, Hall.
    - apply head_Some_elem_of, Hc.
    - apply last_Some_elem_of, Hc. }
  rewrite Hstrip.
  assert (Hsign : py_int_sign s = (false, s)).
  { destruct s as [|c s]; [contradiction|]. inversion Hall as [|? ? Hc _]; subst.
    unfold py_int_sign.
    replace (c =? 45)%N with false by (symmetry; apply N.eqb_neq; lia).
    replace (c =? 43)%N with false by (symmetry; apply N.eqb_neq; lia).
    reflexivity. }
  rewrite Hsign. cbv iota beta.
  assert (Hdigits : ∀ acc after, s ≠ [] ∨ after = true →
            ∃ n, digits_acc acc after s = Some n).
  { clear Hne Hstrip Hsign. induction Hall as [|c s Hc _ IH]; intros acc after Hs.
    - destruct Hs as [Hs| ->]; [contradiction | simpl; eauto].
    - cbn [digits_acc].
      replace (c =? 95)%N with false by (symmetry; apply N.eqb_neq; lia).
      replace c with (48 + (c - 48))%N by lia.
      rewrite digit_value_ascii by lia. simpl. apply IH. auto. }
  destruct (Hdigits 0%N false) as [n Hn]; [auto|].
  rewrite Hn. eauto.
Qed.

(** C3. [serialize] raises exactly when the version string does not contain
    exactly one ["."] or one of the two halves is not numeric; when it
    returns, [nbformat] and [nbformat_minor] are the integers the two halves
    denote. For any cells, version ["4.5"] gives 4 and 5 and version
    ["10.2"] gives 10 and 2. *)
Theorem serialize_raises_iff (nb : notebook) :
  ((∃ e, serialize nb = Raise e)
   ↔ count_dots (version nb) ≠ 1
     ∨ ∃ n1 n2, version nb = n1 ++ DOT :: n2
                ∧ (¬ numeric n1 ∨ ¬ numeric n2))
  ∧ (∀ s, serialize nb = OK s ↔
       ∃ n1 n2 major minor,
         version nb = n1 ++ DOT :: n2 ∧ count_dots (version nb) = 1
         ∧ py_int n1 = OK major ∧ py_int n2 = OK minor
         ∧ s = serialized_notebook major minor (cells nb)
         ∧ getitem s (u "nbformat") = OK (JInt major)
         ∧ getitem s (u "nbformat_minor") = OK (JInt minor))
  ∧ serialize (Notebook (u "4.5") (cells nb))
    = OK (serialized_notebook 4 5 (cells nb))
  ∧ serialize (Notebook (u "10.2") (cells nb))
    = OK (serialized_notebook 10 2 (cells nb)).
Proof.
  split; [|split; [|split]].
  - split.
    + intros [e He]. rewrite serialize_unfold in He.
      destruct (Nat.eq_dec (count_dots (version nb)) 1) as [Hc|Hc]; [|auto].
      right. pose proof (str_split_length (version nb)) as Hl.
      destruct (str_split DOT (version nb)) as [|n1 [|n2 [|? ?]]] eqn:E;
        simpl in Hl; try lia.
      exists n1, n2. split; [apply (str_split_two _ _ _ E)|].
      destruct (py_int n1) as [major|e1] eqn:E1.
      * right. intros [z Hz]. simpl in He. rewrite Hz in He. discriminate He.
      * left. intros [z Hz]. congruence.
    + intros [Hc|(n1 & n2 & Hv & Hnum)].
      * destruct (serialize nb) as [s|e] eqn:E; [|eauto].
        apply serialize_inv in E as (? & ? & ? & ? & _ & Hc' & _).
        contradiction.
      * destruct (serialize nb) as [s|e] eqn:E; [|eauto].
        apply serialize_inv in E as (m1 & m2 & major & minor & Hv' & Hc & H1 & H2 & _).
        rewrite Hv in Hc. pose proof (str_split_halves n1 n2 Hc) as Hs.
        rewrite <- Hv, Hv', (str_split_halves m1 m2) in Hs by (rewrite <- Hv'; congruence).
        injection Hs as -> ->. unfold numeric in Hnum.
        destruct Hnum as [Hn|Hn]; exfalso; apply Hn; eauto.
  - intros s. split.
    + intros Hs. apply serialize_inv in Hs as (n1 & n2 & major & minor & Hs).
      exists n1, n2, major, minor.
      destruct Hs as (Hv & Hc & H1 & H2 & ->). repeat split; assumption.
    + intros (n1 & n2 & major & minor & Hv & Hc & H1 & H2 & -> & _).
      eapply serialize_OK; eassumption.
  - rewrite serialize_unfold. reflexivity.
  - rewrite serialize_unfold. reflexivity.
Qed.

End SerializerProps.

(** ** Loading what [serialize] wrote *)

Section RoundTrip.
Context `{Interpreter}.
Import Serializer.

(** C10. In what [serialize] returns for a notebook built by
    [Notebook.__init__], every entry of [cells] has a [cell_type] that is
    ["markdown"] or ["code"]: the placeholder [0] is always overwritten,
    because the constructor only ever appends instances of [MarkdownCell]
    and [CodeCell]. *)
Theorem serialize_cell_types (ipynb : json) (nb : notebook) (s : json) :
  Notebook_init ipynb = OK nb → serialize nb = OK s →
  ∃ entries,
    getitem s (u "cells") = OK (JList entries)
    ∧ length entries = length (cells nb)
    ∧ Forall (fun e => getitem e (u "cell_type") = OK (JStr (u "markdown"))
                       ∨ getitem e (u "cell_type") = OK (JStr (u "code")))
        entries.
Proof.
  intros Hnb Hs. apply Notebook_init_subclass in Hnb.
  apply serialize_inv in Hs as (_ & _ & major & minor & _ & _ & _ & _ & ->).
  exists (map serialized_cell (cells nb)).
  split; [reflexivity|]. split; [apply length_map|].
  apply Forall_map. eapply Forall_impl; [exact Hnb|].
  intros [i src|n i src|i src] [Hc|Hm]; try discriminate; simpl; auto.
Qed.

(** The placeholder does survive for a cell that is an instance of the
    base class only: the invariant of the constructor is what rules it
    out. *)
Lemma serialize_base_cell_placeholder (i src : json) :
  serialize (Notebook (u "4.5") [Cell i src])
  = OK (serialized_notebook 4 5 [Cell i src])
  ∧ getitem (serialized_cell (Cell i src)) (u "cell_type") = OK (JInt 0).
Proof. split; reflexivity. Qed.

Lemma Notebook_init_step_serialized (acc : list cell) (c : cell) :
  subclass_instance c →
  Notebook_init_step acc (serialized_cell c) = OK (acc ++ [c]).
Proof. destruct c; intros [Hc|Hm]; try discriminate; reflexivity. Qed.

Lemma Notebook_init_fold_serialized (acc cs : list cell) :
  Forall subclass_instance cs →
  foldM Notebook_init_step acc (map serialized_cell cs) = OK (acc ++ cs).
Proof.
  intros Hall. revert acc. induction Hall as [|c cs Hc _ IH]; intros acc; simpl.
  - rewrite app_nil_r. reflexivity.
  - rewrite (Notebook_init_step_serialized acc c Hc). simpl.
    rewrite IH, <- app_assoc. reflexivity.
Qed.

(** Constructing a notebook from a serialized one gives the cells back,
    and the version in its canonical spelling. *)
Lemma Notebook_init_serialized (major minor : Z) (cs : list cell) :
  Forall subclass_instance cs →
  Notebook_init (serialized_notebook major minor cs)
  = OK (Notebook (str_of_Z major ++ DOT :: str_of_Z minor) cs).
Proof.
  intros Hall. unfold Notebook_init.
  change (get_format_version (serialized_notebook major minor cs))
    with (OK (str_of_Z major ++ DOT :: str_of_Z minor)).
  change (getitem (serialized_notebook major minor cs) (u "cells"))
    with (OK (JList (map serialized_cell cs))).
  simpl. rewrite (Notebook_init_fold_serialized [] cs Hall). reflexivity.
Qed.

Lemma well_formed_version_split (major minor : Z) :
  str_split DOT (str_of_Z major ++ DOT :: str_of_Z minor)
  = [str_of_Z major; str_of_Z minor].
Proof. apply str_split_one_dot; apply str_of_Z_no_dot. Qed.




Context {OS : Platform}.


End RoundTrip.

(** ** The py-percent serializer *)

Section PyPercentProps.
Import PyPercentSerializer.

Lemma stripped_lines_OK (lines : list str) :
  stripped_lines (JList (map JStr lines)) = OK (map str_strip lines).
Proof.
  unfold stripped_lines. simpl. induction lines as [|l lines IH]; simpl.
  - reflexivity.
  - rewrite IH. reflexivity.
Qed.

(** Joining prefixed lines: the prefix goes in front of each of them. *)
Lemma str_join_prefixed (prefix : str) (lines : list str) :
  lines ≠ [] →
  prefix ++ str_join ([NL] ++ prefix) lines ++ [NL]
  = concat (map (fun l => prefix ++ l ++ [NL]) lines).
Proof.
  induction lines as [|l lines IH]; [contradiction|]. intros _.
  destruct lines as [|l' lines].
  - simpl. rewrite !app_nil_r. reflexivity.
  - change (str_join ([NL] ++ prefix) (l :: l' :: lines))
      with (l ++ ([NL] ++ prefix) ++ str_join ([NL] ++ prefix) (l' :: lines)).
    change (concat (map (fun l => prefix ++ l ++ [NL]) (l :: l' :: lines)))
      with ((prefix ++ l ++ [NL])
              ++ concat (map (fun l => prefix ++ l ++ [NL]) (l' :: lines))).
    rewrite <- IH by discriminate. rewrite <- !app_assoc. reflexivity.
Qed.

Lemma lines_of_source (c : cell) (ls : list str) :
  cell_source c = JList (map JStr ls) → lines_of c = ls.
Proof.
  unfold lines_of. intros ->. induction ls as [|l ls IH]; [reflexivity|].
  simpl. rewrite IH. reflexivity.
Qed.

(** One turn of the loop, as the code spells it. *)
Lemma to_py_percent_step_join (text : str) (c : cell) (ls : list str) :
  cell_source c = JList (map JStr ls) →
  to_py_percent_step text c
  = OK (text ++ match class_of c with
                | ClsCell => []
                | _ => ([NL] ++ marker c ++ [NL])
                       ++ (line_prefix c
                           ++ str_join ([NL] ++ line_prefix c) (map str_strip ls)
                           ++ [NL])
                end).
Proof.
  intros Hsrc. unfold to_py_percent_step.
  destruct c as [i src|n i src|i src]; cbn [cell_source] in Hsrc; subst src;
    cbn [is_MarkdownCell is_CodeCell cell_source class_of].
  - rewrite app_nil_r. reflexivity.
  - rewrite stripped_lines_OK. cbn [mbind result_bind].
    rewrite <- app_assoc. reflexivity.
  - rewrite stripped_lines_OK. cbn [mbind result_bind].
    rewrite <- app_assoc. reflexivity.
Qed.

(** One turn of the loop appends what the cell emits. *)
Lemma to_py_percent_step_OK (text : str) (c : cell) :
  has_source_list c →
  to_py_percent_step text c = OK (text ++ emitted_or_empty c).
Proof.
  intros Hsrc. rewrite (to_py_percent_step_join text c (lines_of c) Hsrc).
  unfold emitted_or_empty, emitted. do 2 f_equal.
  destruct (class_of c); [reflexivity| |];
    (destruct (lines_of c) as [|l ls] eqn:E;
     [cbn [map str_join]; rewrite <- !app_assoc; reflexivity|];
     rewrite str_join_prefixed by discriminate;
     rewrite map_map, <- !app_assoc; reflexivity).
Qed.

Lemma to_py_percent_fold (text : str) (cs : list cell) :
  Forall has_source_list cs →
  foldM to_py_percent_step text cs
  = OK (text ++ concat (map emitted_or_empty cs)).
Proof.
  intros Hall. revert text.
  induction Hall as [|c cs Hc _ IH]; intros text; simpl.
  - rewrite app_nil_r. reflexivity.
  - rewrite (to_py_percent_step_OK text c Hc). simpl.
    rewrite IH, <- app_assoc. reflexivity.
Qed.

(** [to_py_percent] does not fail on a notebook whose sources are lists of
    [str], whatever their lengths. *)
Lemma to_py_percent_OK (nb : notebook) :
  Forall has_source_list (cells nb) →
  to_py_percent nb = OK (str_strip (concat (map emitted_or_empty (cells nb)))).
Proof.
  intros Hall. unfold to_py_percent, Notebook_iter.
  rewrite (to_py_percent_fold [] _ Hall). reflexivity.
Qed.




End PyPercentProps.

(** *** The lines of the text *)

Section PyPercentLines.
Import PyPercentSerializer.

(** Lines, each ended by a newline. *)
Lemma lines_ended_join (ls : list str) :
  ls ≠ [] → concat (map (fun l => l ++ [NL]) ls) = str_join [NL] ls ++ [NL].
Proof.
  induction ls as [|l ls IH]; [contradiction|]. intros _.
  destruct ls as [|l' ls]; [cbn; rewrite app_nil_r; reflexivity|].
  change (concat (map (fun l => l ++ [NL]) (l :: l' :: ls)))
    with ((l ++ [NL]) ++ concat (map (fun l => l ++ [NL]) (l' :: ls))).
  rewrite IH by discriminate.
  change (str_join [NL] (l :: l' :: ls)) with (l ++ [NL] ++ str_join [NL] (l' :: ls)).
  rewrite <- !app_assoc. reflexivity.
Qed.

Lemma emitted_block_lines (c : cell) :
  subclass_instance c →
  emitted_or_empty c = [NL] ++ concat (map (fun l => l ++ [NL]) (block_lines c)).
Proof.
  intros Hc. unfold emitted_or_empty, emitted, block_lines.
  assert (Hcls : class_of c ≠ ClsCell)
    by (destruct c, Hc; discriminate).
  assert (Hext : ∀ ls,
    map (fun x => (line_prefix c ++ str_strip x) ++ [NL]) ls
    = map (fun l => line_prefix c ++ str_strip l ++ [NL]) ls).
  { intros ls. apply map_ext. intros l. rewrite <- app_assoc. reflexivity. }
  destruct (class_of c); [contradiction| |];
    (destruct (lines_of c) as [|l ls];
     [cbn [map concat]; rewrite app_nil_r, <- !app_assoc; reflexivity|]);
    cbn [map concat app]; rewrite map_map, <- !app_assoc, Hext; reflexivity.
Qed.

Lemma block_lines_nonempty (c : cell) : block_lines c ≠ [].
Proof.
  discriminate.
Qed.

Lemma blocks_lines_nonempty (cs : list cell) : cs ≠ [] → blocks_lines cs ≠ [].
Proof.
  destruct cs as [|c [|c' cs]]; [contradiction|discriminate|discriminate].
Qed.

Lemma emitted_blocks_lines (cs : list cell) :
  Forall subclass_instance cs → cs ≠ [] →
  concat (map emitted_or_empty cs)
  = [NL] ++ concat (map (fun l => l ++ [NL]) (blocks_lines cs)).
Proof.
  induction 1 as [|c cs Hc Hall IH]; [contradiction|]. intros _.
  destruct cs as [|c' cs].
  - cbn [map concat blocks_lines]. rewrite app_nil_r.
    apply emitted_block_lines, Hc.
  - change (concat (map emitted_or_empty (c :: c' :: cs)))
      with (emitted_or_empty c ++ concat (map emitted_or_empty (c' :: cs))).
    rewrite IH by discriminate. rewrite (emitted_block_lines c Hc).
    change (blocks_lines (c :: c' :: cs))
      with (block_lines c ++ [] :: blocks_lines (c' :: cs)).
    rewrite map_app, concat_app. cbn [map concat app]. reflexivity.
Qed.

Lemma str_join_head (sep : str) (l : str) (ls : list str) (ch : char) :
  head l = Some ch → head (str_join sep (l :: ls)) = Some ch.
Proof.
  destruct l as [|a l]; [discriminate|]. intros [= <-].
  destruct ls; reflexivity.
Qed.

Lemma str_join_snoc (sep : str) (ls : list str) (l : str) :
  str_join sep (ls ++ [l]) = concat (map (fun x => x ++ sep) ls) ++ l.
Proof.
  induction ls as [|x ls IH]; [reflexivity|].
  cbn [app map concat]. rewrite <- !app_assoc, <- IH.
  destruct (ls ++ [l]) eqn:E; [destruct ls; discriminate|]. reflexivity.
Qed.

Lemma str_join_last (sep : str) (ls : list str) (l : str) (ch : char) :
  last ls = Some l → last l = Some ch → last (str_join sep ls) = Some ch.
Proof.
  intros Hl Hch.
  destruct (last_Some ls l) as [[init ->] _]; [exact Hl|].
  rewrite str_join_snoc, last_app, Hch. reflexivity.
Qed.

(** [strip] takes off a newline at each end of a text that has no other
    blank at its ends. *)
Lemma str_strip_lines (body : str) (a b : char) :
  head body = Some a → is_whitespace a = false →
  last body = Some b → is_whitespace b = false →
  str_strip ([NL] ++ body ++ [NL]) = body.
Proof.
  intros Ha Hwa Hb Hwb. unfold str_strip, str_rstrip.
  cbn [app str_lstrip]. change (is_whitespace NL) with true. cbn iota.
  destruct body as [|a' body]; [discriminate|]. injection Ha as ->.
  cbn [app str_lstrip]. rewrite Hwa.
  change (a :: body ++ [NL]) with ((a :: body) ++ [NL]).
  rewrite rev_app_distr. cbn [rev app str_lstrip].
  change (is_whitespace NL) with true. cbn iota.
  change (rev body ++ [a]) with (rev (a :: body)).
  pose proof (head_rev (a :: body)) as Hh. rewrite Hb in Hh.
  destruct (rev (a :: body)) as [|b' r] eqn:Hr; [discriminate|].
  injection Hh as ->. cbn [str_lstrip]. rewrite Hwb, <- Hr.
  apply rev_involutive.
Qed.

(** [strip] takes the blanks off both ends of a text that has them only
    there. *)
Lemma str_lstrip_blanks (blanks body : str) (a : char) :
  Forall (fun ch => is_whitespace ch = true) blanks →
  head body = Some a → is_whitespace a = false →
  str_lstrip (blanks ++ body) = body.
Proof.
  intros Hb Ha Hwa. induction Hb as [|b blanks Hwb _ IH].
  - destruct body as [|a' body]; [discriminate|]. injection Ha as ->.
    cbn [app str_lstrip]. rewrite Hwa. reflexivity.
  - cbn [app str_lstrip]. rewrite Hwb. exact IH.
Qed.

Lemma str_strip_blanks (before body after : str) (a z : char) :
  Forall (fun ch => is_whitespace ch = true) before →
  Forall (fun ch => is_whitespace ch = true) after →
  head body = Some a → is_whitespace a = false →
  last body = Some z → is_whitespace z = false →
  str_strip (before ++ body ++ after) = body.
Proof.
  intros Hb Ha Hh Hwa Hl Hwz. unfold str_strip, str_rstrip.
  rewrite (str_lstrip_blanks before (body ++ after) a Hb);
    [|destruct body; [discriminate | exact Hh] | exact Hwa].
  rewrite rev_app_distr.
  rewrite (str_lstrip_blanks (rev after) (rev body) z).
  - apply rev_involutive.
  - apply List.Forall_rev, Ha.
  - rewrite head_rev. exact Hl.
  - exact Hwz.
Qed.

Lemma marker_head (c : cell) : head (marker c) = Some 35%N.
Proof. unfold marker. destruct (is_MarkdownCell c); reflexivity. Qed.

Lemma marker_last (c : cell) :
  ∃ ch, last (marker c) = Some ch ∧ is_whitespace ch = false.
Proof.
  unfold marker. destruct (is_MarkdownCell c); eexists; split; reflexivity.
Qed.

Lemma blocks_lines_cons (c : cell) (cs : list cell) :
  blocks_lines (c :: cs) = block_lines c ++ then_lines cs.
Proof. destruct cs; [cbn; rewrite app_nil_r|]; reflexivity. Qed.

Lemma blocks_lines_split (before : list cell) (c : cell) (after : list cell) :
  blocks_lines (before ++ c :: after)
  = lines_then before (block_lines c ++ then_lines after).
Proof.
  induction before as [|b before IH]; [apply blocks_lines_cons|].
  cbn [app]. rewrite blocks_lines_cons.
  destruct before as [|b' before].
  - cbn [app then_lines lines_then]. rewrite blocks_lines_cons.
    reflexivity.
  - change (then_lines ((b' :: before) ++ c :: after))
      with ([] :: blocks_lines ((b' :: before) ++ c :: after)).
    rewrite IH. cbn [lines_then].
    change (blocks_lines (b :: b' :: before))
      with (block_lines b ++ [] :: blocks_lines (b' :: before)).
    rewrite <- !app_assoc. reflexivity.
Qed.

Lemma lines_then_snoc (cs : list cell) (rest : list str) (l : str) :
  lines_then cs (rest ++ [l]) = lines_then cs rest ++ [l].
Proof.
  destruct cs; [reflexivity|]. cbn [lines_then].
  rewrite app_comm_cons, app_assoc. reflexivity.
Qed.

Lemma lines_then_last (cs : list cell) (rest : list str) (l : str) :
  last rest = Some l → last (lines_then cs rest) = Some l.
Proof.
  intros Hl. destruct cs; [exact Hl|].
  cbn [lines_then]. rewrite last_app, last_cons, Hl. reflexivity.
Qed.

Lemma lines_then_head (cs : list cell) (c : cell) (rest : list str) :
  ∃ c' tl, lines_then cs (marker c :: rest) = marker c' :: tl.
Proof.
  destruct cs as [|b cs]; [eauto|].
  cbn [lines_then]. rewrite blocks_lines_cons. cbn [block_lines app]. eauto.
Qed.

(** The text before the final [strip]: a newline, the lines joined by
    newlines, and a newline. *)
Lemma to_py_percent_unstripped (nb : notebook) :
  Forall (fun c => subclass_instance c ∧ has_source_list c) (cells nb) →
  cells nb ≠ [] →
  to_py_percent nb
  = OK (str_strip ([NL] ++ str_join [NL] (blocks_lines (cells nb)) ++ [NL])).
Proof.
  intros Hall Hne.
  rewrite to_py_percent_OK
    by (eapply Forall_impl; [exact Hall|]; intros c [_ Hc]; exact Hc).
  rewrite emitted_blocks_lines, lines_ended_join;
    [reflexivity
    |apply blocks_lines_nonempty, Hne
    |eapply Forall_impl; [exact Hall|]; intros c [Hc _]; exact Hc
    |exact Hne].
Qed.

Lemma blocks_lines_head (cs : list cell) :
  cs ≠ [] → ∃ c tl, blocks_lines cs = marker c :: tl.
Proof.
  destruct cs as [|c cs]; [contradiction|]. intros _.
  rewrite blocks_lines_cons. cbn [block_lines app]. eauto.
Qed.

(** When the last line does not end with a blank, [strip] takes off the
    newline at each end and nothing else. *)
Lemma to_py_percent_joined (nb : notebook) (line : str) (ch : char) :
  Forall (fun c => subclass_instance c ∧ has_source_list c) (cells nb) →
  last (blocks_lines (cells nb)) = Some line →
  last line = Some ch → is_whitespace ch = false →
  to_py_percent nb = OK (str_join [NL] (blocks_lines (cells nb))).
Proof.
  intros Hall Hline Hch Hws.
  assert (Hne : cells nb ≠ []) by (intros E; rewrite E in Hline; discriminate).
  rewrite (to_py_percent_unstripped nb Hall Hne). f_equal.
  destruct (blocks_lines_head _ Hne) as (c & tl & Hhead).
  apply (str_strip_blanks [NL] _ [NL] 35%N ch);
    [repeat constructor | repeat constructor | | reflexivity | | exact Hws].
  - rewrite Hhead. apply str_join_head, marker_head.
  - eapply str_join_last; eassumption.
Qed.

End PyPercentLines.

(** ** Cells without source lines *)

Section EmptySource.
Import PyPercentSerializer.

(** An empty markdown cell is rendered with a body line that holds the
    comment prefix: neither the marker line alone, nor the marker line and
    an empty line. *)
Lemma empty_markdown_source_counterexample :
  let c := MarkdownCell (JStr (u "a9541506")) (JList []) in
  to_py_percent_step [] c = OK (u "\n# %% [markdown]\n# \n")
  ∧ to_py_percent_step [] c ≠ OK ([NL] ++ marker c ++ [NL])
  ∧ to_py_percent_step [] c ≠ OK ([NL] ++ marker c ++ [NL] ++ [NL])
  ∧ to_py_percent (Notebook (u "4.5") [c]) = OK (u "# %% [markdown]\n#")
  ∧ to_py_percent (Notebook (u "4.5") [c]) ≠ OK (marker c).
Proof. repeat split; discriminate. Qed.

(** C5 (amended). [to_py_percent] does not fail on a code or markdown
    cell whose source list is empty: it writes the marker line of the cell
    and then one body line, which is empty for a code cell and holds the
    bare prefix ["# "] for a markdown cell. With the cell in a notebook,
    the text before the final [strip] has these two lines at the place of
    the cell; they are there in the text returned whenever a block follows
    whose last line does not end with a blank. When the cell is the last
    one, the final [strip] cuts into them: nothing follows the marker of a
    code cell, and the body line of a markdown cell is ["#"]. *)
Theorem empty_source_block
    (nb : notebook) (before : list cell) (c : cell) (after : list cell) :
  Forall (fun c => subclass_instance c ∧ has_source_list c) (cells nb) →
  cells nb = before ++ c :: after →
  cell_source c = JList [] →
  to_py_percent nb
  = OK (str_strip
          ([NL] ++ str_join [NL]
                     (lines_then before
                        ([marker c; line_prefix c] ++ then_lines after))
                ++ [NL]))
  ∧ (∀ line ch,
       last (blocks_lines after) = Some line → last line = Some ch →
       is_whitespace ch = false →
       to_py_percent nb
       = OK (str_join [NL]
               (lines_then before
                  ([marker c; line_prefix c] ++ [] :: blocks_lines after))))
  ∧ (after = [] →
     to_py_percent nb
     = OK (str_join [NL]
             (lines_then before
                (marker c :: if is_MarkdownCell c then [u "#"] else []))))
  ∧ line_prefix c = (if is_MarkdownCell c then u "# " else [])
  ∧ ∀ text,
      to_py_percent_step text c
      = OK (text ++ [NL] ++ marker c ++ [NL] ++ line_prefix c ++ [NL]).
Proof.
  intros Hall Hcells Hsrc.
  assert (Hc : subclass_instance c).
  { rewrite Hcells in Hall. apply Forall_app in Hall as [_ Hall].
    inversion Hall as [|? ? [Hc _] _]. exact Hc. }
  assert (Hlines : lines_of c = []) by (unfold lines_of; rewrite Hsrc; reflexivity).
  assert (Hblock : block_lines c = [marker c; line_prefix c])
    by (unfold block_lines; rewrite Hlines; reflexivity).
  assert (Hne : cells nb ≠ []) by (rewrite Hcells; destruct before; discriminate).
  pose proof (to_py_percent_unstripped nb Hall Hne) as Htext.
  rewrite Hcells, blocks_lines_split, Hblock in Htext.
  split; [exact Htext|]. split; [|split; [|split]].
  - intros line ch Hline Hch Hws.
    assert (Hafter : then_lines after = [] :: blocks_lines after)
      by (destruct after; [discriminate | reflexivity]).
    rewrite (to_py_percent_joined nb line ch Hall); [| |exact Hch|exact Hws].
    + rewrite Hcells, blocks_lines_split, Hblock, Hafter. reflexivity.
    + rewrite Hcells, blocks_lines_split, Hblock, Hafter.
      apply lines_then_last. rewrite last_app, last_cons, Hline. reflexivity.
  - intros ->. rewrite Htext. f_equal. cbn [then_lines]. rewrite app_nil_r.
    destruct (lines_then_head before c []) as (c' & tl & Hhead).
    destruct (marker_last c) as (z & Hz & Hwz).
    assert (Hlast : last (lines_then before [marker c]) = Some (marker c)).
    { change [marker c] with ([] ++ [marker c]).
      rewrite lines_then_snoc. apply last_snoc. }
    assert (Hnonempty : lines_then before [marker c] ≠ [])
      by (rewrite Hhead; discriminate).
    change [marker c; line_prefix c] with ([marker c] ++ [line_prefix c]).
    rewrite lines_then_snoc, str_join_snoc, (lines_ended_join _ Hnonempty).
    set (body := str_join [NL] (lines_then before [marker c])).
    assert (Hbody_head : head body = Some 35%N)
      by (unfold body; rewrite Hhead; apply str_join_head, marker_head).
    assert (Hbody_last : last body = Some z)
      by (unfold body; eapply str_join_last; eassumption).
    unfold line_prefix. destruct (is_MarkdownCell c) eqn:Hmd.
    + change [marker c; u "#"] with ([marker c] ++ [u "#"]).
      rewrite lines_then_snoc, str_join_snoc, (lines_ended_join _ Hnonempty).
      fold body.
      transitivity (str_strip ([NL] ++ ((body ++ [NL]) ++ u "#") ++ [32%N; NL])).
      { f_equal. change (u "# ") with (u "#" ++ [32%N]).
        rewrite <- !app_assoc. reflexivity. }
      apply (str_strip_blanks [NL] _ [32%N; NL] 35%N 35%N);
        [repeat constructor | repeat constructor | | reflexivity | | reflexivity].
      * destruct body; [discriminate | exact Hbody_head].
      * apply last_snoc.
    + transitivity (str_strip ([NL] ++ body ++ [NL; NL])).
      { f_equal. rewrite app_nil_r, <- !app_assoc. reflexivity. }
      apply (str_strip_blanks [NL] _ [NL; NL] 35%N z);
        [repeat constructor | repeat constructor | exact Hbody_head
        | reflexivity | exact Hbody_last | exact Hwz].
  - reflexivity.
  - intros text. rewrite (to_py_percent_step_join text c [] Hsrc).
    destruct c, Hc; try discriminate; cbn [class_of map str_join];
      rewrite <- ?app_assoc; reflexivity.
Qed.

Lemma empty_source_block_witness :
  let before := [MarkdownCell (JStr (u "a9541506")) (JList [JStr (u "Hello\n")])] in
  let c := CodeCell JNull (JStr (u "b777420a")) (JList []) in
  let after := [MarkdownCell (JStr (u "a23ab5ac")) (JList [JStr (u "Goodbye")])] in
  let nb := Notebook (u "4.5") (before ++ c :: after) in
  to_py_percent nb
  = OK (str_strip
          ([NL] ++ str_join [NL]
                     (lines_then before
                        ([marker c; line_prefix c] ++ then_lines after))
                ++ [NL]))
  ∧ (∀ line ch,
       last (blocks_lines after) = Some line → last line = Some ch →
       is_whitespace ch = false →
       to_py_percent nb
       = OK (str_join [NL]
               (lines_then before
                  ([marker c; line_prefix c] ++ [] :: blocks_lines after))))
  ∧ (after = [] →
     to_py_percent nb
     = OK (str_join [NL]
             (lines_then before
                (marker c :: if is_MarkdownCell c then [u "#"] else []))))
  ∧ line_prefix c = (if is_MarkdownCell c then u "# " else [])
  ∧ ∀ text,
      to_py_percent_step text c
      = OK (text ++ [NL] ++ marker c ++ [NL] ++ line_prefix c ++ [NL]).
Proof.
  apply (empty_source_block
           (Notebook (u "4.5")
              ([MarkdownCell (JStr (u "a9541506")) (JList [JStr (u "Hello\n")])]
               ++ CodeCell JNull (JStr (u "b777420a")) (JList [])
               :: [MarkdownCell (JStr (u "a23ab5ac"))
                     (JList [JStr (u "Goodbye")])]))).
  - repeat (apply List.Forall_cons;
            [split; [first [left; reflexivity | right; reflexivity] | reflexivity]|]).
    apply List.Forall_nil.
  - reflexivity.
  - reflexivity.
Defined.

(** The text for a notebook with two cells without source lines: a code
    cell and, last, a markdown cell; and for the two the other way round. *)
Lemma empty_source_examples :
  to_py_percent
    (Notebook (u "4.5")
       [CodeCell JNull (JStr (u "b777420a")) (JList []);
        MarkdownCell (JStr (u "a9541506")) (JList [])])
  = OK (u "# %%\n\n\n# %% [markdown]\n#")
  ∧ to_py_percent
      (Notebook (u "4.5")
         [MarkdownCell (JStr (u "a9541506")) (JList []);
          CodeCell JNull (JStr (u "b777420a")) (JList [])])
    = OK (u "# %% [markdown]\n# \n\n# %%").
Proof. split; reflexivity. Qed.

End EmptySource.

(** ** The outliner *)

(** ** The outliner *)

Lemma drop_last_snoc (s : str) (c : char) : drop_last (s ++ [c]) = s.
Proof. unfold drop_last. apply removelast_last. Qed.

Lemma foldM_ext {A B} (f g : A → B → result A) (acc : A) (l : list B) :
  (∀ a x, f a x = g a x) → foldM f acc l = foldM g acc l.
Proof.
  intros Hfg. revert acc. induction l as [|x l IH]; intros acc; [reflexivity|].
  cbn [foldM]. rewrite Hfg. destruct (g acc x); cbn [mbind result_bind]; auto.
Qed.

Section OutlinerProps.
Context `{Interpreter}.
Import Outliner.

(** C6 (amended). The outline of a notebook with version ["4.5"] and no
    cells is exactly ["Jupyter Notebook v4.5"]: the header line, without
    the newline that ended it. *)
Theorem outline_empty_notebook :
  outline (Notebook (u "4.5") []) = OK (u "Jupyter Notebook v4.5").
Proof. reflexivity. Qed.

Lemma last_default_irrelevant {A} (d d' x : A) (l : list A) :
  List.last (x :: l) d = List.last (x :: l) d'.
Proof.
  revert x. induction l as [|y l IH]; intros x; [reflexivity|].
  change (List.last (y :: l) d = List.last (y :: l) d'). apply IH.
Qed.

Lemma lookup_last_default {A} (x : A) (l : list A) :
  (x :: l) !! length l = Some (List.last l x).
Proof.
  revert x. induction l as [|y l IH]; intros x; [reflexivity|].
  change ((y :: l) !! length l = Some (List.last (y :: l) x)).
  rewrite IH. f_equal. destruct l as [|z l]; [reflexivity|].
  change (List.last (z :: l) y = List.last (z :: l) x).
  apply last_default_irrelevant.
Qed.

(** The glyph [outline] picks for a line is [glyph]. *)
Lemma start_glyph (lines : list str) (line : str) :
  start (JList (map JStr lines)) (JStr line) = OK (glyph lines line).
Proof.
  unfold start. cbn [py_len mbind result_bind]. rewrite length_map.
  destruct lines as [|first [|second rest]]; [reflexivity..|].
  change (1 <? length (first :: second :: rest)) with true.
  cbn iota.
  change (getitem_int (JList (map JStr (first :: second :: rest))) 0)
    with (OK (JStr first)).
  cbn [mbind result_bind py_eq glyph].
  destruct (str_eqb line first); [reflexivity|].
  assert (Hlast : getitem_int (JList (map JStr (first :: second :: rest))) (-1)
                  = OK (JStr (List.last (second :: rest) first))).
  { unfold getitem_int, index_of. rewrite length_map.
    change (-1 <? 0)%Z with true. cbn iota.
    replace (-1 + Z.of_nat (length (first :: second :: rest)))%Z
      with (Z.of_nat (length (second :: rest))) by (simpl length; lia).
    replace ((0 <=? Z.of_nat (length (second :: rest)))
             && (Z.of_nat (length (second :: rest))
                 <? Z.of_nat (length (first :: second :: rest))))%Z with true.
    2:{ symmetry. apply andb_true_iff. split; [apply Z.leb_le | apply Z.ltb_lt];
        simpl length; lia. }
    rewrite Nat2Z.id. cbn [mbind option_bind].
    change (map JStr (first :: second :: rest))
      with (JStr first :: map JStr (second :: rest)).
    rewrite <- (length_map JStr (second :: rest)), lookup_last_default.
    f_equal. generalize first (second :: rest). clear.
    intros d l. revert d. induction l as [|x l IH]; intros d; [reflexivity|].
    destruct l; [reflexivity | apply (IH d)]. }
  rewrite Hlast. cbn [mbind result_bind py_eq].
  destruct (str_eqb line _); reflexivity.
Qed.

Lemma outline_line_OK (lines : list str) (text line : str) :
  outline_line (JList (map JStr lines)) text (JStr line)
  = OK (text ++ outlined lines line).
Proof. unfold outline_line. rewrite start_glyph. reflexivity. Qed.

Lemma outline_lines_fold (lines : list str) (text : str) (ls : list str) :
  foldM (outline_line (JList (map JStr lines))) text (map JStr ls)
  = OK (text ++ concat (map (outlined lines) ls)).
Proof.
  revert text. induction ls as [|l ls IH]; intros text; simpl.
  - rewrite app_nil_r. reflexivity.
  - rewrite outline_line_OK. simpl. rewrite IH, <- app_assoc. reflexivity.
Qed.

Lemma outline_step_lines (text : str) (c : cell) (ls : list str) :
  subclass_instance c → cell_source c = JList (map JStr ls) →
  outline_step text c
  = OK (text ++ cell_header c ++ concat (map (outlined ls) ls)).
Proof.
  intros Hc Hsrc. unfold outline_step.
  destruct c as [i src|n i src|i src]; cbn [cell_source] in Hsrc; subst src.
  - destruct Hc; discriminate.
  - cbn [is_MarkdownCell cell_execution_count cell_source cell_id py_iter
         mbind result_bind].
    rewrite outline_lines_fold. unfold cell_header.
    rewrite <- !app_assoc. reflexivity.
  - cbn [is_MarkdownCell cell_execution_count cell_source cell_id py_iter
         mbind result_bind].
    rewrite outline_lines_fold. unfold cell_header.
    rewrite <- !app_assoc. reflexivity.
Qed.

Lemma glyph_first_last (first second : str) (rest : list str) (line : str) :
  let lines := first :: second :: rest in
  (Some line = head lines → glyph lines line = u "┌ ")
  ∧ (Some line ≠ head lines → Some line = last lines →
     glyph lines line = u "└ ")
  ∧ (Some line ≠ head lines → Some line ≠ last lines →
     glyph lines line = u "│ ").
Proof.
  intros lines.
  assert (Hlast : last lines = Some (List.last (second :: rest) first)).
  { unfold lines. rewrite <- (lookup_last_default first (second :: rest)).
    rewrite last_lookup. reflexivity. }
  rewrite Hlast. unfold lines, glyph. cbn [head].
  destruct (str_eqb line first) eqn:E1.
  { apply str_eqb_eq in E1 as ->. repeat split; intros; congruence. }
  apply str_eqb_neq in E1.
  destruct (str_eqb line (List.last (second :: rest) first)) eqn:E2.
  - apply str_eqb_eq in E2. repeat split; intros; congruence.
  - apply str_eqb_neq in E2. repeat split; intros; congruence.
Qed.

(** The glyph of a line, case by case. *)
Lemma glyph_cases (lines : list str) :
  (length lines = 1 → ∀ line, glyph lines line = u "|")
  ∧ (1 < length lines → ∀ line,
       (Some line = head lines → glyph lines line = u "┌ ")
       ∧ (Some line ≠ head lines → Some line = last lines →
          glyph lines line = u "└ ")
       ∧ (Some line ≠ head lines → Some line ≠ last lines →
          glyph lines line = u "│ "))
  ∧ (NoDup lines → ∀ i line, lines !! i = Some line →
       glyph lines line = glyph_at (length lines) i).
Proof.
  split; [|split].
  - destruct lines as [|l [|? ?]]; try discriminate. reflexivity.
  - destruct lines as [|first [|second rest]]; simpl length; try lia.
    intros _ line. apply glyph_first_last.
  - intros Hnd i line Hi.
    destruct lines as [|first [|second rest]] eqn:E.
    + discriminate.
    + reflexivity.
    + pose proof (glyph_first_last first second rest line) as (Hf & Hl & Hm).
      assert (Hlast : last (first :: second :: rest)
                      = (first :: second :: rest) !! (length (second :: rest))).
      { rewrite last_lookup. reflexivity. }
      unfold glyph_at.
      change (length (first :: second :: rest) <=? 1) with false. cbn iota.
      destruct (Nat.eqb_spec i 0) as [->|Hi0].
      { apply Hf. symmetry. exact Hi. }
      assert (Hnf : Some line ≠ head (first :: second :: rest)).
      { intros Hh. apply Hi0. eapply NoDup_lookup; [exact Hnd | exact Hi |].
        symmetry. exact Hh. }
      destruct (Nat.eqb_spec i (length (first :: second :: rest) - 1)) as [->|Hin].
      { apply Hl; [exact Hnf|]. rewrite Hlast, <- Hi. reflexivity. }
      apply Hm; [exact Hnf|]. rewrite Hlast. intros Hh. apply Hin.
      eapply NoDup_lookup; [exact Hnd | exact Hi |].
      symmetry. exact Hh.
Qed.

(** What one turn of either loop appends is made of whole lines. *)
Lemma outline_line_appends (source : json) (text : str) (line : json) (text' : str) :
  outline_line source text line = OK text' →
  ∃ chunk, text' = text ++ chunk ++ [NL].
Proof.
  unfold outline_line. intros Hl.
  apply bind_OK in Hl as (g & _ & Hl). apply bind_OK in Hl as (l & _ & [= <-]).
  exists (u "    " ++ g ++ u " " ++ l). rewrite <- !app_assoc. reflexivity.
Qed.

Lemma outline_lines_append (source : json) (lines : list json) (text text' : str) :
  foldM (outline_line source) text lines = OK text' →
  text' = text ∨ ∃ chunk, text' = text ++ chunk ++ [NL].
Proof.
  revert text. induction lines as [|l lines IH]; intros text Hfold.
  - injection Hfold as <-. left. reflexivity.
  - cbn [foldM] in Hfold. apply bind_OK in Hfold as (text1 & Hl & Hfold).
    apply outline_line_appends in Hl as (chunk & ->).
    right. destruct (IH _ Hfold) as [->|(chunk' & ->)].
    + eauto.
    + exists (chunk ++ [NL] ++ chunk'). rewrite <- !app_assoc. reflexivity.
Qed.

Lemma outline_step_appends (text : str) (c : cell) (text' : str) :
  outline_step text c = OK text' → ∃ chunk, text' = text ++ chunk ++ [NL].
Proof.
  unfold outline_step. intros Hstep.
  apply bind_OK in Hstep as ([cell_type count] & _ & Hstep).
  apply bind_OK in Hstep as (lines & _ & Hfold).
  apply outline_lines_append in Hfold as [->|(chunk & ->)].
  - exists (u "└─▶ " ++ cell_type ++ u " cell #" ++ py_format (cell_id c) ++ count).
    rewrite <- !app_assoc. reflexivity.
  - exists ((u "└─▶ " ++ cell_type ++ u " cell #" ++ py_format (cell_id c)
             ++ count ++ u "\n") ++ chunk).
    rewrite <- !app_assoc. reflexivity.
Qed.

Lemma outline_steps_append (cs : list cell) (text text' : str) :
  foldM outline_step text cs = OK text' →
  text' = text ∨ ∃ chunk, text' = text ++ chunk ++ [NL].
Proof.
  revert text. induction cs as [|c cs IH]; intros text Hfold.
  - injection Hfold as <-. left. reflexivity.
  - cbn [foldM] in Hfold. apply bind_OK in Hfold as (text1 & Hc & Hfold).
    apply outline_step_appends in Hc as (chunk & ->).
    right. destruct (IH _ Hfold) as [->|(chunk' & ->)].
    + eauto.
    + exists (chunk ++ [NL] ++ chunk'). rewrite <- !app_assoc. reflexivity.
Qed.

(** The character that [outline] drops at the end is a newline. *)
Lemma outline_inv (nb : notebook) (out : str) :
  outline nb = OK out →
  foldM outline_step (u "Jupyter Notebook v" ++ version nb ++ [NL]) (cells nb)
  = OK (out ++ [NL]).
Proof.
  unfold outline, Notebook_iter. intros Hout.
  apply bind_OK in Hout as (text & Hfold & [= <-]).
  change (u "\n") with [NL] in Hfold. rewrite Hfold. f_equal.
  apply outline_steps_append in Hfold as [->|(chunk & ->)].
  - rewrite !app_assoc, drop_last_snoc. reflexivity.
  - rewrite !app_assoc, drop_last_snoc. reflexivity.
Qed.

Lemma outline_fold (text : str) (cs : list cell) :
  Forall (fun c => subclass_instance c ∧ has_source_list c) cs →
  foldM outline_step text cs = OK (text ++ concat (map outline_block cs)).
Proof.
  intros Hall. revert text.
  induction Hall as [|c cs [Hc Hsrc] _ IH]; intros text.
  - cbn. rewrite app_nil_r. reflexivity.
  - cbn [foldM map concat].
    rewrite (outline_step_lines text c (lines_of c) Hc Hsrc).
    cbn [mbind result_bind]. rewrite IH. unfold outline_block.
    rewrite <- !app_assoc. reflexivity.
Qed.

(** C7. [outline] writes, after the version line and for each cell in
    order, the header line of the cell and then every source line,
    stripped, after four spaces, a glyph and a space. The glyph is ["|"]
    when the cell has exactly one line; when it has more, ["┌ "] for a
    line equal to the first one, else ["└ "] for a line equal to the last
    one, else ["│ "]. The comparison with the first line comes first, and
    lines are compared by content, not by position: the glyphs are those
    of the positions when the lines are pairwise distinct, but in
    [a; b; a] the last line gets ["┌ "]. *)
Theorem outline_glyphs (nb : notebook) :
  Forall (fun c => subclass_instance c ∧ has_source_list c) (cells nb) →
  (∃ out,
     outline nb = OK out
     ∧ out ++ [NL]
       = u "Jupyter Notebook v" ++ version nb ++ [NL]
           ++ concat
                (map (fun c =>
                        cell_header c
                        ++ concat
                             (map (fun line =>
                                     u "    " ++ glyph (lines_of c) line
                                       ++ u " " ++ str_strip line ++ [NL])
                                (lines_of c)))
                   (cells nb)))
  ∧ (∀ c, c ∈ cells nb →
       let lines := lines_of c in
       (∀ text, outline_step text c
                = OK (text ++ cell_header c
                           ++ concat (map (outlined lines) lines)))
       ∧ (length lines = 1 → ∀ line, glyph lines line = u "|")
       ∧ (1 < length lines → ∀ line,
            (Some line = head lines → glyph lines line = u "┌ ")
            ∧ (Some line ≠ head lines → Some line = last lines →
               glyph lines line = u "└ ")
            ∧ (Some line ≠ head lines → Some line ≠ last lines →
               glyph lines line = u "│ "))
       ∧ (NoDup lines → ∀ i line, lines !! i = Some line →
            glyph lines line = glyph_at (length lines) i))
  ∧ outline (Notebook (u "4.5")
               [MarkdownCell (JStr (u "a9541506"))
                  (JList [JStr (u "a\n"); JStr (u "b\n"); JStr (u "a\n")])])
    = OK (u "Jupyter Notebook v4.5\n└─▶ Markdown cell #a9541506\n    ┌  a\n    │  b\n    ┌  a")
  ∧ glyph [u "a"; u "b"; u "a"] (u "a") = u "┌ "
  ∧ glyph_at 3 2 = u "└ ".
Proof.
  intros Hall. split; [|split; [|split; [|split]]]; try reflexivity.
  - destruct (outline nb) as [out|e] eqn:Hout.
    + exists out. split; [reflexivity|].
      apply outline_inv in Hout. rewrite (outline_fold _ _ Hall) in Hout.
      injection Hout as Hout. rewrite <- Hout, <- !app_assoc. reflexivity.
    + unfold outline, Notebook_iter in Hout.
      rewrite (outline_fold _ _ Hall) in Hout. discriminate.
  - intros c Hin lines.
    pose proof (proj1 (Forall_forall _ _) Hall c Hin) as [Hc Hsrc].
    split; [intros text; apply outline_step_lines; assumption|].
    apply glyph_cases.
Qed.

End OutlinerProps.

(** The outline of the empty notebook does not end with a newline. *)
Lemma outline_empty_notebook_counterexample :
  Outliner.outline (H := ascii_interpreter) (Notebook (u "4.5") [])
  ≠ OK (u "Jupyter Notebook v4.5\n").
Proof. discriminate. Qed.

Lemma outline_glyphs_witness :
  (∃ out,
     Outliner.outline (H := ascii_interpreter) hello_world_notebook = OK out
     ∧ out ++ [NL]
       = u "Jupyter Notebook v" ++ version hello_world_notebook ++ [NL]
           ++ concat
                (map (fun c =>
                        cell_header (H := ascii_interpreter) c
                        ++ concat
                             (map (fun line =>
                                     u "    " ++ glyph (lines_of c) line
                                       ++ u " " ++ str_strip line ++ [NL])
                                (lines_of c)))
                   (cells hello_world_notebook)))
  ∧ (∀ c, c ∈ cells hello_world_notebook →
       let lines := lines_of c in
       (∀ text, Outliner.outline_step (H := ascii_interpreter) text c
                = OK (text ++ cell_header (H := ascii_interpreter) c
                           ++ concat (map (outlined lines) lines)))
       ∧ (length lines = 1 → ∀ line, glyph lines line = u "|")
       ∧ (1 < length lines → ∀ line,
            (Some line = head lines → glyph lines line = u "┌ ")
            ∧ (Some line ≠ head lines → Some line = last lines →
               glyph lines line = u "└ ")
            ∧ (Some line ≠ head lines → Some line ≠ last lines →
               glyph lines line = u "│ "))
       ∧ (NoDup lines → ∀ i line, lines !! i = Some line →
            glyph lines line = glyph_at (length lines) i))
  ∧ Outliner.outline (H := ascii_interpreter)
      (Notebook (u "4.5")
         [MarkdownCell (JStr (u "a9541506"))
            (JList [JStr (u "a\n"); JStr (u "b\n"); JStr (u "a\n")])])
    = OK (u "Jupyter Notebook v4.5\n└─▶ Markdown cell #a9541506\n    ┌  a\n    │  b\n    ┌  a")
  ∧ glyph [u "a"; u "b"; u "a"] (u "a") = u "┌ "
  ∧ glyph_at 3 2 = u "└ ".
Proof.
  apply (outline_glyphs (H := ascii_interpreter)).
  repeat (apply List.Forall_cons;
          [split; [first [left; reflexivity | right; reflexivity] | reflexivity]|]).
  apply List.Forall_nil.
Defined.

(** ** The store: what the renderers read and write *)

Section ReadOnly.
Import Heap.

Lemma bind_Done {A B} (m : M A) (f : A → M B) (h h' : heap) (a : A) :
  m h = (Done a, h') → (m ≫= f) h = f a h'.
Proof. intros Hm. unfold mbind, M_bind. rewrite Hm. reflexivity. Qed.

Lemma bind_Raised {A B} (m : M A) (f : A → M B) (h h' : heap) (e : exn) :
  m h = (Raised e, h') → (m ≫= f) h = (Raised e, h').
Proof. intros Hm. unfold mbind, M_bind. rewrite Hm. reflexivity. Qed.

Lemma read_Some (l : loc) (h : heap) (o : object) :
  h !! l = Some o → read l h = (Done o, h).
Proof. intros Hl. unfold read. rewrite Hl. reflexivity. Qed.

Lemma read_only_ret {A} (a : A) : read_only (mret a).
Proof. intros h. reflexivity. Qed.

Lemma read_only_raise {A} (e : exn) : read_only (raise (A := A) e).
Proof. intros h. reflexivity. Qed.

Lemma read_only_out_of_fuel {A} : read_only (out_of_fuel (A := A)).
Proof. intros h. reflexivity. Qed.

Lemma read_only_bind {A B} (m : M A) (f : A → M B) :
  read_only m → (∀ a, read_only (f a)) → read_only (m ≫= f).
Proof.
  intros Hm Hf h. unfold mbind, M_bind.
  specialize (Hm h). destruct (m h) as [[a|e|] h']; simpl in *; subst;
    [apply Hf | reflexivity..].
Qed.

Lemma read_only_read (l : loc) : read_only (read l).
Proof. intros h. unfold read. destruct (h !! l); reflexivity. Qed.

Lemma read_only_lift {A} (r : result A) : read_only (lift r).
Proof. destruct r; intros h; reflexivity. Qed.

Lemma read_only_read_value (depth : nat) (v : value) :
  read_only (read_value depth v).
Proof. intros h. reflexivity. Qed.

Ltac solve_read_only :=
  repeat first
    [ apply read_only_ret | apply read_only_raise | apply read_only_out_of_fuel
    | apply read_only_read | apply read_only_lift | apply read_only_read_value
    | apply read_only_bind; [|intro]
    | match goal with
      | |- read_only (match ?x with _ => _ end) => destruct x
      | |- read_only (if ?b then _ else _) => destruct b
      | |- read_only (let '(_, _) := ?x in _) => destruct x
      end
    | assumption ].

Lemma read_only_getattr (v : value) (name : str) : read_only (getattr v name).
Proof. unfold getattr. solve_read_only. Qed.

Lemma read_only_isinstance (v : value) (cls : cell_class) :
  read_only (isinstance v cls).
Proof. unfold isinstance. solve_read_only. Qed.

Lemma read_only_getitem (v : value) (key : str) : read_only (getitem v key).
Proof. unfold getitem. solve_read_only. Qed.

Lemma read_only_getitem_int (v : value) (i : Z) : read_only (getitem_int v i).
Proof. unfold getitem_int. solve_read_only. Qed.

Lemma read_only_py_len (v : value) : read_only (py_len v).
Proof. unfold py_len. solve_read_only. Qed.

Lemma read_only_strip_method (v : value) : read_only (strip_method v).
Proof. unfold strip_method. solve_read_only. Qed.

Lemma read_only_py_eq_value (depth : nat) (a b : value) :
  read_only (py_eq_value depth a b).
Proof. unfold py_eq_value. solve_read_only. Qed.

Lemma read_only_py_iter (fuel : nat) (v : value) : read_only (py_iter fuel v).
Proof.
  revert v. induction fuel as [|fuel IH]; intros v; simpl; solve_read_only.
  apply IH.
Qed.

Lemma read_only_py_next (it : iterator) : read_only (py_next it).
Proof. unfold py_next. solve_read_only. Qed.

Lemma read_only_for_loop {A} (fuel : nat) (it : iterator)
    (body : A → value → M A) (acc : A) :
  (∀ acc x, read_only (body acc x)) → read_only (for_loop fuel it body acc).
Proof.
  intros Hbody. revert it acc.
  induction fuel as [|fuel IH]; intros it acc; simpl; solve_read_only.
  - apply read_only_py_next.
  - apply Hbody.
  - apply IH.
Qed.

Lemma read_only_py_for {A} (fuel : nat) (v : value)
    (body : A → value → M A) (acc : A) :
  (∀ acc x, read_only (body acc x)) → read_only (py_for fuel v body acc).
Proof.
  intros Hbody. unfold py_for. solve_read_only.
  - apply read_only_py_iter.
  - apply read_only_for_loop, Hbody.
Qed.

Context `{Interpreter}.

Lemma read_only_format_value (depth : nat) (v : value) :
  read_only (format_value depth v).
Proof. unfold format_value. solve_read_only. Qed.

Ltac read_only_calls :=
  repeat first
    [ apply read_only_getattr | apply read_only_isinstance
    | apply read_only_getitem | apply read_only_getitem_int
    | apply read_only_py_len | apply read_only_strip_method
    | apply read_only_py_eq_value | apply read_only_format_value
    | apply read_only_py_for; intros ? ?
    | apply read_only_ret | apply read_only_raise
    | apply read_only_bind; [|intro]
    | match goal with
      | |- read_only (match ?x with _ => _ end) => destruct x
      | |- read_only (if ?b then _ else _) => destruct b
      end
    | assumption ].

(** [to_py_percent] writes nothing to the store. *)
Lemma read_only_to_py_percent (fuel : nat) (nb : value) :
  read_only (Heap.to_py_percent fuel nb).
Proof.
  unfold Heap.to_py_percent, Heap.to_py_percent_step, Heap.stripped_lines.
  read_only_calls.
Qed.

Lemma read_only_start (fuel : nat) (cell line : value) :
  read_only (Heap.start fuel cell line).
Proof. unfold Heap.start. read_only_calls. Qed.

(** [outline] writes nothing to the store. *)
Lemma read_only_outline (fuel : nat) (nb : value) :
  read_only (Heap.outline fuel nb).
Proof.
  unfold Heap.outline, Heap.outline_step, Heap.outline_line.
  repeat (read_only_calls; try apply read_only_start).
Qed.

(** Iterating a notebook writes nothing to the store. *)
Lemma read_only_iterate (fuel : nat) (nb : value) :
  read_only (Heap.iterate fuel nb).
Proof. unfold Heap.iterate. read_only_calls. Qed.

End ReadOnly.

(** *** [serialize] only writes to objects it made *)

Section SerializeFrame.
Import Heap.
Context `{Interpreter}.
Variables (h0 : heap) (s cells : loc).

Local Abbreviation I := (serializing h0 s cells).

Lemma keeps_read_only {A} (m : M A) : read_only m → keeps I m.
Proof. intros Hm h Hh. rewrite Hm. exact Hh. Qed.

Lemma keeps_bind {A B} (m : M A) (f : A → M B) :
  keeps I m → (∀ a, keeps I (f a)) → keeps I (m ≫= f).
Proof.
  intros Hm Hf h Hh. unfold mbind, M_bind.
  specialize (Hm h Hh). destruct (m h) as [[a|e|] h']; simpl in *;
    [apply Hf, Hm | exact Hm..].
Qed.

(** A new object does not disturb the others, and is none of them. *)
Lemma keeps_alloc {B} (o : object) (f : loc → M B) :
  (∀ l, length h0 ≤ l → l ≠ s → keeps I (f l)) → keeps I (alloc o ≫= f).
Proof.
  intros Hf h Hh. unfold mbind, M_bind, alloc.
  destruct Hh as (Hpre & Hcells & Hne & entries & Hs & Hget).
  assert (Hlt : s < length h) by (eapply lookup_lt_Some, Hs).
  apply Hf.
  - apply prefix_length in Hpre. lia.
  - lia.
  - split; [apply prefix_app_r, Hpre|]. split; [exact Hcells|].
    split; [exact Hne|]. exists entries. split; [|exact Hget].
    rewrite lookup_app_l by exact Hlt. exact Hs.
Qed.

(** Writing to an object that [serialize] made, other than [s]. *)
Lemma keeps_write (l : loc) (o : object) :
  length h0 ≤ l → l ≠ s → keeps I (write l o).
Proof.
  intros Hl Hls h (Hpre & Hcells & Hne & entries & Hs & Hget). unfold write.
  split; [|split; [exact Hcells|split; [exact Hne|]]].
  - destruct Hpre as [k ->]. simpl.
    rewrite insert_app_r_alt by exact Hl. apply prefix_app_r. reflexivity.
  - exists entries. split; [|exact Hget]. simpl.
    rewrite list_lookup_insert_ne by exact Hls. exact Hs.
Qed.

Lemma keeps_dict_setitem (d : loc) (key : str) (v : value) :
  length h0 ≤ d → d ≠ s → keeps I (dict_setitem (VRef d) key v).
Proof.
  intros Hd Hds. unfold dict_setitem.
  apply keeps_bind; [apply keeps_read_only, read_only_read|].
  intros [items|entries|cls attrs|attrs];
    try (apply keeps_read_only, read_only_raise).
  apply keeps_write; assumption.
Qed.

Lemma keeps_list_append (l : value) (v : value) :
  (∀ a, l = VRef a → length h0 ≤ a ∧ a ≠ s) → keeps I (list_append l v).
Proof.
  intros Hl. unfold list_append.
  destruct l as [| | | |a]; try (apply keeps_read_only, read_only_raise).
  destruct (Hl a eq_refl) as [Ha Has].
  apply keeps_bind; [apply keeps_read_only, read_only_read|].
  intros [items|entries|cls attrs|attrs];
    try (apply keeps_read_only, read_only_raise).
  apply keeps_write; assumption.
Qed.

(** [s['cells']] is the list [serialize] made. *)
Lemma keeps_getitem_cells {B} (f : value → M B) :
  keeps I (f (VRef cells)) → keeps I (getitem (VRef s) (u "cells") ≫= f).
Proof.
  intros Hf h Hh. pose proof Hh as (_ & _ & _ & entries & Hs & Hget).
  erewrite bind_Done; [apply Hf, Hh|].
  unfold getitem. erewrite bind_Done by (apply read_Some, Hs).
  cbv beta iota. rewrite Hget. reflexivity.
Qed.

Lemma keeps_for_loop {A} (fuel : nat) (it : iterator)
    (body : A → value → M A) (acc : A) :
  (∀ acc x, keeps I (body acc x)) → keeps I (for_loop fuel it body acc).
Proof.
  intros Hbody. revert it acc.
  induction fuel as [|fuel IH]; intros it acc; simpl.
  - apply keeps_read_only, read_only_out_of_fuel.
  - apply keeps_bind; [apply keeps_read_only, read_only_py_next|].
    intros [[x it']|]; [|apply keeps_read_only, read_only_ret].
    apply keeps_bind; [apply Hbody | intros acc'; apply IH].
Qed.

Lemma keeps_py_for {A} (fuel : nat) (v : value)
    (body : A → value → M A) (acc : A) :
  (∀ acc x, keeps I (body acc x)) → keeps I (py_for fuel v body acc).
Proof.
  intros Hbody. unfold py_for.
  apply keeps_bind; [apply keeps_read_only, read_only_py_iter|].
  intros it. apply keeps_for_loop, Hbody.
Qed.

End SerializeFrame.

Section SerializeFrameTop.
Import Heap.
Context `{Interpreter}.

Lemma bind_read_only_cases {A B} (m : M A) (f : A → M B) (h : heap)
    (P : outcome B * heap → Prop) :
  read_only m →
  (∀ a, P (f a h)) → (∀ e, P (Raised e, h)) → P (OutOfFuel, h) →
  P ((m ≫= f) h).
Proof.
  intros Hm Hdone Hraised Hfuel. unfold mbind, M_bind.
  specialize (Hm h). destruct (m h) as [[a|e|] h']; simpl in Hm; subst; auto.
Qed.

Lemma bind_alloc {B} (o : object) (f : loc → M B) (h : heap) :
  (alloc o ≫= f) h = f (length h) (h ++ [o]).
Proof. reflexivity. Qed.

(** Every object that was in the store when [serialize] started is as it
    was when it ends, however it ends. *)
Lemma serialize_frame (fuel : nat) (nb : value) (h0 : heap) :
  h0 `prefix_of` (Heap.serialize fuel nb h0).2.
Proof.
  unfold Heap.serialize.
  apply bind_read_only_cases; [apply read_only_getattr| |reflexivity..].
  intros version.
  apply bind_read_only_cases;
    [destruct version; solve [apply read_only_ret | apply read_only_raise]
    | |reflexivity..].
  intros [|n1 [|n2 [|? ?]]]; try reflexivity.
  rewrite bind_alloc. set (cells := length h0).
  rewrite bind_alloc. set (h2 := (h0 ++ [OList []]) ++ [ODict []]).
  assert (H2 : h0 `prefix_of` h2).
  { unfold h2. rewrite <- app_assoc. apply prefix_app_r. reflexivity. }
  apply bind_read_only_cases; [apply read_only_lift| |intros; exact H2..].
  intros major.
  apply bind_read_only_cases; [apply read_only_lift| |intros; exact H2..].
  intros minor.
  rewrite bind_alloc. set (s := length h2).
  match goal with |- _ `prefix_of` (?m ?h).2 =>
    assert (Hkeep : keeps (serializing h0 s cells) m);
    [|assert (Hinv : serializing h0 s cells h); [|apply (Hkeep h Hinv)]]
  end.
  - apply keeps_bind; [|intros; apply keeps_read_only, read_only_ret].
    apply keeps_py_for. intros [] cell. unfold serialize_step.
    apply keeps_bind; [apply keeps_read_only, read_only_getattr|]. intros i.
    apply keeps_alloc. intros metadata _ _.
    apply keeps_bind; [apply keeps_read_only, read_only_getattr|]. intros source.
    apply keeps_alloc. intros dictionnaire1 Hd Hds.
    apply keeps_bind; [apply keeps_read_only, read_only_isinstance|].
    intros markdown.
    apply keeps_bind.
    + destruct markdown; [apply keeps_dict_setitem; assumption|].
      apply keeps_bind; [apply keeps_read_only, read_only_isinstance|].
      intros [|]; [|apply keeps_read_only, read_only_ret].
      apply keeps_bind; [apply keeps_dict_setitem; assumption|]. intros _.
      apply keeps_bind; [apply keeps_read_only, read_only_getattr|]. intros n.
      apply keeps_bind; [apply keeps_dict_setitem; assumption|]. intros _.
      apply keeps_alloc. intros outputs _ _.
      apply keeps_dict_setitem; assumption.
    + intros _. apply keeps_getitem_cells, keeps_list_append.
      intros a [= <-]. subst cells s h2. rewrite !length_app. simpl. lia.
  - subst cells s. split; [apply prefix_app_r, H2|].
    split; [lia|]. split; [unfold h2; rewrite !length_app; simpl; lia|].
    eexists. split; [apply list_lookup_middle; reflexivity | reflexivity].
Qed.

End SerializeFrameTop.

(** *** Reading a notebook off the store *)

Section Reading.
Import Heap.

Lemma outcome_bind_Done {A B} (m : outcome A) (f : A → outcome B) (b : B) :
  m ≫= f = Done b ↔ ∃ a, m = Done a ∧ f a = Done b.
Proof.
  destruct m as [a|e|]; simpl.
  - split; [eauto | intros (? & [= <-] & ?); assumption].
  - split; [discriminate | intros (? & [=] & _)].
  - split; [discriminate | intros (? & [=] & _)].
Qed.

Lemma mapM_outcome_ext {A B} (f g : A → outcome B) (l : list A) (bs : list B) :
  (∀ x b, x ∈ l → f x = Done b → g x = Done b) →
  mapM_outcome f l = Done bs → mapM_outcome g l = Done bs.
Proof.
  revert bs. induction l as [|x l IH]; intros bs Hfg; simpl; [auto|].
  intros Hl. apply outcome_bind_Done in Hl as (b & Hb & Hl).
  apply outcome_bind_Done in Hl as (bs' & Hbs & [= <-]).
  rewrite (Hfg x b) by (auto; apply list_elem_of_here). simpl.
  rewrite (IH bs') by (auto; intros; apply Hfg; auto; apply list_elem_of_further; assumption).
  reflexivity.
Qed.

Lemma mapM_outcome_length {A B} (f : A → outcome B) (l : list A) (bs : list B) :
  mapM_outcome f l = Done bs → length bs = length l.
Proof.
  revert bs. induction l as [|x l IH]; intros bs; simpl.
  - intros [= <-]. reflexivity.
  - intros Hl. apply outcome_bind_Done in Hl as (b & _ & Hl).
    apply outcome_bind_Done in Hl as (bs' & Hbs & [= <-]).
    simpl. rewrite (IH bs' Hbs). reflexivity.
Qed.

Lemma read_json_ref (depth : nat) (h : heap) (l : loc) :
  read_json (S depth) h (VRef l)
  = match h !! l with
    | Some (OList items) =>
      js ← mapM_outcome (read_json depth h) items; Done (JList js)
    | Some (ODict entries) =>
      d ← mapM_outcome
            (fun kv => j ← read_json depth h kv.2; Done (kv.1, j)) entries;
      Done (JDict d)
    | Some _ => Raised TypeError
    | None => Raised SystemError
    end.
Proof. reflexivity. Qed.

(** What a value stands for does not change when objects are added to the
    store. *)
Lemma read_json_prefix (depth : nat) (h h' : heap) (v : value) (j : json) :
  h `prefix_of` h' → read_json depth h v = Done j →
  read_json depth h' v = Done j.
Proof.
  intros Hpre. revert v j.
  induction depth as [|depth IH]; intros [| | | |l] j;
    try (intros Hj; exact Hj).
  rewrite !read_json_ref.
  destruct (h !! l) as [o|] eqn:Hl; [|discriminate].
  rewrite (prefix_lookup_Some _ _ _ _ Hl Hpre).
  destruct o as [items|entries|cls attrs|attrs]; auto.
  - intros Hj. apply outcome_bind_Done in Hj as (js & Hjs & [= <-]).
    rewrite (mapM_outcome_ext (read_json depth h) (read_json depth h') items js);
      [reflexivity| |exact Hjs].
    intros x b _. apply IH.
  - intros Hj. apply outcome_bind_Done in Hj as (d & Hd & [= <-]).
    erewrite mapM_outcome_ext; [reflexivity| |exact Hd].
    intros [k x] [k' b] _ Hx. simpl in *.
    apply outcome_bind_Done in Hx as (b' & Hb & [= <- <-]).
    rewrite (IH x b' Hb). reflexivity.
Qed.

Lemma read_attr_prefix (depth : nat) (h h' : heap)
    (attrs : list (str * value)) (name : str) (j : json) :
  h `prefix_of` h' → read_attr depth h attrs name = Done j →
  read_attr depth h' attrs name = Done j.
Proof.
  unfold read_attr. intros Hpre. destruct (dict_get name attrs); [|discriminate].
  apply read_json_prefix, Hpre.
Qed.

Lemma read_cell_prefix (depth : nat) (h h' : heap) (v : value) (c : cell) :
  h `prefix_of` h' → read_cell depth h v = Done c →
  read_cell depth h' v = Done c.
Proof.
  intros Hpre. destruct v as [| | | |l]; auto. unfold read_cell.
  destruct (h !! l) as [o|] eqn:Hl; [|discriminate].
  rewrite (prefix_lookup_Some _ _ _ _ Hl Hpre).
  destruct o as [items|entries|cls attrs|attrs]; auto.
  destruct (negb _); [discriminate|]. intros Hc.
  apply outcome_bind_Done in Hc as (i & Hi & Hc).
  apply outcome_bind_Done in Hc as (src & Hsrc & Hc).
  rewrite (read_attr_prefix depth h h' _ _ i Hpre Hi).
  rewrite (read_attr_prefix depth h h' _ _ src Hpre Hsrc).
  destruct cls; try exact Hc.
  apply outcome_bind_Done in Hc as (n & Hn & Hc).
  rewrite (read_attr_prefix depth h h' _ _ n Hpre Hn). exact Hc.
Qed.

(** The notebook an instance stands for does not change either. *)
Lemma read_notebook_prefix (depth : nat) (h h' : heap) (v : value)
    (n : notebook) :
  h `prefix_of` h' → read_notebook depth h v = Done n →
  read_notebook depth h' v = Done n.
Proof.
  intros Hpre. destruct v as [| | | |l]; auto. unfold read_notebook.
  destruct (h !! l) as [o|] eqn:Hl; [|discriminate].
  rewrite (prefix_lookup_Some _ _ _ _ Hl Hpre).
  destruct o as [items|entries|cls attrs|attrs]; auto.
  destruct (dict_get (u "version") attrs) as [[| | |version|]|]; auto.
  destruct (dict_get (u "cells") attrs) as [[| | | |cells]|]; auto.
  destruct (h !! cells) as [o|] eqn:Hcells; [|discriminate].
  rewrite (prefix_lookup_Some _ _ _ _ Hcells Hpre).
  destruct o as [items|entries|cls attrs'|attrs']; auto.
  intros Hn. apply outcome_bind_Done in Hn as (cs & Hcs & [= <-]).
  erewrite mapM_outcome_ext; [reflexivity| |exact Hcs].
  intros x c _. apply read_cell_prefix, Hpre.
Qed.

End Reading.

(** *** Iterating over a list of the store *)

Section Iterating.
Import Heap.

(** A loop over a list whose body leaves the store alone runs as a fold,
    provided it is given more turns than the list has items. *)
Lemma for_loop_list {A} (fuel : nat) (l : loc) (items : list value) (i : nat)
    (body : A → value → M A) (acc : A) (h : heap) :
  h !! l = Some (OList items) →
  (∀ acc x, x ∈ items → (body acc x h).2 = h) →
  length items - i < fuel →
  for_loop fuel (ListIter l i) body acc h
  = (fold_outcome (fun acc x => (body acc x h).1) acc (drop i items), h).
Proof.
  intros Hl Hbody. revert i acc.
  induction fuel as [|fuel IH]; intros i acc Hfuel; [lia|].
  cbn [for_loop]. unfold py_next.
  erewrite bind_Done; [|erewrite bind_Done by (apply read_Some, Hl); reflexivity].
  destruct (items !! i) as [x|] eqn:Hi.
  - rewrite (drop_S _ _ _ Hi). cbn [fold_outcome].
    assert (Hx : x ∈ items) by (eapply list_elem_of_lookup_2, Hi).
    unfold mbind at 1, M_bind. specialize (Hbody acc x Hx).
    apply lookup_lt_Some in Hi.
    destruct (body acc x h) as [[acc'|e|] h'] eqn:E; simpl in Hbody; subst h';
      [|reflexivity..].
    apply IH. lia.
  - apply lookup_ge_None in Hi. rewrite drop_ge by exact Hi. reflexivity.
Qed.

Lemma for_loop_str {A} (fuel : nat) (s : str)
    (body : A → value → M A) (acc : A) (h : heap) :
  (∀ acc c, (body acc (VStr [c]) h).2 = h) →
  length s < fuel →
  for_loop fuel (StrIter s) body acc h
  = (fold_outcome (fun acc x => (body acc x h).1) acc
       (map (fun c => VStr [c]) s), h).
Proof.
  intros Hbody. revert fuel acc.
  induction s as [|c s IH]; intros [|fuel] acc Hfuel; simpl in Hfuel; try lia.
  - reflexivity.
  - cbn [for_loop py_next map fold_outcome].
    erewrite bind_Done by reflexivity.
    unfold mbind at 1, M_bind. specialize (Hbody acc c).
    destruct (body acc (VStr [c]) h) as [[acc'|e|] h'] eqn:E; simpl in Hbody;
      subst h'; [|reflexivity..].
    apply IH. lia.
Qed.

Lemma for_loop_dict {A} (fuel : nat) (l : loc) (entries : list (str * value))
    (i : nat) (body : A → value → M A) (acc : A) (h : heap) :
  h !! l = Some (ODict entries) →
  (∀ acc k, (body acc (VStr k) h).2 = h) →
  length entries - i < fuel →
  for_loop fuel (DictIter l i (length entries)) body acc h
  = (fold_outcome (fun acc x => (body acc x h).1) acc
       (map (fun kv => VStr kv.1) (drop i entries)), h).
Proof.
  intros Hl Hbody. revert i acc.
  induction fuel as [|fuel IH]; intros i acc Hfuel; [lia|].
  cbn [for_loop]. unfold py_next.
  erewrite bind_Done;
    [|erewrite bind_Done by (apply read_Some, Hl);
      cbv beta iota; rewrite Nat.eqb_refl; reflexivity].
  destruct (entries !! i) as [[k x]|] eqn:Hi.
  - rewrite (drop_S _ _ _ Hi). cbn [map fold_outcome fst].
    unfold mbind at 1, M_bind. specialize (Hbody acc k).
    apply lookup_lt_Some in Hi.
    destruct (body acc (VStr k) h) as [[acc'|e|] h'] eqn:E; simpl in Hbody;
      subst h'; [|reflexivity..].
    apply IH. lia.
  - apply lookup_ge_None in Hi. rewrite drop_ge by exact Hi. reflexivity.
Qed.

Lemma py_iter_list (fuel : nat) (l : loc) (items : list value) (h : heap) :
  h !! l = Some (OList items) → py_iter fuel (VRef l) h = (Done (ListIter l 0), h).
Proof.
  intros Hl. destruct fuel; cbn [py_iter];
    (erewrite bind_Done by (apply read_Some, Hl); reflexivity).
Qed.

(** [iter(notebook)] is an iterator over the list of its cells, placed at
    the start. *)
Lemma py_iter_notebook (fuel : nat) (l cl : loc) (attrs : list (str * value))
    (items : list value) (h : heap) :
  h !! l = Some (ONotebook attrs) →
  dict_get (u "cells") attrs = Some (VRef cl) →
  h !! cl = Some (OList items) →
  py_iter (S fuel) (VRef l) h = (Done (ListIter cl 0), h).
Proof.
  intros Hl Hattr Hcells. cbn [py_iter].
  erewrite bind_Done by (apply read_Some, Hl). cbv beta iota.
  erewrite bind_Done; [eapply py_iter_list, Hcells|].
  unfold getattr. erewrite bind_Done by (apply read_Some, Hl).
  cbv beta iota. rewrite Hattr. reflexivity.
Qed.

Lemma fold_outcome_collect {B} (seen l : list B) :
  fold_outcome (fun seen x => Done (seen ++ [x])) seen l = Done (seen ++ l).
Proof.
  revert seen. induction l as [|x l IH]; intros seen; simpl.
  - rewrite app_nil_r. reflexivity.
  - rewrite IH, <- app_assoc. reflexivity.
Qed.

(** Iterating a notebook yields the items of its list of cells, in order,
    and can be done again. *)
Lemma iterate_cells (fuel : nat) (l cl : loc) (attrs : list (str * value))
    (items : list value) (h : heap) :
  h !! l = Some (ONotebook attrs) →
  dict_get (u "cells") attrs = Some (VRef cl) →
  h !! cl = Some (OList items) →
  length items < fuel →
  iterate fuel (VRef l) h = (Done items, h).
Proof.
  intros Hl Hattr Hcells Hfuel. unfold iterate, py_for.
  destruct fuel as [|fuel]; [lia|].
  erewrite bind_Done by (eapply py_iter_notebook; eassumption).
  rewrite (for_loop_list (S fuel) cl items 0 _ [] h Hcells).
  - rewrite drop_0. f_equal. apply (fold_outcome_collect [] items).
  - reflexivity.
  - lia.
Qed.

Lemma read_notebook_inv (depth : nat) (h : heap) (nb : value) (n : notebook) :
  read_notebook depth h nb = Done n →
  ∃ l attrs cl items,
    nb = VRef l ∧ h !! l = Some (ONotebook attrs)
    ∧ dict_get (u "version") attrs = Some (VStr (version n))
    ∧ dict_get (u "cells") attrs = Some (VRef cl)
    ∧ h !! cl = Some (OList items)
    ∧ mapM_outcome (read_cell depth h) items = Done (cells n).
Proof.
  destruct nb as [| | | |l]; try discriminate. unfold read_notebook.
  destruct (h !! l) as [[items|entries|cls attrs|attrs]|] eqn:Hl;
    try discriminate.
  destruct (dict_get (u "version") attrs) as [[| | |version|]|] eqn:Hv;
    try discriminate.
  destruct (dict_get (u "cells") attrs) as [[| | | |cl]|] eqn:Hc;
    try discriminate.
  destruct (h !! cl) as [[items|entries|cls attrs'|attrs']|] eqn:Hcells;
    try discriminate.
  intros Hn. apply outcome_bind_Done in Hn as (cs & Hcs & [= <-]).
  exists l, attrs, cl, items. simpl. auto 10.
Qed.

Context `{Interpreter}.

(** C9. None of [Serializer.serialize], [PyPercentSerializer.to_py_percent]
    and [Outliner.outline] changes the notebook it is given: the first only
    adds objects to the store and writes to those, the other two write
    nothing at all. The notebook read off the store afterwards (its
    version, its cells in order, and their [id], [source] and
    [execution_count]) is the one read before. Iterating the notebook
    yields its cells in document order, and yields them again on every
    later iteration. *)
Theorem notebook_not_mutated
    (depth fuel : nat) (h : heap) (nb : value) (n : notebook) :
  read_notebook depth h nb = Done n →
  (h `prefix_of` (Heap.serialize fuel nb h).2
   ∧ read_notebook depth (Heap.serialize fuel nb h).2 nb = Done n)
  ∧ (Heap.to_py_percent fuel nb h).2 = h
  ∧ (Heap.outline fuel nb h).2 = h
  ∧ (length (cells n) < fuel →
     ∃ items,
       mapM_outcome (read_cell depth h) items = Done (cells n)
       ∧ ∀ h', h `prefix_of` h' →
               Heap.iterate fuel nb h' = (Done items, h')).
Proof.
  intros Hn.
  split; [|split; [apply read_only_to_py_percent|
                   split; [apply read_only_outline|]]].
  - pose proof (serialize_frame fuel nb h) as Hframe.
    split; [exact Hframe | eapply read_notebook_prefix; eassumption].
  - intros Hfuel.
    destruct (read_notebook_inv depth h nb n Hn)
      as (l & attrs & cl & items & -> & Hl & _ & Hattr & Hcells & Hitems).
    exists items. split; [exact Hitems|]. intros h' Hpre.
    apply (iterate_cells fuel l cl attrs items h').
    + eapply prefix_lookup_Some; eassumption.
    + exact Hattr.
    + eapply prefix_lookup_Some; eassumption.
    + rewrite <- (mapM_outcome_length _ _ _ Hitems). exact Hfuel.
Qed.

End Iterating.

(** *** The renderers on the store compute what the renderers on documents
    compute *)

Section Decoding.
Import Heap.

Lemma read_json_immediate (depth depth' : nat) (h h' : heap) (v : value) :
  (∀ l, v ≠ VRef l) → read_json depth h v = read_json depth' h' v.
Proof.
  intros Hv. destruct v; try (destruct depth, depth'; reflexivity).
  exfalso. eapply Hv. reflexivity.
Qed.

Lemma read_json_VStr (depth : nat) (h : heap) (s : str) :
  read_json depth h (VStr s) = Done (JStr s).
Proof. destruct depth; reflexivity. Qed.

(** Reading deeper gives the same document. *)
Lemma read_json_deeper (depth depth' : nat) (h : heap) (v : value) (j : json) :
  depth ≤ depth' → read_json depth h v = Done j →
  read_json depth' h v = Done j.
Proof.
  revert depth' v j. induction depth as [|depth IH]; intros depth' v j Hle.
  - destruct v; try (destruct depth'; intros Hj; exact Hj). discriminate.
  - destruct depth' as [|depth']; [lia|].
    destruct v as [| | | |l]; try (intros Hj; exact Hj).
    rewrite !read_json_ref.
    destruct (h !! l) as [[items|entries|cls attrs|attrs]|]; auto.
    + intros Hj. apply outcome_bind_Done in Hj as (js & Hjs & [= <-]).
      rewrite (mapM_outcome_ext (read_json depth h) (read_json depth' h) items js);
        [reflexivity| |exact Hjs].
      intros x b _. apply IH. lia.
    + intros Hj. apply outcome_bind_Done in Hj as (d & Hd & [= <-]).
      erewrite mapM_outcome_ext; [reflexivity| |exact Hd].
      intros [k x] [k' b] _ Hx. simpl in *.
      apply outcome_bind_Done in Hx as (b' & Hb & [= <- <-]).
      rewrite (IH depth' x b') by (auto; lia). reflexivity.
Qed.

Lemma mapM_outcome_Forall2 {A B} (f : A → outcome B) (l : list A) (bs : list B) :
  mapM_outcome f l = Done bs → Forall2 (fun x b => f x = Done b) l bs.
Proof.
  revert bs. induction l as [|x l IH]; intros bs; simpl.
  - intros [= <-]. constructor.
  - intros Hl. apply outcome_bind_Done in Hl as (b & Hb & Hl).
    apply outcome_bind_Done in Hl as (bs' & Hbs & [= <-]).
    constructor; auto.
Qed.

Lemma Forall2_elem_of_l {A B} (R : A → B → Prop) (l : list A) (k : list B)
    (x : A) :
  Forall2 R l k → x ∈ l → ∃ y, R x y.
Proof.
  induction 1 as [|a b l k Hab _ IH]; intros Hx.
  - apply elem_of_nil in Hx. contradiction.
  - apply elem_of_cons in Hx as [->|Hx]; eauto.
Qed.

(** A fold over values and the fold over what they stand for. *)
Lemma fold_outcome_decoded_gen {A B} (R : value → B → Prop)
    (step : A → value → outcome A) (pstep : A → B → result A)
    (items : list value) (js : list B) (acc : A) :
  Forall2 R items js →
  (∀ acc x j, R x j → step acc x = outcome_of (pstep acc j)) →
  fold_outcome step acc items = outcome_of (foldM pstep acc js).
Proof.
  intros Hall Hstep. revert acc.
  induction Hall as [|x j items js Hx _ IH]; intros acc; simpl; [reflexivity|].
  rewrite (Hstep acc x j Hx). destruct (pstep acc j); simpl; [apply IH | reflexivity].
Qed.

Lemma fold_outcome_decoded {A} (R : value → json → Prop)
    (step : A → value → outcome A) (pstep : A → json → result A)
    (items : list value) (js : list json) (acc : A) :
  Forall2 R items js →
  (∀ acc x j, R x j → step acc x = outcome_of (pstep acc j)) →
  fold_outcome step acc items = outcome_of (foldM pstep acc js).
Proof. apply fold_outcome_decoded_gen. Qed.

Lemma strip_method_decoded (depth : nat) (h : heap) (v : value) (j : json) :
  read_json depth h v = Done j →
  Heap.strip_method v h = (outcome_of (Py.strip_method j), h).
Proof.
  destruct v as [| | |s|l].
  1-3: rewrite (read_json_immediate depth 0 h h) by discriminate;
       intros [= <-]; reflexivity.
  - rewrite read_json_VStr. intros [= <-]. reflexivity.
  - destruct depth; [discriminate|]. rewrite read_json_ref.
    destruct (h !! l) as [[items|entries|cls attrs|attrs]|]; try discriminate;
      intros Hj; apply outcome_bind_Done in Hj as (? & _ & [= <-]); reflexivity.
Qed.

(** A loop over a value that stands for a document runs as the loop over
    the document, when its body does on every item what the body of the
    latter does on the document the item stands for. *)
Lemma py_for_decoded {A} (fuel depth : nat) (h : heap) (v : value) (j : json)
    (body : A → value → M A) (pstep : A → json → result A) (acc : A) :
  read_json depth h v = Done j →
  (∀ acc x jx, read_json (pred depth) h x = Done jx →
               body acc x h = (outcome_of (pstep acc jx), h)) →
  (∀ n, Py.py_len j = OK n → n < fuel) →
  py_for fuel v body acc h
  = (outcome_of (js ← Py.py_iter j; foldM pstep acc js), h).
Proof.
  intros Hj Hbody Hfuel. unfold py_for.
  destruct v as [| | |s|l].
  1-3: rewrite (read_json_immediate depth 0 h h) in Hj by discriminate;
       injection Hj as <-; destruct fuel; reflexivity.
  - rewrite read_json_VStr in Hj. injection Hj as <-.
    erewrite bind_Done by (destruct fuel; reflexivity).
    rewrite for_loop_str.
    + f_equal. cbn [Py.py_iter mbind result_bind].
      apply (fold_outcome_decoded
               (fun x jx => read_json (pred depth) h x = Done jx)).
      * clear. induction s as [|c s IH]; simpl; constructor; auto.
        apply read_json_VStr.
      * intros acc' x jx Hx. rewrite (Hbody acc' x jx Hx). reflexivity.
    + intros acc' c.
      rewrite (Hbody acc' (VStr [c]) (JStr [c])) by apply read_json_VStr.
      reflexivity.
    + apply Hfuel. reflexivity.
  - destruct depth as [|depth]; [discriminate|]. rewrite read_json_ref in Hj.
    destruct (h !! l) as [[items|entries|cls attrs|attrs]|] eqn:Hl;
      try discriminate.
    + apply outcome_bind_Done in Hj as (js & Hjs & [= <-]).
      apply mapM_outcome_Forall2 in Hjs.
      erewrite bind_Done by (eapply py_iter_list, Hl).
      rewrite (for_loop_list fuel l items 0 body acc h Hl).
      * rewrite drop_0. f_equal. cbn [Py.py_iter mbind result_bind].
        apply (fold_outcome_decoded _ _ _ _ _ _ Hjs).
        intros acc' x jx Hx. rewrite (Hbody acc' x jx Hx). reflexivity.
      * intros acc' x Hx.
        destruct (Forall2_elem_of_l _ _ _ _ Hjs Hx) as [jx Hjx].
        rewrite (Hbody acc' x jx Hjx). reflexivity.
      * specialize (Hfuel (length js) eq_refl).
        rewrite (Forall2_length _ _ _ Hjs). lia.
    + apply outcome_bind_Done in Hj as (d & Hd & [= <-]).
      apply mapM_outcome_Forall2 in Hd.
      erewrite bind_Done
        by (destruct fuel; cbn [Heap.py_iter];
            erewrite bind_Done by (apply read_Some, Hl); reflexivity).
      rewrite (for_loop_dict fuel l entries 0 body acc h Hl).
      * rewrite drop_0. f_equal. cbn [Py.py_iter mbind result_bind].
        apply (fold_outcome_decoded
                 (fun x jx => read_json depth h x = Done jx)).
        -- clear -Hd. induction Hd as [|[k x] [k' jx] es d Hx _ IH]; simpl;
             constructor; auto.
           simpl in Hx. apply outcome_bind_Done in Hx as (? & _ & [= <- _]).
           apply read_json_VStr.
        -- intros acc' x jx Hx. rewrite (Hbody acc' x jx Hx). reflexivity.
      * intros acc' k.
        rewrite (Hbody acc' (VStr k) (JStr k)) by apply read_json_VStr.
        reflexivity.
      * specialize (Hfuel (length d) eq_refl).
        rewrite (Forall2_length _ _ _ Hd). lia.
Qed.

End Decoding.

Section Adequacy.
Import Heap.
Context `{Interpreter}.

Lemma names_eqb_eq (a b : list str) : names_eqb a b = true → a = b.
Proof.
  revert b. induction a as [|s a IH]; intros [|t b]; simpl; try easy.
  intros Hab. apply andb_true_iff in Hab as [Hs Hab].
  apply str_eqb_eq in Hs as ->. rewrite (IH b Hab). reflexivity.
Qed.

(** What an instance that stands for a cell looks like. *)
Lemma read_cell_inv (depth : nat) (h : heap) (v : value) (c : cell) :
  read_cell depth h v = Done c →
  ∃ l attrs,
    v = VRef l ∧ h !! l = Some (OCell (class_of c) attrs)
    ∧ map fst attrs = attribute_names (class_of c)
    ∧ read_attr depth h attrs (u "id") = Done (cell_id c)
    ∧ read_attr depth h attrs (u "source") = Done (cell_source c)
    ∧ (class_of c = ClsCodeCell →
       read_attr depth h attrs (u "execution_count")
       = outcome_of (cell_execution_count c)).
Proof.
  destruct v as [| | | |l]; try discriminate. unfold read_cell.
  destruct (h !! l) as [[items|entries|cls attrs|attrs]|] eqn:Hl;
    try discriminate.
  destruct (names_eqb _ _) eqn:Hnames; [|discriminate].
  apply names_eqb_eq in Hnames. cbn [negb].
  intros Hc. apply outcome_bind_Done in Hc as (i & Hi & Hc).
  apply outcome_bind_Done in Hc as (src & Hsrc & Hc).
  exists l, attrs.
  destruct cls.
  - injection Hc as <-. repeat split; auto. discriminate.
  - apply outcome_bind_Done in Hc as (n & Hn & [= <-]).
    repeat split; auto.
  - injection Hc as <-. repeat split; auto. discriminate.
Qed.

Lemma isinstance_decoded (depth : nat) (h : heap) (v : value) (c : cell)
    (cls : cell_class) :
  read_cell depth h v = Done c →
  isinstance v cls h = (Done (cell_class_eqb (class_of c) cls), h).
Proof.
  intros Hc. destruct (read_cell_inv depth h v c Hc) as (l & attrs & -> & Hl & _).
  unfold isinstance. erewrite bind_Done by (apply read_Some, Hl). reflexivity.
Qed.

(** An attribute of the instance is a value that stands for the attribute
    of the cell. *)
Lemma getattr_read_attr (depth : nat) (h : heap) (l : loc) (cls : cell_class)
    (attrs : list (str * value)) (name : str) (j : json) :
  h !! l = Some (OCell cls attrs) →
  read_attr depth h attrs name = Done j →
  ∃ x, getattr (VRef l) name h = (Done x, h) ∧ read_json depth h x = Done j.
Proof.
  intros Hl Hj. unfold read_attr in Hj.
  destruct (dict_get name attrs) as [x|] eqn:Hx; [|discriminate].
  exists x. split; [|exact Hj].
  unfold getattr. erewrite bind_Done by (apply read_Some, Hl).
  cbv beta iota. rewrite Hx. reflexivity.
Qed.

Lemma getattr_source (depth : nat) (h : heap) (v : value) (c : cell) :
  read_cell depth h v = Done c →
  ∃ x, getattr v (u "source") h = (Done x, h)
       ∧ read_json depth h x = Done (cell_source c).
Proof.
  intros Hc.
  destruct (read_cell_inv depth h v c Hc) as (l & attrs & -> & Hl & _ & _ & Hs & _).
  eapply getattr_read_attr; eassumption.
Qed.

Lemma getattr_id (depth : nat) (h : heap) (v : value) (c : cell) :
  read_cell depth h v = Done c →
  ∃ x, getattr v (u "id") h = (Done x, h)
       ∧ read_json depth h x = Done (cell_id c).
Proof.
  intros Hc.
  destruct (read_cell_inv depth h v c Hc) as (l & attrs & -> & Hl & _ & Hi & _).
  eapply getattr_read_attr; eassumption.
Qed.

(** Collecting in a loop and mapping. *)
Lemma foldM_collect {A B} (f : A → result B) (acc : list B) (l : list A) :
  foldM (fun acc x => y ← f x; OK (acc ++ [y])) acc l
  = ys ← mapM_result f l; OK (acc ++ ys).
Proof.
  revert acc. induction l as [|x l IH]; intros acc; simpl.
  - rewrite app_nil_r. reflexivity.
  - destruct (f x) as [y|e]; simpl; [|reflexivity].
    rewrite IH. destruct (mapM_result f l); simpl; [|reflexivity].
    rewrite <- app_assoc. reflexivity.
Qed.

Lemma bind_outcome_of {A B} (m : M A) (f : A → M B) (r : result A)
    (g : A → result B) (h : heap) :
  m h = (outcome_of r, h) →
  (∀ a, r = OK a → f a h = (outcome_of (g a), h)) →
  (m ≫= f) h = (outcome_of (r ≫= g), h).
Proof.
  intros Hm Hf. unfold mbind at 1, M_bind. rewrite Hm.
  destruct r as [a|e]; [apply Hf; reflexivity | reflexivity].
Qed.

Lemma stripped_lines_decoded (fuel depth : nat) (h : heap) (v : value)
    (j : json) :
  read_json depth h v = Done j →
  (∀ n, Py.py_len j = OK n → n < fuel) →
  stripped_lines fuel v h
  = (outcome_of (PyPercentSerializer.stripped_lines j), h).
Proof.
  intros Hj Hfuel. unfold stripped_lines.
  rewrite (py_for_decoded fuel depth h v j _
             (fun lines jx => s ← Py.strip_method jx; OK (lines ++ [s])) []
             Hj); [|
    |exact Hfuel].
  - f_equal. unfold PyPercentSerializer.stripped_lines.
    destruct (Py.py_iter j) as [js|e]; [|reflexivity].
    cbn [mbind result_bind]. rewrite foldM_collect.
    destruct (mapM_result Py.strip_method js); reflexivity.
  - intros lines x jx Hx.
    apply bind_outcome_of; [eapply strip_method_decoded, Hx | reflexivity].
Qed.

(** One turn of the loop of [to_py_percent]. *)
Lemma to_py_percent_step_decoded (fuel depth : nat) (h : heap) (text : str)
    (v : value) (c : cell) :
  read_cell depth h v = Done c →
  (∀ n, Py.py_len (cell_source c) = OK n → n < fuel) →
  to_py_percent_step fuel text v h
  = (outcome_of (PyPercentSerializer.to_py_percent_step text c), h).
Proof.
  intros Hc Hfuel.
  destruct (getattr_source depth h v c Hc) as (x & Hx & Hsrc).
  unfold to_py_percent_step, PyPercentSerializer.to_py_percent_step.
  erewrite bind_Done by (eapply isinstance_decoded, Hc).
  destruct c as [i src|n i src|i src]; cbn [class_of cell_class_eqb
    is_MarkdownCell is_CodeCell].
  - erewrite bind_Done by (eapply isinstance_decoded, Hc). reflexivity.
  - erewrite bind_Done by (eapply isinstance_decoded, Hc).
    cbn [class_of cell_class_eqb].
    erewrite bind_Done by exact Hx.
    apply bind_outcome_of; [eapply stripped_lines_decoded; eassumption|].
    reflexivity.
  - erewrite bind_Done by exact Hx.
    apply bind_outcome_of; [eapply stripped_lines_decoded; eassumption|].
    reflexivity.
Qed.

(** A loop over the cells of a notebook of the store and the loop over
    the cells of the notebook it stands for. *)
Lemma py_for_notebook {A} (fuel depth : nat) (h : heap) (nb : value)
    (n : notebook) (body : A → value → M A) (pstep : A → cell → result A)
    (acc : A) :
  read_notebook depth h nb = Done n →
  length (cells n) < fuel →
  (∀ acc x c, c ∈ cells n → read_cell depth h x = Done c →
              body acc x h = (outcome_of (pstep acc c), h)) →
  py_for fuel nb body acc h = (outcome_of (foldM pstep acc (cells n)), h).
Proof.
  intros Hn Hfuel Hbody.
  destruct (read_notebook_inv depth h nb n Hn)
    as (l & attrs & cl & items & -> & Hl & _ & Hattr & Hcl & Hitems).
  apply mapM_outcome_Forall2 in Hitems.
  assert (Hrel : Forall2 (fun x c => c ∈ cells n ∧ read_cell depth h x = Done c)
                   items (cells n)).
  { clear -Hitems. induction Hitems as [|x c items cs Hx _ IH]; constructor.
    - split; [apply list_elem_of_here | exact Hx].
    - eapply Forall2_impl; [exact IH|]. intros ? ? [? ?].
      split; [apply list_elem_of_further; assumption | assumption]. }
  unfold py_for. destruct fuel as [|fuel]; [lia|].
  erewrite bind_Done by (eapply py_iter_notebook; eassumption).
  rewrite (for_loop_list (S fuel) cl items 0 body acc h Hcl).
  - rewrite drop_0. f_equal.
    apply (fold_outcome_decoded_gen _ _ _ _ _ _ Hrel).
    intros acc' x c [Hin Hx]. rewrite (Hbody acc' x c Hin Hx). reflexivity.
  - intros acc' x Hx.
    destruct (Forall2_elem_of_l _ _ _ _ Hrel Hx) as (c & Hin & Hc).
    rewrite (Hbody acc' x c Hin Hc). reflexivity.
  - rewrite (Forall2_length _ _ _ Hitems). lia.
Qed.

(** [to_py_percent] on the store returns what [to_py_percent] returns for
    the notebook the store holds, or raises what it raises. *)
Lemma to_py_percent_decoded (fuel depth : nat) (h : heap) (nb : value)
    (n : notebook) :
  read_notebook depth h nb = Done n → enough_fuel fuel n →
  Heap.to_py_percent fuel nb h
  = (outcome_of (PyPercentSerializer.to_py_percent n), h).
Proof.
  intros Hn [Hcells Hsources].
  unfold Heap.to_py_percent, PyPercentSerializer.to_py_percent, Notebook_iter.
  apply bind_outcome_of; [|reflexivity].
  apply (py_for_notebook fuel depth h nb n); [assumption..|].
  intros text x c Hin Hc. apply (to_py_percent_step_decoded fuel depth); [exact Hc|].
  rewrite Forall_forall in Hsources. apply Hsources, Hin.
Qed.

(** **** The outliner *)

Lemma format_value_decoded (fuel depth : nat) (h : heap) (v : value) (j : json) :
  read_json depth h v = Done j → depth ≤ fuel →
  format_value fuel v h = (Done (py_format j), h).
Proof.
  intros Hj Hle. unfold format_value, read_value, mbind, M_bind.
  rewrite (read_json_deeper depth fuel h v j Hle Hj). reflexivity.
Qed.

Lemma py_eq_value_decoded (fuel d1 d2 : nat) (h : heap) (a b : value)
    (ja jb : json) :
  read_json d1 h a = Done ja → read_json d2 h b = Done jb →
  d1 ≤ fuel → d2 ≤ fuel →
  py_eq_value fuel a b h = (Done (Py.py_eq ja jb), h).
Proof.
  intros Ha Hb H1 H2. unfold py_eq_value, read_value, mbind, M_bind.
  rewrite (read_json_deeper d1 fuel h a ja H1 Ha).
  rewrite (read_json_deeper d2 fuel h b jb H2 Hb). reflexivity.
Qed.

Lemma py_len_decoded (depth : nat) (h : heap) (v : value) (j : json) :
  read_json depth h v = Done j →
  Heap.py_len v h = (outcome_of (Py.py_len j), h).
Proof.
  destruct v as [| | |s|l].
  1-3: rewrite (read_json_immediate depth 0 h h) by discriminate;
       intros [= <-]; reflexivity.
  - rewrite read_json_VStr. intros [= <-]. reflexivity.
  - destruct depth; [discriminate|]. rewrite read_json_ref.
    destruct (h !! l) as [[items|entries|cls attrs|attrs]|] eqn:Hl;
      try discriminate; intros Hj;
      apply outcome_bind_Done in Hj as (js & Hjs & [= <-]);
      unfold Heap.py_len; erewrite bind_Done by (apply read_Some, Hl);
      cbn [Py.py_len outcome_of];
      rewrite (mapM_outcome_length _ _ _ Hjs); reflexivity.
Qed.

Lemma mapM_outcome_lookup {A B} (f : A → outcome B) (l : list A) (bs : list B)
    (i : nat) :
  mapM_outcome f l = Done bs →
  match bs !! i with
  | Some b => ∃ x, l !! i = Some x ∧ f x = Done b
  | None => l !! i = None
  end.
Proof.
  intros Hl. apply mapM_outcome_Forall2 in Hl.
  destruct (bs !! i) as [b|] eqn:Hb.
  - destruct (Forall2_lookup_r _ _ _ _ _ Hl Hb) as (x & Hx & Hxb). eauto.
  - apply lookup_ge_None. apply lookup_ge_None in Hb.
    rewrite (Forall2_length _ _ _ Hl). exact Hb.
Qed.

(** [v[i]] stands for [j[i]]. *)
Lemma getitem_int_decoded (depth : nat) (h : heap) (v : value) (j : json)
    (i : Z) :
  read_json depth h v = Done j →
  match Py.getitem_int j i with
  | OK jx => ∃ x, Heap.getitem_int v i h = (Done x, h)
                  ∧ read_json (pred depth) h x = Done jx
  | Raise e => Heap.getitem_int v i h = (Raised e, h)
  end.
Proof.
  destruct v as [| | |s|l].
  1-3: rewrite (read_json_immediate depth 0 h h) by discriminate;
       intros [= <-]; reflexivity.
  - rewrite read_json_VStr. intros [= <-].
    unfold Py.getitem_int, Heap.getitem_int.
    destruct (index_of (length s) i ≫= (s !!.)) as [c|]; [|reflexivity].
    eexists. split; [reflexivity | apply read_json_VStr].
  - destruct depth; [discriminate|]. rewrite read_json_ref.
    destruct (h !! l) as [[items|entries|cls attrs|attrs]|] eqn:Hl;
      try discriminate; intros Hj;
      apply outcome_bind_Done in Hj as (js & Hjs & [= <-]);
      unfold Heap.getitem_int; erewrite bind_Done by (apply read_Some, Hl);
      [|reflexivity].
    unfold Py.getitem_int. rewrite <- (mapM_outcome_length _ _ _ Hjs).
    destruct (index_of (length js) i) as [k|]; [|reflexivity].
    cbn [mbind option_bind].
    pose proof (mapM_outcome_lookup _ _ _ k Hjs) as Hk.
    destruct (js !! k) as [jx|].
    + destruct Hk as (x & Hx & Hjx). rewrite Hx. eauto.
    + rewrite Hk. reflexivity.
Qed.

Lemma getattr_execution_count (depth : nat) (h : heap) (v : value) (c : cell) :
  read_cell depth h v = Done c →
  match cell_execution_count c with
  | OK n => ∃ x, getattr v (u "execution_count") h = (Done x, h)
                 ∧ read_json depth h x = Done n
  | Raise e => getattr v (u "execution_count") h = (Raised e, h)
  end.
Proof.
  intros Hc.
  destruct (read_cell_inv depth h v c Hc)
    as (l & attrs & -> & Hl & Hnames & _ & _ & Hn).
  destruct c as [i src|n i src|i src]; cbn [cell_execution_count].
  2:{ eapply getattr_read_attr; [exact Hl | apply Hn; reflexivity]. }
  all: unfold getattr; erewrite bind_Done by (apply read_Some, Hl);
    cbn [class_of attribute_names] in Hnames;
    destruct attrs as [|[k1 x1] [|[k2 x2] [|? ?]]]; try discriminate;
    injection Hnames as -> ->; reflexivity.
Qed.

Lemma start_decoded (fuel depth d : nat) (h : heap) (v line : value)
    (c : cell) (jl : json) :
  read_cell depth h v = Done c → read_json d h line = Done jl →
  depth ≤ fuel → d ≤ fuel →
  Heap.start fuel v line h
  = (outcome_of (Outliner.start (cell_source c) jl), h).
Proof.
  intros Hc Hline Hdepth Hd.
  destruct (getattr_source depth h v c Hc) as (x & Hx & Hsrc).
  unfold Heap.start, Outliner.start.
  erewrite bind_Done by exact Hx.
  apply bind_outcome_of; [eapply py_len_decoded, Hsrc|]. intros n _.
  destruct (1 <? n); [|reflexivity].
  erewrite bind_Done by exact Hx.
  pose proof (getitem_int_decoded depth h x _ 0 Hsrc) as Hfirst.
  destruct (Py.getitem_int (cell_source c) 0) as [jf|e];
    [|erewrite bind_Raised by exact Hfirst; reflexivity].
  destruct Hfirst as (xf & Hxf & Hjf).
  erewrite bind_Done by exact Hxf.
  erewrite bind_Done
    by (eapply (py_eq_value_decoded fuel d (pred depth)); eauto; lia).
  cbn [mbind result_bind]. destruct (Py.py_eq jl jf); [reflexivity|].
  erewrite bind_Done by exact Hx.
  pose proof (getitem_int_decoded depth h x _ (-1) Hsrc) as Hlast.
  destruct (Py.getitem_int (cell_source c) (-1)) as [jla|e];
    [|erewrite bind_Raised by exact Hlast; reflexivity].
  destruct Hlast as (xl & Hxl & Hjl).
  erewrite bind_Done by exact Hxl.
  erewrite bind_Done
    by (eapply (py_eq_value_decoded fuel d (pred depth)); eauto; lia).
  cbn [mbind result_bind]. destruct (Py.py_eq jl jla); reflexivity.
Qed.

Lemma outline_line_decoded (fuel depth d : nat) (h : heap) (v line : value)
    (c : cell) (jl : json) (text : str) :
  read_cell depth h v = Done c → read_json d h line = Done jl →
  depth ≤ fuel → d ≤ fuel →
  Heap.outline_line fuel v text line h
  = (outcome_of (Outliner.outline_line (cell_source c) text jl), h).
Proof.
  intros Hc Hline Hdepth Hd. unfold Heap.outline_line, Outliner.outline_line.
  apply bind_outcome_of; [eapply start_decoded; eassumption|]. intros start _.
  apply bind_outcome_of; [eapply strip_method_decoded, Hline | reflexivity].
Qed.

Lemma outline_step_decoded (fuel depth : nat) (h : heap) (text : str)
    (v : value) (c : cell) :
  read_cell depth h v = Done c → depth ≤ fuel →
  (∀ n, Py.py_len (cell_source c) = OK n → n < fuel) →
  Heap.outline_step fuel text v h
  = (outcome_of (Outliner.outline_step text c), h).
Proof.
  intros Hc Hdepth Hfuel.
  destruct (getattr_source depth h v c Hc) as (x & Hx & Hsrc).
  destruct (getattr_id depth h v c Hc) as (xi & Hxi & Hid).
  pose proof (getattr_execution_count depth h v c Hc) as Hcount.
  unfold Heap.outline_step, Outliner.outline_step.
  erewrite bind_Done by (eapply isinstance_decoded, Hc).
  replace (cell_class_eqb (class_of c) ClsMarkdownCell)
    with (is_MarkdownCell c) by (destruct c; reflexivity).
  apply bind_outcome_of.
  - destruct (is_MarkdownCell c); [reflexivity|].
    destruct (cell_execution_count c) as [n|e];
      [|erewrite bind_Raised by exact Hcount; reflexivity].
    destruct Hcount as (xn & Hxn & Hn).
    erewrite bind_Done by exact Hxn.
    erewrite bind_Done by (eapply format_value_decoded; eassumption).
    reflexivity.
  - intros [cell_type count] _.
    erewrite bind_Done by exact Hxi.
    erewrite bind_Done by (eapply format_value_decoded; eassumption).
    erewrite bind_Done by exact Hx.
    rewrite (py_for_decoded fuel depth h x (cell_source c) _
               (Outliner.outline_line (cell_source c)) _ Hsrc);
      [reflexivity| |exact Hfuel].
    intros text' line jl Hl.
    eapply outline_line_decoded; [exact Hc | exact Hl | exact Hdepth | lia].
Qed.

(** [outline] on the store returns what [outline] returns for the notebook
    the store holds, or raises what it raises. *)
Lemma outline_decoded (fuel depth : nat) (h : heap) (nb : value)
    (n : notebook) :
  read_notebook depth h nb = Done n → enough_fuel fuel n → depth ≤ fuel →
  Heap.outline fuel nb h = (outcome_of (Outliner.outline n), h).
Proof.
  intros Hn [Hcells Hsources] Hdepth.
  destruct (read_notebook_inv depth h nb n Hn)
    as (l & attrs & cl & items & Hnb & Hl & Hv & _).
  unfold Heap.outline, Outliner.outline, Notebook_iter.
  erewrite bind_Done
    by (subst nb; unfold getattr; erewrite bind_Done by (apply read_Some, Hl);
        cbv beta iota; rewrite Hv; reflexivity).
  erewrite bind_Done
    by (apply (format_value_decoded fuel 0), Nat.le_0_l; apply read_json_VStr).
  cbn [py_format].
  apply bind_outcome_of; [|reflexivity].
  apply (py_for_notebook fuel depth h nb n); [assumption..|].
  intros text x c Hin Hc. apply (outline_step_decoded fuel depth); [exact Hc|exact Hdepth|].
  rewrite Forall_forall in Hsources. apply Hsources, Hin.
Qed.

End Adequacy.

(** **** The JSON serializer *)

Section SerializeAdequacy.
Import Heap.
Context `{Interpreter}.

Lemma alloc_run (o : object) (h : heap) :
  alloc o h = (Done (length h), h ++ [o]).
Proof. reflexivity. Qed.

Lemma dict_setitem_run (h : heap) (d : loc) (entries : list (str * value))
    (key : str) (v : value) :
  h !! d = Some (ODict entries) →
  dict_setitem (VRef d) key v h
  = (Done (), <[d := ODict (dict_set key v entries)]> h).
Proof.
  intros Hd. unfold dict_setitem.
  erewrite bind_Done by (apply read_Some, Hd). reflexivity.
Qed.

Lemma list_append_run (h : heap) (a : loc) (items : list value) (v : value) :
  h !! a = Some (OList items) →
  list_append (VRef a) v h = (Done (), <[a := OList (items ++ [v])]> h).
Proof.
  intros Ha. unfold list_append.
  erewrite bind_Done by (apply read_Some, Ha). reflexivity.
Qed.

Lemma getitem_run (h : heap) (d : loc) (entries : list (str * value))
    (key : str) (v : value) :
  h !! d = Some (ODict entries) → dict_get key entries = Some v →
  Heap.getitem (VRef d) key h = (Done v, h).
Proof.
  intros Hd Hv. unfold Heap.getitem.
  erewrite bind_Done by (apply read_Some, Hd). cbv beta iota.
  rewrite Hv. reflexivity.
Qed.

(** Reading an attribute or the class of an instance gives the same in a
    store that has grown. *)
Lemma getattr_prefix (h h' : heap) (v x : value) (name : str) :
  h `prefix_of` h' → getattr v name h = (Done x, h) →
  getattr v name h' = (Done x, h').
Proof.
  intros Hpre. destruct v as [| | | |l]; try discriminate.
  unfold getattr, mbind, M_bind, read.
  destruct (h !! l) as [o|] eqn:Hl; [|discriminate].
  rewrite (prefix_lookup_Some _ _ _ _ Hl Hpre).
  destruct o as [items|entries|cls attrs|attrs]; try discriminate;
    (destruct (dict_get name attrs); [|discriminate]);
    intros [= <-]; reflexivity.
Qed.

Lemma isinstance_prefix (h h' : heap) (v : value) (cls : cell_class) (b : bool) :
  h `prefix_of` h' → (∃ l o, v = VRef l ∧ h !! l = Some o) →
  isinstance v cls h = (Done b, h) → isinstance v cls h' = (Done b, h').
Proof.
  intros Hpre (l & o & -> & Hl). unfold isinstance, mbind, M_bind, read.
  rewrite Hl, (prefix_lookup_Some _ _ _ _ Hl Hpre).
  intros [= <-]. reflexivity.
Qed.

Lemma prefix_insert {A} (l k : list A) (i : nat) (x : A) :
  l `prefix_of` k → length l ≤ i → l `prefix_of` <[i := x]> k.
Proof.
  intros [t ->] Hi. rewrite insert_app_r_alt by exact Hi.
  apply prefix_app_r. reflexivity.
Qed.

(** An entry stays what it is when the store changes elsewhere. *)
Lemma serialized_at_stable (depth : nat) (h : heap) (fresh : nat)
    (hk hk' : heap) (p : loc) (c : cell) :
  (∀ (q : nat) (o : object), fresh ≤ q → hk !! q = Some o → hk' !! q = Some o) →
  serialized_at depth h fresh hk p c → serialized_at depth h fresh hk' p c.
Proof.
  intros Hstable (Hp & xi & xs & m & Hxi & Hxs & Hm & Hmd & Hc).
  split; [exact Hp|]. exists xi, xs, m.
  split; [exact Hxi|]. split; [exact Hxs|]. split; [exact Hm|].
  split; [apply Hstable; assumption|].
  destruct c as [i src|n i src|i src].
  - apply Hstable; assumption.
  - destruct Hc as (xn & o & Hxn & Ho & Hout & Hd).
    exists xn, o. split; [exact Hxn|]. split; [exact Ho|].
    split; apply Hstable; assumption.
  - apply Hstable; assumption.
Qed.

(** So do the values an entry shares with an instance. *)
Lemma entry_shares_stable (h hk hk' : heap) (x : value) (p : loc) :
  (∀ o : object, hk !! p = Some o → hk' !! p = Some o) →
  entry_shares h hk x p → entry_shares h hk' x p.
Proof.
  intros Hstable (entries & xi & xs & Hp & Hrest).
  exists entries, xi, xs. split; [apply Hstable, Hp | exact Hrest].
Qed.

Lemma Forall2_impl_r {A B} (P R : A → B → Prop) (Q : B → Prop)
    (l : list A) (k : list B) :
  Forall2 P l k → Forall Q k → (∀ x y, P x y → Q y → R x y) → Forall2 R l k.
Proof.
  intros HP HQ Himpl. induction HP as [|x y l k Hxy _ IH]; [constructor|].
  inversion HQ; subst. constructor; auto.
Qed.

Lemma map_VRef_inj (ps qs : list loc) : map VRef ps = map VRef qs → ps = qs.
Proof.
  revert qs. induction ps as [|p ps IH]; intros [|q qs]; try discriminate.
  - reflexivity.
  - intros [= -> Hrest]. f_equal. apply IH, Hrest.
Qed.

Ltac lookup_len := rewrite ?length_insert, ?length_app; simpl; lia.

Ltac simpl_lookup :=
  repeat first
    [ rewrite list_lookup_insert_eq by lookup_len
    | rewrite list_lookup_insert_ne by lia
    | rewrite lookup_app_l by lookup_len
    | rewrite list_lookup_middle by lookup_len ].

(** One turn of the loop of [serialize] adds the entry of one cell; the
    entry shares the [id] and the [source] of the instance. *)
Lemma serialize_step_run (depth : nat) (h : heap) (s cl md : loc)
    (major minor : Z) (fresh : nat) (done : list cell) (hk : heap)
    (x : value) (c : cell) :
  serializing_cells depth h s cl md major minor fresh done hk →
  read_cell depth h x = Done c →
  ∃ hk', serialize_step s () x hk = (Done (), hk')
         ∧ serializing_cells depth h s cl md major minor fresh (done ++ [c]) hk'
         ∧ ∀ (seen : list value) (qs : list loc),
             hk !! cl = Some (OList (map VRef qs)) →
             Forall2 (entry_shares h hk) seen qs →
             ∃ p, hk' !! cl = Some (OList (map VRef (qs ++ [p])))
                  ∧ Forall2 (entry_shares h hk') (seen ++ [x]) (qs ++ [p]).
Proof.
  intros (Hpre & Hfresh & Hcl & Hclf & Hsf & Hmdf & Hcls & Hclmd & Hs & Hmd
          & ps & Hps & Hdone) Hc.
  destruct (getattr_id depth h x c Hc) as (xi & Hxi & Hid).
  destruct (getattr_source depth h x c Hc) as (xs & Hxs & Hsrc).
  pose proof (getattr_execution_count depth h x c Hc) as Hcount.
  pose proof (isinstance_decoded depth h x c ClsMarkdownCell Hc) as Hmark.
  pose proof (isinstance_decoded depth h x c ClsCodeCell Hc) as Hcode.
  assert (Hx : ∃ l o, x = VRef l ∧ h !! l = Some o).
  { destruct (read_cell_inv depth h x c Hc) as (l & attrs & -> & Hl & _). eauto. }
  set (m := length hk). set (p := S (length hk)).
  set (E0 := [(u "cell_type", VInt 0); (u "id", xi);
              (u "metadata", VRef m); (u "source", xs)]).
  set (h2 := (hk ++ [ODict []]) ++ [ODict E0]).
  assert (Hpre2 : h `prefix_of` h2).
  { unfold h2. rewrite <- app_assoc. apply prefix_app_r, Hpre. }
  assert (Hstart : ∀ k : unit → M unit,
    serialize_step s () x hk
    = ((markdown ← isinstance x ClsMarkdownCell;
        (if markdown : bool then
           dict_setitem (VRef p) (u "cell_type") (VStr (u "markdown"))
         else
           code ← isinstance x ClsCodeCell;
           if code : bool then
             dict_setitem (VRef p) (u "cell_type") (VStr (u "code"));;
             n ← getattr x (u "execution_count");
             dict_setitem (VRef p) (u "execution_count") n;;
             outputs ← alloc (OList []);
             dict_setitem (VRef p) (u "outputs") (VRef outputs)
           else mret ());;
        cells ← Heap.getitem (VRef s) (u "cells");
        list_append cells (VRef p)) h2)).
  { intros _. unfold serialize_step.
    erewrite bind_Done by (eapply getattr_prefix; [exact Hpre | exact Hxi]).
    rewrite bind_alloc.
    erewrite bind_Done
      by (eapply getattr_prefix; [apply prefix_app_r, Hpre | exact Hxs]).
    rewrite bind_alloc. rewrite length_app. simpl length.
    replace (length hk + 1) with p by (unfold p; lia). reflexivity. }
  rewrite (Hstart (fun _ => mret ())). clear Hstart.
  erewrite bind_Done by (eapply isinstance_prefix; [exact Hpre2 | exact Hx | exact Hmark]).
  assert (Hlen : length hk = m) by reflexivity.
  assert (Hs_lt : s < length hk) by (eapply lookup_lt_Some, Hs).
  assert (Hcl_lt : cl < length hk) by (eapply lookup_lt_Some, Hps).
  assert (Hmd_lt : md < length hk) by (eapply lookup_lt_Some, Hmd).
  assert (Hp2 : h2 !! p = Some (ODict E0)).
  { unfold h2, p. apply list_lookup_middle. rewrite length_app. simpl. lia. }
  assert (Hold : ∀ (q : nat) (o : object), hk !! q = Some o → h2 !! q = Some o).
  { intros q o Hq. unfold h2. pose proof (lookup_lt_Some _ _ _ Hq).
    rewrite !lookup_app_l by lookup_len. exact Hq. }
  assert (Hm2 : h2 !! m = Some (ODict [])).
  { unfold h2, m. rewrite lookup_app_l by lookup_len.
    apply list_lookup_middle. reflexivity. }
  assert (Hlen2 : length h2 = S (S (length hk))) by (unfold h2; lookup_len).
  (* what remains once the entry is complete in a store [h3] *)
  assert (Hfinish : ∀ (h3 : heap) (E : list (str * value)),
    length h3 ≥ length h2 →
    h `prefix_of` h3 →
    (∀ (q : nat) (o : object), q ≠ p → h2 !! q = Some o → h3 !! q = Some o) →
    h3 !! p = Some (ODict E) →
    dict_get (u "id") E = Some xi → dict_get (u "source") E = Some xs →
    serialized_at depth h fresh (<[cl := OList (map VRef ps ++ [VRef p])]> h3) p c →
    ∃ hk',
      (cells ← Heap.getitem (VRef s) (u "cells"); list_append cells (VRef p)) h3
      = (Done (), hk')
      ∧ serializing_cells depth h s cl md major minor fresh (done ++ [c]) hk'
      ∧ ∀ (seen : list value) (qs : list loc),
          hk !! cl = Some (OList (map VRef qs)) →
          Forall2 (entry_shares h hk) seen qs →
          ∃ p, hk' !! cl = Some (OList (map VRef (qs ++ [p])))
               ∧ Forall2 (entry_shares h hk') (seen ++ [x]) (qs ++ [p])).
  { intros h3 E Hlen3 Hpre3 Hold3 Hp3 HEid HEsrc Hentry.
    assert (Hkeep : ∀ (q : nat) (o : object), hk !! q = Some o → h3 !! q = Some o).
    { intros q o Hq. apply Hold3; [|apply Hold, Hq].
      apply lookup_lt_Some in Hq. unfold p. lia. }
    eexists. split; [|split].
    - erewrite bind_Done by (eapply getitem_run; [apply Hkeep, Hs | reflexivity]).
      apply list_append_run. apply Hkeep, Hps.
    - assert (Hkeep' : ∀ (q : nat) (o : object), q ≠ cl → h3 !! q = Some o →
                <[cl := OList (map VRef ps ++ [VRef p])]> h3 !! q = Some o).
      { intros q o Hq Ho. rewrite list_lookup_insert_ne by auto. exact Ho. }
      split; [apply prefix_insert; assumption|].
      split; [rewrite length_insert; lia|].
      do 6 (split; [assumption|]).
      split; [apply Hkeep'; auto|]. split; [apply Hkeep'; auto|].
      exists (ps ++ [p]). split.
      + rewrite map_app. apply list_lookup_insert_eq. lia.
      + apply Forall2_app; [|constructor; [exact Hentry | constructor]].
        eapply Forall2_impl; [exact Hdone|]. intros q c' Hq.
        eapply serialized_at_stable; [|exact Hq].
        intros q' o Hq' Ho. apply Hkeep'; [lia|]. apply Hkeep, Ho.
    - intros seen qs Hqs Hshares.
      rewrite Hps in Hqs. injection Hqs as Hqs. apply map_VRef_inj in Hqs as <-.
      exists p. split; [rewrite map_app; apply list_lookup_insert_eq; lia|].
      apply Forall2_app.
      + eapply (Forall2_impl_r _ _ (fun q => fresh ≤ q)); [exact Hshares| |].
        * clear -Hdone. induction Hdone as [|q c' ps cs [Hq _] _ IH];
            constructor; assumption.
        * intros x' q Hx' Hq. eapply entry_shares_stable; [|exact Hx'].
          intros o Ho. rewrite list_lookup_insert_ne by lia. apply Hkeep, Ho.
      + constructor; [|constructor].
        exists E, xi, xs. split.
        { rewrite list_lookup_insert_ne by (unfold p; lia). exact Hp3. }
        auto. }
  destruct c as [i src|n i src|i src]; cbn [class_of cell_class_eqb].
  - (* an instance of the base class: the placeholder stays *)
    cbn [class_of cell_class_eqb] in Hcode.
    match goal with |- ∃ _, (?blk ≫= _) h2 = _ ∧ _ =>
      assert (Hblock : blk h2 = (Done (), h2))
    end.
    { erewrite bind_Done
        by (eapply isinstance_prefix; [exact Hpre2 | exact Hx | exact Hcode]).
      reflexivity. }
    erewrite bind_Done by exact Hblock.
    apply (Hfinish h2 E0); [lia | exact Hpre2 | auto | exact Hp2
                           | reflexivity | reflexivity |].
    split; [unfold p; lia|]. exists xi, xs, m.
    split; [exact Hid|]. split; [exact Hsrc|]. split; [unfold m; lia|].
    split; simpl_lookup; [exact Hm2 | exact Hp2].
  - (* a code cell *)
    cbn [class_of cell_class_eqb cell_execution_count] in Hcount, Hcode.
    destruct Hcount as (xn & Hxn & Hn).
    set (E1 := dict_set (u "cell_type") (VStr (u "code")) E0).
    set (h3 := <[p := ODict E1]> h2).
    assert (Hpre3 : h `prefix_of` h3).
    { apply prefix_insert; [exact Hpre2|]. apply prefix_length in Hpre.
      unfold p. lia. }
    set (E2 := dict_set (u "execution_count") xn E1).
    set (h4 := <[p := ODict E2]> h3).
    set (o := length h4).
    set (h5 := h4 ++ [OList []]).
    set (E3 := dict_set (u "outputs") (VRef o) E2).
    set (h6 := <[p := ODict E3]> h5).
    assert (Hrun :
      (dict_setitem (VRef p) (u "cell_type") (VStr (u "code"));;
       n0 ← getattr x (u "execution_count");
       dict_setitem (VRef p) (u "execution_count") n0;;
       outputs ← alloc (OList []);
       dict_setitem (VRef p) (u "outputs") (VRef outputs)) h2
      = (Done (), h6)).
    { erewrite bind_Done by (apply dict_setitem_run, Hp2). fold E1 h3.
      erewrite bind_Done by (eapply getattr_prefix; [exact Hpre3 | exact Hxn]).
      erewrite bind_Done
        by (apply dict_setitem_run; unfold h3; apply list_lookup_insert_eq;
            rewrite Hlen2; unfold p; lia).
      fold E2 h4. rewrite bind_alloc. fold o h5.
      apply dict_setitem_run. unfold h5, h4, h3.
      rewrite lookup_app_l by (rewrite !length_insert, Hlen2; unfold p; lia).
      apply list_lookup_insert_eq. rewrite length_insert, Hlen2. unfold p. lia. }
    match goal with |- ∃ _, (?blk ≫= _) h2 = _ ∧ _ =>
      assert (Hblock : blk h2 = (Done (), h6))
    end.
    { erewrite bind_Done
        by (eapply isinstance_prefix; [exact Hpre2 | exact Hx | exact Hcode]).
      exact Hrun. }
    erewrite bind_Done by exact Hblock.
    assert (Hlen6 : length h6 = S (length h2))
      by (unfold h6, h5, h4, h3; rewrite length_insert, length_app,
            !length_insert; simpl; lia).
    assert (Ho : o = length h2) by (unfold o, h4, h3; rewrite !length_insert; reflexivity).
    assert (Hold6 : ∀ (q : nat) (v : object), q ≠ p → h2 !! q = Some v → h6 !! q = Some v).
    { intros q v Hq Hv. pose proof (lookup_lt_Some _ _ _ Hv).
      unfold h6, h5, h4, h3. rewrite list_lookup_insert_ne by auto.
      rewrite lookup_app_l by (rewrite !length_insert; lia).
      rewrite !list_lookup_insert_ne by auto. exact Hv. }
    apply (Hfinish h6 E3).
    + lia.
    + unfold h6, h5. apply prefix_insert; [|apply prefix_length in Hpre; unfold p; lia].
      apply prefix_app_r. unfold h4. apply prefix_insert; [exact Hpre3|].
      apply prefix_length in Hpre. unfold p. lia.
    + exact Hold6.
    + unfold h6. apply list_lookup_insert_eq. unfold h5, h4, h3.
      rewrite length_app, !length_insert, Hlen2. unfold p. lia.
    + reflexivity.
    + reflexivity.
    + split; [unfold p; lia|]. exists xi, xs, m.
      split; [exact Hid|]. split; [exact Hsrc|]. split; [unfold m; lia|].
      split.
      { rewrite list_lookup_insert_ne by lia. apply Hold6; [unfold p, m; lia|exact Hm2]. }
      exists xn, o. split; [exact Hn|]. split; [rewrite Ho, Hlen2; lia|].
      split.
      * rewrite list_lookup_insert_ne by (rewrite Ho, Hlen2; lia).
        unfold h6. rewrite list_lookup_insert_ne by (rewrite Ho, Hlen2; unfold p; lia).
        unfold h5. apply list_lookup_middle. reflexivity.
      * rewrite list_lookup_insert_ne by (unfold p; lia).
        unfold h6. rewrite list_lookup_insert_eq; [reflexivity|].
        unfold h5, h4, h3. rewrite length_app, !length_insert, Hlen2.
        unfold p. lia.
  - (* a markdown cell *)
    set (E1 := dict_set (u "cell_type") (VStr (u "markdown")) E0).
    set (h3 := <[p := ODict E1]> h2).
    erewrite bind_Done by (apply dict_setitem_run, Hp2). fold E1 h3.
    assert (Hold3 : ∀ (q : nat) (v : object), q ≠ p → h2 !! q = Some v → h3 !! q = Some v).
    { intros q v Hq Hv. unfold h3. rewrite list_lookup_insert_ne by auto.
      exact Hv. }
    apply (Hfinish h3 E1).
    + unfold h3. rewrite length_insert. lia.
    + apply prefix_insert; [exact Hpre2|]. apply prefix_length in Hpre.
      unfold p. lia.
    + exact Hold3.
    + unfold h3. apply list_lookup_insert_eq. rewrite Hlen2. unfold p. lia.
    + reflexivity.
    + reflexivity.
    + split; [unfold p; lia|]. exists xi, xs, m.
      split; [exact Hid|]. split; [exact Hsrc|]. split; [unfold m; lia|].
      split.
      * rewrite list_lookup_insert_ne by lia.
        apply Hold3; [unfold p, m; lia | exact Hm2].
      * rewrite list_lookup_insert_ne by (unfold p; lia).
        unfold h3. rewrite list_lookup_insert_eq; [reflexivity|].
        rewrite Hlen2. unfold p. lia.
Qed.

(** The loop of [serialize] adds the entries of the remaining cells. *)
Lemma serialize_loop_run (fuel depth : nat) (h : heap) (s cl md : loc)
    (major minor : Z) (fresh : nat) (cl0 : loc) (items : list value) (i : nat)
    (done rest : list cell) (hk : heap) :
  h !! cl0 = Some (OList items) →
  Forall2 (fun x c => read_cell depth h x = Done c) (drop i items) rest →
  serializing_cells depth h s cl md major minor fresh done hk →
  length items - i < fuel →
  ∃ hk', for_loop fuel (ListIter cl0 i) (serialize_step s) () hk = (Done (), hk')
         ∧ serializing_cells depth h s cl md major minor fresh (done ++ rest) hk'
         ∧ ∀ (seen : list value) (qs : list loc),
             hk !! cl = Some (OList (map VRef qs)) →
             Forall2 (entry_shares h hk) seen qs →
             ∃ qs', hk' !! cl = Some (OList (map VRef qs'))
                    ∧ Forall2 (entry_shares h hk') (seen ++ drop i items) qs'.
Proof.
  intros Hcl0. revert i done rest hk.
  induction fuel as [|fuel IH]; intros i done rest hk Hrest Hinv Hfuel; [lia|].
  assert (Hcl0k : hk !! cl0 = Some (OList items)).
  { destruct Hinv as [Hpre _]. eapply prefix_lookup_Some; eassumption. }
  cbn [for_loop]. unfold py_next.
  erewrite bind_Done; [|erewrite bind_Done by (apply read_Some, Hcl0k); reflexivity].
  destruct (items !! i) as [x|] eqn:Hi.
  - rewrite (drop_S _ _ _ Hi) in Hrest |- *.
    inversion Hrest as [|? c ? rest' Hc Hrest']; subst.
    destruct (serialize_step_run depth h s cl md major minor fresh done hk x c
                Hinv Hc) as (hk1 & Hstep & Hinv1 & Hshare1).
    erewrite bind_Done by exact Hstep.
    apply lookup_lt_Some in Hi.
    destruct (IH (S i) (done ++ [c]) rest' hk1 Hrest' Hinv1)
      as (hk' & Hloop & Hinv' & Hshare'); [lia|].
    exists hk'. split; [exact Hloop|].
    split; [rewrite <- app_assoc in Hinv'; exact Hinv'|].
    intros seen qs Hqs Hshares.
    destruct (Hshare1 seen qs Hqs Hshares) as (p & Hqs1 & Hshares1).
    destruct (Hshare' _ _ Hqs1 Hshares1) as (qs' & Hqs' & Hshares').
    exists qs'. split; [exact Hqs'|].
    rewrite <- app_assoc in Hshares'. exact Hshares'.
  - apply lookup_ge_None in Hi. rewrite drop_ge in Hrest |- * by exact Hi.
    inversion Hrest; subst. exists hk. split; [reflexivity|].
    split; [rewrite app_nil_r; exact Hinv|].
    intros seen qs Hqs Hshares. exists qs. rewrite app_nil_r. auto.
Qed.

(** The dict built for a cell stands for the entry of that cell. *)
Lemma serialized_at_read (depth : nat) (h : heap) (fresh : nat) (hk : heap)
    (p : loc) (c : cell) :
  h `prefix_of` hk → serialized_at depth h fresh hk p c →
  read_json (S (S depth)) hk (VRef p) = Done (serialized_cell c).
Proof.
  intros Hpre (_ & xi & xs & m & Hxi & Hxs & _ & Hm & Hc).
  assert (Hold : ∀ x j, read_json depth h x = Done j →
                        read_json (S depth) hk x = Done j).
  { intros x j Hj. apply (read_json_deeper depth); [lia|].
    eapply read_json_prefix; eassumption. }
  assert (Hempty : read_json (S depth) hk (VRef m) = Done (JDict [])).
  { rewrite read_json_ref, Hm. reflexivity. }
  rewrite read_json_ref.
  destruct c as [i src|n i src|i src]; cbn [cell_id cell_source] in *.
  - rewrite Hc. cbn [mapM_outcome fst snd].
    rewrite (Hold xi i Hxi), (Hold xs src Hxs), Hempty. reflexivity.
  - destruct Hc as (xn & o & Hxn & _ & Ho & Hp). rewrite Hp.
    cbn [mapM_outcome fst snd].
    rewrite (Hold xi i Hxi), (Hold xs src Hxs), (Hold xn n Hxn), Hempty.
    assert (Hout : read_json (S depth) hk (VRef o) = Done (JList [])).
    { rewrite read_json_ref, Ho. reflexivity. }
    rewrite Hout. reflexivity.
  - rewrite Hc. cbn [mapM_outcome fst snd].
    rewrite (Hold xi i Hxi), (Hold xs src Hxs), Hempty. reflexivity.
Qed.

(** The dict [s] stands for the document [serialize] returns. *)
Lemma serializing_cells_read (depth : nat) (h : heap) (s cl md : loc)
    (major minor : Z) (fresh : nat) (cs : list cell) (hk : heap) :
  serializing_cells depth h s cl md major minor fresh cs hk →
  read_json (depth + 4) hk (VRef s) = Done (serialized_notebook major minor cs).
Proof.
  intros (Hpre & _ & _ & _ & _ & _ & _ & _ & Hs & Hmd & ps & Hps & Hall).
  replace (depth + 4) with (S (S (S (S depth)))) by lia.
  rewrite read_json_ref, Hs. cbn [mapM_outcome fst snd].
  assert (Hcells : read_json (S (S (S depth))) hk (VRef cl)
                   = Done (JList (map serialized_cell cs))).
  { rewrite read_json_ref, Hps.
    assert (Hitems : mapM_outcome (read_json (S (S depth)) hk) (map VRef ps)
                     = Done (map serialized_cell cs)).
    { clear -Hall Hpre. induction Hall as [|p c ps cs Hp _ IH]; [reflexivity|].
      cbn [map mapM_outcome].
      rewrite (serialized_at_read depth h fresh hk p c Hpre Hp), IH.
      reflexivity. }
    rewrite Hitems. reflexivity. }
  rewrite Hcells.
  assert (Hmeta : read_json (S (S (S depth))) hk (VRef md) = Done (JDict [])).
  { rewrite read_json_ref, Hmd. reflexivity. }
  rewrite Hmeta. reflexivity.
Qed.

(** [serialize] on the store returns a reference to a dict that stands for
    the document [serialize] returns for the notebook the store holds, or
    raises what it raises; the objects that were in the store are as they
    were. *)
Lemma serialize_decoded (fuel depth : nat) (h : heap) (nb : value)
    (n : notebook) :
  read_notebook depth h nb = Done n → length (cells n) < fuel →
  match Serializer.serialize n with
  | OK j =>
    ∃ r h', Heap.serialize fuel nb h = (Done r, h')
            ∧ read_json (depth + 4) h' r = Done j ∧ h `prefix_of` h'
  | Raise e => ∃ h', Heap.serialize fuel nb h = (Raised e, h')
  end.
Proof.
  intros Hn Hfuel.
  destruct (read_notebook_inv depth h nb n Hn)
    as (l & attrs & cl0 & items & -> & Hl & Hv & Hattr & Hcl0 & Hitems).
  rewrite serialize_unfold. unfold Heap.serialize.
  erewrite bind_Done
    by (unfold getattr; erewrite bind_Done by (apply read_Some, Hl);
        cbv beta iota; rewrite Hv; reflexivity).
  erewrite bind_Done by reflexivity.
  destruct (str_split DOT (version n)) as [|n1 [|n2 [|? ?]]];
    try (exists h; reflexivity).
  rewrite !bind_alloc.
  set (cl := length h). set (h1 := h ++ [OList []]).
  set (md := length h1). set (h2 := h1 ++ [ODict []]).
  destruct (py_int n1) as [major|e]; [|exists h2; reflexivity].
  erewrite bind_Done by reflexivity.
  destruct (py_int n2) as [minor|e]; [|exists h2; reflexivity].
  erewrite bind_Done by reflexivity.
  rewrite bind_alloc. set (s := length h2).
  match goal with |- context [h2 ++ [?o]] => set (h3 := h2 ++ [o]) end.
  assert (Hlen1 : length h1 = S (length h)) by (unfold h1; lookup_len).
  assert (Hlen2 : length h2 = S (S (length h))) by (unfold h2; lookup_len).
  assert (Hlen3 : length h3 = S (S (S (length h)))) by (unfold h3; lookup_len).
  assert (Hpre3 : h `prefix_of` h3).
  { unfold h3, h2, h1. rewrite <- !app_assoc. apply prefix_app_r. reflexivity. }
  assert (Hinv : serializing_cells depth h s cl md major minor (length h3) [] h3).
  { assert (Hcl_eq : cl = length h) by reflexivity.
    assert (Hmd_eq : md = S (length h)) by exact Hlen1.
    assert (Hs_eq : s = S (S (length h))) by exact Hlen2.
    split; [exact Hpre3|]. split; [lia|].
    do 6 (split; [lia|]).
    split; [unfold h3; apply list_lookup_middle; reflexivity|].
    split.
    { unfold h3. rewrite lookup_app_l by lia.
      unfold h2. apply list_lookup_middle. reflexivity. }
    exists []. split; [|constructor].
    unfold h3. rewrite lookup_app_l by lia.
    unfold h2. rewrite lookup_app_l by lia.
    unfold h1. apply list_lookup_middle. reflexivity. }
  destruct fuel as [|fuel]; [lia|].
  destruct (serialize_loop_run (S fuel) depth h s cl md major minor (length h3)
              cl0 items 0 [] (cells n) h3 Hcl0) as (h' & Hloop & Hinv' & _).
  { rewrite drop_0. apply mapM_outcome_Forall2, Hitems. }
  { exact Hinv. }
  { rewrite <- (mapM_outcome_length _ _ _ Hitems). lia. }
  exists (VRef s), h'. split; [|split].
  - erewrite bind_Done; [reflexivity|].
    unfold py_for.
    erewrite bind_Done
      by (eapply py_iter_notebook;
          [eapply prefix_lookup_Some; [exact Hl | exact Hpre3]
          |exact Hattr
          |eapply prefix_lookup_Some; [exact Hcl0 | exact Hpre3]]).
    exact Hloop.
  - eapply serializing_cells_read, Hinv'.
  - apply Hinv'.
Qed.

(** X19. In the store, the entry that [serialize] builds for a cell holds
    under [id] and [source] the very values that are the attributes of the
    instance: for a [source] that is a list, the same list object, not a
    copy of it. The entries are in the order in which iterating the
    notebook yields the cells. *)
Theorem serialize_shares_attributes
    (fuel depth : nat) (h : heap) (nb : value) (n : notebook) (j : json) :
  read_notebook depth h nb = Done n → length (cells n) < fuel →
  Serializer.serialize n = OK j →
  ∃ s cl qs items h',
    Heap.serialize fuel nb h = (Done (VRef s), h')
    ∧ iterate fuel nb h' = (Done items, h')
    ∧ Heap.getitem (VRef s) (u "cells") h' = (Done (VRef cl), h')
    ∧ h' !! cl = Some (OList (map VRef qs))
    ∧ Forall2 (entry_shares h' h') items qs.
Proof.
  intros Hn Hfuel Hj.
  destruct (read_notebook_inv depth h nb n Hn)
    as (l & attrs & cl0 & items & -> & Hl & Hv & Hattr & Hcl0 & Hitems).
  apply serialize_inv in Hj as (n1 & n2 & major & minor & Hver & Hdots & H1 & H2 & _).
  unfold Heap.serialize.
  erewrite bind_Done
    by (unfold getattr; erewrite bind_Done by (apply read_Some, Hl);
        cbv beta iota; rewrite Hv; reflexivity).
  erewrite bind_Done by reflexivity.
  rewrite Hver in Hdots |- *. rewrite (str_split_halves n1 n2 Hdots).
  rewrite !bind_alloc.
  set (cl := length h). set (h1 := h ++ [OList []]).
  set (md := length h1). set (h2 := h1 ++ [ODict []]).
  rewrite H1. erewrite bind_Done by reflexivity.
  rewrite H2. erewrite bind_Done by reflexivity.
  rewrite bind_alloc. set (s := length h2).
  match goal with |- context [h2 ++ [?o]] => set (h3 := h2 ++ [o]) end.
  assert (Hlen1 : length h1 = S (length h)) by (unfold h1; lookup_len).
  assert (Hlen2 : length h2 = S (S (length h))) by (unfold h2; lookup_len).
  assert (Hlen3 : length h3 = S (S (S (length h)))) by (unfold h3; lookup_len).
  assert (Hpre3 : h `prefix_of` h3).
  { unfold h3, h2, h1. rewrite <- !app_assoc. apply prefix_app_r. reflexivity. }
  assert (Hcl3 : h3 !! cl = Some (OList [])).
  { unfold h3. rewrite lookup_app_l by (unfold cl; lia).
    unfold h2. rewrite lookup_app_l by (unfold cl; lia).
    unfold h1. apply list_lookup_middle. reflexivity. }
  assert (Hinv : serializing_cells depth h s cl md major minor (length h3) [] h3).
  { assert (Hcl_eq : cl = length h) by reflexivity.
    assert (Hmd_eq : md = S (length h)) by exact Hlen1.
    assert (Hs_eq : s = S (S (length h))) by exact Hlen2.
    split; [exact Hpre3|]. split; [lia|].
    do 6 (split; [lia|]).
    split; [unfold h3; apply list_lookup_middle; reflexivity|].
    split.
    { unfold h3. rewrite lookup_app_l by lia.
      unfold h2. apply list_lookup_middle. reflexivity. }
    exists []. split; [exact Hcl3 | constructor]. }
  destruct fuel as [|fuel]; [lia|].
  assert (Hlen : length (cells n) = length items)
    by (eapply mapM_outcome_length, Hitems).
  destruct (serialize_loop_run (S fuel) depth h s cl md major minor (length h3)
              cl0 items 0 [] (cells n) h3 Hcl0) as (h' & Hloop & Hinv' & Hshare).
  { rewrite drop_0. apply mapM_outcome_Forall2, Hitems. }
  { exact Hinv. }
  { lia. }
  destruct (Hshare [] [] Hcl3 (List.Forall2_nil _)) as (qs & Hqs & Hshares).
  rewrite drop_0 in Hshares. cbn [app] in Hshares.
  destruct Hinv' as (Hpre' & _ & _ & _ & _ & _ & _ & _ & Hs' & _).
  exists s, cl, qs, items, h'. split; [|split; [|split; [|split]]].
  - erewrite bind_Done; [reflexivity|].
    unfold py_for.
    erewrite bind_Done
      by (eapply py_iter_notebook;
          [eapply prefix_lookup_Some; [exact Hl | exact Hpre3]
          |exact Hattr
          |eapply prefix_lookup_Some; [exact Hcl0 | exact Hpre3]]).
    exact Hloop.
  - eapply iterate_cells; [| exact Hattr | | lia];
      eapply prefix_lookup_Some; eassumption.
  - eapply getitem_run; [exact Hs' | reflexivity].
  - exact Hqs.
  - eapply Forall2_impl; [exact Hshares|].
    intros x p (entries & xi & xs & Hp & Hxi & Hei & Hxs & Hes).
    exists entries, xi, xs. split; [exact Hp|].
    split; [eapply getattr_prefix; eassumption|]. split; [exact Hei|].
    split; [eapply getattr_prefix; eassumption | exact Hes].
Qed.

End SerializeAdequacy.

(** ** The sample notebook *)

Ltac subclass_instances :=
  repeat first
    [ apply List.Forall_nil
    | apply List.Forall_cons; [first [left; reflexivity | right; reflexivity]|] ].

Lemma hello_world_loads :
  Notebook_init (H := ascii_interpreter) hello_world = OK hello_world_notebook.
Proof. reflexivity. Qed.

Lemma serialize_cell_types_witness :
  ∃ entries,
    getitem (serialized_notebook 4 5 (cells hello_world_notebook)) (u "cells")
    = OK (JList entries)
    ∧ length entries = length (cells hello_world_notebook)
    ∧ Forall (fun e => getitem e (u "cell_type") = OK (JStr (u "markdown"))
                       ∨ getitem e (u "cell_type") = OK (JStr (u "code")))
        entries.
Proof.
  apply (serialize_cell_types (H := ascii_interpreter)
           hello_world hello_world_notebook).
  - reflexivity.
  - reflexivity.
Defined.


(** A version that [int] accepts but that is not spelled as the loader
    spells it does not come back the same. *)
Lemma round_trip_respells_version :
  ∃ fs',
    Serializer.to_file (H := ascii_interpreter) (OS := sample_platform)
      (Notebook (u "04.5") []) (u "out.ipynb") ∅ = (OK (), fs')
    ∧ Notebook_from_file (H := ascii_interpreter) (OS := sample_platform)
        (u "out.ipynb") fs'
      = OK (Notebook (u "4.5") []).
Proof. eexists. split; reflexivity. Qed.


Lemma notebook_not_mutated_witness :
  let h := (Heap.store_notebook hello_world_notebook []).2 in
  let nb := Heap.VRef 7 in
  (h `prefix_of` (Heap.serialize (H := ascii_interpreter) 10 nb h).2
   ∧ Heap.read_notebook 2 (Heap.serialize (H := ascii_interpreter) 10 nb h).2 nb
     = Heap.Done hello_world_notebook)
  ∧ (Heap.to_py_percent 10 nb h).2 = h
  ∧ (Heap.outline (H := ascii_interpreter) 10 nb h).2 = h
  ∧ (length (cells hello_world_notebook) < 10 →
     ∃ items,
       Heap.mapM_outcome (Heap.read_cell 2 h) items
       = Heap.Done (cells hello_world_notebook)
       ∧ ∀ h', h `prefix_of` h' →
               Heap.iterate 10 nb h' = (Heap.Done items, h')).
Proof.
  apply (notebook_not_mutated (H := ascii_interpreter)).
  vm_compute. reflexivity.
Defined.

(** ** Sharing between a notebook and its serialization *)

Lemma serialize_shares_attributes_witness :
  let h := (Heap.store_notebook hello_world_notebook []).2 in
  ∃ s cl qs items h',
    Heap.serialize (H := ascii_interpreter) 10 (Heap.VRef 7) h
    = (Heap.Done (Heap.VRef s), h')
    ∧ Heap.iterate 10 (Heap.VRef 7) h' = (Heap.Done items, h')
    ∧ Heap.getitem (Heap.VRef s) (u "cells") h' = (Heap.Done (Heap.VRef cl), h')
    ∧ h' !! cl = Some (Heap.OList (map Heap.VRef qs))
    ∧ Forall2 (entry_shares h' h') items qs.
Proof.
  apply (serialize_shares_attributes (H := ascii_interpreter) 10 2
           (Heap.store_notebook hello_world_notebook []).2 (Heap.VRef 7)
           hello_world_notebook
           (serialized_notebook 4 5 (cells hello_world_notebook))).
  - vm_compute. reflexivity.
  - simpl. lia.
  - reflexivity.
Defined.

Section Sharing.
Import Heap.

(** The list that the first entry has under [source] is the list of the
    first cell: a line added to it through the document that [serialize]
    returned is a line added to the notebook. *)
Lemma serialized_source_is_shared :
  let h := (Heap.store_notebook hello_world_notebook []).2 in
  let add_a_line : Heap.M unit :=
    s ← Heap.serialize (H := ascii_interpreter) 10 (Heap.VRef 7);
    entries ← Heap.getitem s (u "cells");
    entry ← Heap.getitem_int entries 0;
    source ← Heap.getitem entry (u "source");
    Heap.list_append source (Heap.VStr (u "One more line")) in
  Heap.read_notebook 2 h (Heap.VRef 7) = Heap.Done hello_world_notebook
  ∧ (Heap.read_notebook 2 (add_a_line h).2 (Heap.VRef 7)
     ≫= fun nb => Heap.Done (map cell_source (cells nb)))
    = Heap.Done
        [JList [JStr (u "Hello world!\n"); JStr (u "============\n");
                JStr (u "Print `Hello world!`:"); JStr (u "One more line")];
         JList [JStr (u "print(\x22Hello world!\x22)")];
         JList [JStr (u "Goodbye! 👋")]].
Proof. split; vm_compute; reflexivity. Qed.

End Sharing.

(** * Further properties

    What follows covers the functions from their edges: what each one
    raises and when, what it keeps of its input and what it ignores, and
    how loading and rendering compose. *)

(** ** The constructors of the cells *)

(** A constructor, as a lookup of the keys it reads in the order it reads
    them. *)
Lemma construct_dict (cls : cell_class) (d : list (str * json)) :
  construct cls (JDict d)
  = match cls with
    | ClsCodeCell =>
      match dict_get (u "execution_count") d, dict_get (u "id") d,
            dict_get (u "source") d with
      | Some n, Some i, Some s => OK (CodeCell n i s)
      | None, _, _ => Raise (KeyError (JStr (u "execution_count")))
      | _, None, _ => Raise (KeyError (JStr (u "id")))
      | _, _, None => Raise (KeyError (JStr (u "source")))
      end
    | _ =>
      match dict_get (u "id") d, dict_get (u "source") d with
      | Some i, Some s =>
        OK (match cls with ClsMarkdownCell => MarkdownCell i s | _ => Cell i s end)
      | None, _ => Raise (KeyError (JStr (u "id")))
      | _, None => Raise (KeyError (JStr (u "source")))
      end
    end.
Proof.
  unfold construct, CodeCell_init, MarkdownCell_init, Cell_init.
  destruct cls; rewrite !getitem_dict;
    repeat (match goal with |- context [dict_get ?k d] => destruct (dict_get k d) end;
            cbn [mbind result_bind]); reflexivity.
Qed.

Lemma construct_missing (cls : cell_class) (d : list (str * json)) (k : str) :
  first_missing cls d = Some k →
  construct cls (JDict d) = Raise (KeyError (JStr k)).
Proof.
  rewrite construct_dict. unfold first_missing.
  destruct cls; cbn [required_keys List.find];
    repeat (match goal with |- context [dict_get ?k d] => destruct (dict_get k d) end;
            cbn [List.find]);
    intros [= <-]; reflexivity.
Qed.

Lemma construct_complete (cls : cell_class) (d : list (str * json)) :
  first_missing cls d = None → ∃ c, construct cls (JDict d) = OK c.
Proof.
  rewrite construct_dict. unfold first_missing.
  destruct cls; cbn [required_keys List.find];
    repeat (match goal with |- context [dict_get ?k d] => destruct (dict_get k d) end;
            cbn [List.find]);
    try discriminate; eauto.
Qed.

(** X1. A constructor reads [execution_count] (for a [CodeCell]), then
    [id], then [source]: on a raw dict it raises [KeyError] for the first
    of these that is absent, and it succeeds, with an instance of its
    class, when none is. *)
Theorem cell_init_first_missing_key (cls : cell_class) (d : list (str * json)) :
  match first_missing cls d with
  | Some k => construct cls (JDict d) = Raise (KeyError (JStr k))
  | None => ∃ c, construct cls (JDict d) = OK c ∧ class_of c = cls
  end.
Proof.
  unfold first_missing, construct, CodeCell_init, MarkdownCell_init, Cell_init.
  destruct cls; cbn [required_keys List.find]; rewrite !getitem_dict;
    repeat (match goal with |- context [dict_get ?k d] => destruct (dict_get k d) end;
            cbn [mbind result_bind List.find]);
    try reflexivity; eexists; split; reflexivity.
Qed.

(** X2. A constructor neither checks nor converts what it stores: the
    attributes of the cell are the values the raw dict has under [id],
    [source] and, for a [CodeCell], [execution_count], whatever their
    types; only a [CodeCell] has an [execution_count]. *)
Theorem cell_init_verbatim (cls : cell_class) (d : list (str * json)) (c : cell) :
  construct cls (JDict d) = OK c →
  class_of c = cls
  ∧ dict_get (u "id") d = Some (cell_id c)
  ∧ dict_get (u "source") d = Some (cell_source c)
  ∧ match cls with
    | ClsCodeCell =>
      ∃ n, dict_get (u "execution_count") d = Some n
           ∧ cell_execution_count c = OK n
    | _ => cell_execution_count c = Raise AttributeError
    end.
Proof.
  rewrite construct_dict.
  destruct cls;
    repeat (match goal with |- context [dict_get ?k d] => destruct (dict_get k d) end);
    intros [= <-]; cbn; eauto 10.
Qed.

Lemma cell_init_verbatim_witness :
  let d := [(u "cell_type", JStr (u "code")); (u "execution_count", JNull);
            (u "id", JInt 7); (u "outputs", JList [JStr (u "kept?")]);
            (u "source", JStr (u "x = 1"))] in
  let c := CodeCell JNull (JInt 7) (JStr (u "x = 1")) in
  class_of c = ClsCodeCell
  ∧ dict_get (u "id") d = Some (cell_id c)
  ∧ dict_get (u "source") d = Some (cell_source c)
  ∧ ∃ n, dict_get (u "execution_count") d = Some n
         ∧ cell_execution_count c = OK n.
Proof.
  apply (cell_init_verbatim ClsCodeCell). reflexivity.
Defined.

(** X3. A constructor looks at no other key than the ones it requires: two
    raw dicts that agree on these give the same cell, or the same error. *)
Theorem cell_init_reads_required_keys_only
    (cls : cell_class) (d d' : list (str * json)) :
  (∀ k, k ∈ required_keys cls → dict_get k d = dict_get k d') →
  construct cls (JDict d) = construct cls (JDict d').
Proof.
  intros Hsame. rewrite !construct_dict.
  assert (Hid : dict_get (u "id") d = dict_get (u "id") d')
    by (apply Hsame; destruct cls; elem_of_list).
  assert (Hsrc : dict_get (u "source") d = dict_get (u "source") d')
    by (apply Hsame; destruct cls; elem_of_list).
  destruct cls; rewrite ?Hid, ?Hsrc; try reflexivity.
  rewrite (Hsame (u "execution_count")) by elem_of_list. reflexivity.
Qed.

Lemma cell_init_reads_required_keys_only_witness :
  construct ClsMarkdownCell
    (JDict [(u "cell_type", JStr (u "markdown")); (u "id", JStr (u "a9541506"));
            (u "metadata", JDict [(u "tags", JList [])]);
            (u "source", JList [JStr (u "Hello")])])
  = construct ClsMarkdownCell
      (JDict [(u "source", JList [JStr (u "Hello")]);
              (u "id", JStr (u "a9541506")); (u "execution_count", JInt 3)]).
Proof.
  apply cell_init_reads_required_keys_only.
  intros k Hk. apply list_elem_of_In in Hk. simpl in Hk.
  destruct Hk as [<-|[<-|[]]]; reflexivity.
Defined.

(** ** The construction of a notebook *)

(** An entry with an error makes the loop raise it, whatever the loop has
    collected; an entry without one is an entry the loop gets through. *)
Lemma Notebook_init_step_error (acc : list cell) (raw : json) (e : exn) :
  entry_error raw = Some e → Notebook_init_step acc raw = Raise e.
Proof.
  unfold entry_error, Notebook_init_step.
  destruct raw as [| | | | |d]; try (intros [= <-]; reflexivity).
  rewrite getitem_dict.
  destruct (dict_get (u "cell_type") d) as [t|]; [|intros [= <-]; reflexivity].
  cbn [mbind result_bind].
  destruct (py_eq t (JStr (u "code"))) eqn:Ec.
  - destruct (first_missing ClsCodeCell d) as [k|] eqn:Hk; [|discriminate].
    intros [= <-]. apply construct_missing in Hk. cbn [construct] in Hk.
    rewrite Hk. reflexivity.
  - cbn [mbind result_bind].
    destruct (py_eq t (JStr (u "markdown"))) eqn:Em; [|discriminate].
    destruct (first_missing ClsMarkdownCell d) as [k|] eqn:Hk; [|discriminate].
    intros [= <-]. apply construct_missing in Hk. cbn [construct] in Hk.
    rewrite Hk. reflexivity.
Qed.

Lemma entry_error_loadable (raw : json) : entry_error raw = None ↔ loadable raw.
Proof.
  split.
  - unfold entry_error, loadable.
    destruct raw as [| | | | |d]; try discriminate.
    rewrite getitem_dict.
    destruct (dict_get (u "cell_type") d) as [t|]; [|discriminate].
    intros Herr. exists t. split; [reflexivity|]. split; intros ->.
    + rewrite (proj2 (py_eq_str _ _) eq_refl) in Herr.
      destruct (first_missing ClsCodeCell d) eqn:Hk; [discriminate|].
      apply (construct_complete ClsCodeCell), Hk.
    + replace (py_eq (JStr (u "markdown")) (JStr (u "code"))) with false in Herr
        by reflexivity.
      rewrite (proj2 (py_eq_str _ _) eq_refl) in Herr.
      destruct (first_missing ClsMarkdownCell d) eqn:Hk; [discriminate|].
      apply (construct_complete ClsMarkdownCell), Hk.
  - intros Hload. destruct (entry_error raw) as [e|] eqn:He; [|reflexivity].
    destruct (Notebook_init_step_loadable [] raw Hload)
      as [(_ & c & _ & Hstep)|(_ & Hstep)];
      rewrite (Notebook_init_step_error [] raw e He) in Hstep; discriminate.
Qed.

Section NotebookMore.
Context `{Interpreter}.

(** X4. The construction of a notebook stops at the first raw entry it
    cannot take, with the error of that entry: [TypeError] for an entry
    that is not a dict, [KeyError] for one without a [cell_type] or for a
    code or markdown entry without one of the fields of its cell. No
    notebook is built, and the entries after it are not looked at. *)
Theorem notebook_init_first_bad_entry
    (ipynb : json) (v : str) (good : list json) (bad : json) (rest : list json)
    (e : exn) :
  get_format_version ipynb = OK v →
  getitem ipynb (u "cells") ≫= py_iter = OK (good ++ bad :: rest) →
  Forall (fun raw => entry_error raw = None) good →
  entry_error bad = Some e →
  Notebook_init ipynb = Raise e.
Proof.
  intros Hv Hcells Hgood Hbad.
  apply bind_OK in Hcells as (raw_cells & Hraw & Hiter).
  unfold Notebook_init. rewrite Hv. cbn [mbind result_bind].
  rewrite Hraw. cbn [mbind result_bind]. rewrite Hiter. cbn [mbind result_bind].
  rewrite foldM_app.
  destruct (Notebook_init_fold [] good) as (new & -> & _).
  { eapply Forall_impl; [exact Hgood|]. intros raw. apply entry_error_loadable. }
  cbn [mbind result_bind foldM].
  rewrite (Notebook_init_step_error _ bad e Hbad). reflexivity.
Qed.

(** X5. The construction of a notebook succeeds exactly when the format
    version can be read, [ipynb['cells']] can be iterated, and no entry
    has an error. *)
Theorem notebook_init_succeeds_iff (ipynb : json) :
  (∃ nb, Notebook_init ipynb = OK nb)
  ↔ (∃ v, get_format_version ipynb = OK v)
    ∧ ∃ entries, getitem ipynb (u "cells") ≫= py_iter = OK entries
                 ∧ Forall (fun raw => entry_error raw = None) entries.
Proof.
  split.
  - intros [nb Hnb]. unfold Notebook_init in Hnb.
    apply bind_OK in Hnb as (v & Hv & Hnb).
    apply bind_OK in Hnb as (raw_cells & Hraw & Hnb).
    apply bind_OK in Hnb as (entries & Hiter & Hnb).
    apply bind_OK in Hnb as (cs & Hfold & _).
    split; [eauto|]. exists entries. split.
    + rewrite Hraw. exact Hiter.
    + apply Notebook_init_fold_inv in Hfold.
      eapply Forall_impl; [exact Hfold|]. intros raw. apply entry_error_loadable.
  - intros [[v Hv] (entries & Hcells & Hall)].
    apply bind_OK in Hcells as (raw_cells & Hraw & Hiter).
    destruct (Notebook_init_fold [] entries) as (cs & Hfold & _).
    { eapply Forall_impl; [exact Hall|]. intros raw. apply entry_error_loadable. }
    exists (Notebook v cs). unfold Notebook_init.
    rewrite Hv. cbn [mbind result_bind]. rewrite Hraw. cbn [mbind result_bind].
    rewrite Hiter. cbn [mbind result_bind]. rewrite Hfold. reflexivity.
Qed.

End NotebookMore.

Lemma notebook_init_first_bad_entry_witness :
  Notebook_init (H := ascii_interpreter)
    (ipynb_of (take 1 hello_world_cells
               ++ JDict [(u "cell_type", JStr (u "code"));
                         (u "source", JList []); (u "outputs", JList [])]
               :: [JNull]))
  = Raise (KeyError (JStr (u "execution_count"))).
Proof.
  apply (notebook_init_first_bad_entry (H := ascii_interpreter)
           (ipynb_of (take 1 hello_world_cells
                      ++ JDict [(u "cell_type", JStr (u "code"));
                                (u "source", JList []); (u "outputs", JList [])]
                      :: [JNull]))
           (u "4.5") (take 1 hello_world_cells)
           (JDict [(u "cell_type", JStr (u "code"));
                   (u "source", JList []); (u "outputs", JList [])])
           [JNull]).
  - reflexivity.
  - reflexivity.
  - repeat constructor.
  - reflexivity.
Defined.

(** ** The JSON serializer *)

Lemma has_cell_type_getitem (t : str) (raw : json) :
  has_cell_type t raw = true → getitem raw (u "cell_type") = OK (JStr t).
Proof.
  unfold has_cell_type. destruct (getitem raw (u "cell_type")) as [v|]; [|discriminate].
  intros Hv. apply py_eq_str in Hv. congruence.
Qed.

Lemma Cell_init_inv (raw : json) (c : cell) :
  Cell_init raw = OK c →
  getitem raw (u "id") = OK (cell_id c)
  ∧ getitem raw (u "source") = OK (cell_source c).
Proof.
  unfold Cell_init. intros Hc.
  apply bind_OK in Hc as (i & Hi & Hc). apply bind_OK in Hc as (s & Hs & [= <-]).
  auto.
Qed.

Section SerializerMore.
Context `{Interpreter}.
Context {OS : Platform}.
Import Serializer.

(** X6. In what [serialize] returns, the entry of a cell has the [id] and
    the [source] of the cell as they are, and an empty [metadata]; the
    entry of a code cell has its [execution_count] and an empty list of
    [outputs], that of any other cell has neither key. The top-level
    [metadata] is empty too. (The key is [metadata]: no entry has the key
    [medatada] that the docstring of the class shows.) *)
Theorem serialize_entries_verbatim (nb : notebook) (s : json) :
  serialize nb = OK s →
  getitem s (u "metadata") = OK (JDict [])
  ∧ ∃ entries,
      getitem s (u "cells") = OK (JList entries)
      ∧ Forall2 (fun c e =>
           getitem e (u "id") = OK (cell_id c)
           ∧ getitem e (u "source") = OK (cell_source c)
           ∧ getitem e (u "metadata") = OK (JDict [])
           ∧ getitem e (u "medatada") = Raise (KeyError (JStr (u "medatada")))
           ∧ match c with
             | CodeCell n _ _ =>
               getitem e (u "execution_count") = OK n
               ∧ getitem e (u "outputs") = OK (JList [])
             | _ =>
               getitem e (u "execution_count")
               = Raise (KeyError (JStr (u "execution_count")))
               ∧ getitem e (u "outputs") = Raise (KeyError (JStr (u "outputs")))
             end) (cells nb) entries.
Proof.
  intros Hs.
  apply serialize_inv in Hs as (_ & _ & major & minor & _ & _ & _ & _ & ->).
  split; [reflexivity|].
  exists (map serialized_cell (cells nb)). split; [reflexivity|].
  apply Forall2_fmap_r, Forall_Forall2_diag, Forall_forall.
  intros [i src|n i src|i src] _; repeat split; reflexivity.
Qed.

(** X7. Loading what [serialize] returned gives the cells back, and
    serializing that notebook gives the same document again, whichever
    way the version of the first notebook was spelled. *)
Theorem serialize_load_serialize (nb : notebook) (s : json) :
  Forall subclass_instance (cells nb) → serialize nb = OK s →
  ∃ nb', Notebook_init s = OK nb' ∧ cells nb' = cells nb
         ∧ serialize nb' = OK s.
Proof.
  intros Hall Hs.
  apply serialize_inv in Hs as (_ & _ & major & minor & _ & _ & _ & _ & ->).
  eexists. split; [apply Notebook_init_serialized, Hall|].
  split; [reflexivity|].
  rewrite serialize_unfold. cbn [version cells].
  rewrite well_formed_version_split, !py_int_str_of_Z. reflexivity.
Qed.

(** X8. Loading a document and serializing the notebook keeps, for every
    code or markdown entry and in order, its [cell_type], [id] and
    [source], and the [execution_count] of a code entry; [metadata] and
    [outputs] come out empty, and the other entries are gone. *)
Theorem load_serialize_fields
    (ipynb : json) (nb : notebook) (s : json) (raws : list json) :
  Notebook_init ipynb = OK nb → serialize nb = OK s →
  getitem ipynb (u "cells") ≫= py_iter = OK raws →
  ∃ entries,
    getitem s (u "cells") = OK (JList entries)
    ∧ Forall2 (fun raw e =>
         getitem e (u "cell_type") = getitem raw (u "cell_type")
         ∧ getitem e (u "id") = getitem raw (u "id")
         ∧ getitem e (u "source") = getitem raw (u "source")
         ∧ getitem e (u "metadata") = OK (JDict [])
         ∧ (has_cell_type (u "code") raw = true →
            getitem e (u "execution_count") = getitem raw (u "execution_count")
            ∧ getitem e (u "outputs") = OK (JList [])))
        (List.filter recognized raws) entries.
Proof.
  intros Hnb Hs Hraws. unfold Notebook_init in Hnb.
  apply bind_OK in Hnb as (v & _ & Hnb).
  apply bind_OK in Hnb as (raw_cells & Hraw & Hnb).
  apply bind_OK in Hnb as (entries & Hiter & Hnb).
  apply bind_OK in Hnb as (cs & Hfold & [= <-]).
  rewrite Hraw in Hraws. cbn [mbind result_bind] in Hraws.
  rewrite Hiter in Hraws. injection Hraws as ->.
  destruct (Notebook_init_fold [] raws) as (new & Hfold' & Hret & _);
    [eauto using Notebook_init_fold_inv|].
  rewrite Hfold in Hfold'. injection Hfold' as ->. cbn [app] in *.
  apply serialize_inv in Hs as (_ & _ & major & minor & _ & _ & _ & _ & ->).
  cbn [cells]. exists (map serialized_cell new). split; [reflexivity|].
  apply Forall2_fmap_r. eapply Forall2_impl; [exact Hret|].
  intros raw c [Ht Hc|Ht Hc]; unfold compose; cbv beta.
  - apply has_cell_type_getitem in Ht as Hty. rewrite Hty.
    unfold CodeCell_init in Hc.
    apply bind_OK in Hc as (n & Hn & Hc). apply bind_OK in Hc as (b & Hb & [= <-]).
    apply Cell_init_inv in Hb as [Hi Hsrc]. rewrite Hn, Hi, Hsrc.
    repeat split; reflexivity.
  - apply has_cell_type_getitem in Ht as Hty. rewrite Hty.
    unfold MarkdownCell_init in Hc.
    apply bind_OK in Hc as (b & Hb & [= <-]).
    apply Cell_init_inv in Hb as [Hi Hsrc]. rewrite Hi, Hsrc.
    do 4 (split; [reflexivity|]).
    unfold has_cell_type. rewrite Hty. discriminate.
Qed.

(** X9. [Serializer.to_file] touches no other file than the one it is
    given; what it returns or raises does not depend on what that file
    held, nor does the file afterwards when [open] gets it; run again, it
    changes nothing more; and when [open] raises, that exception is the
    outcome and no file has changed. *)
Theorem serializer_to_file_touches_one_file
    (nb : notebook) (filename : str) (fs : filesystem) (prev : file) :
  (∀ other, other ≠ filename →
            (to_file nb filename fs).2 !! other = fs !! other)
  ∧ (to_file nb filename (<[filename := prev]> fs)).1
    = (to_file nb filename fs).1
  ∧ (open_refused Writing filename = None →
     to_file nb filename (<[filename := prev]> fs) = to_file nb filename fs)
  ∧ to_file nb filename (to_file nb filename fs).2 = to_file nb filename fs
  ∧ ∀ e, open_refused Writing filename = Some e →
         to_file nb filename fs = (Raise e, fs).
Proof.
  unfold to_file. destruct (open_refused Writing filename) as [e|].
  - split; [reflexivity|]. split; [reflexivity|]. split; [discriminate|].
    split; [reflexivity|]. intros e' [= <-]. reflexivity.
  - destruct (serialize nb) as [s|e]; cbn [fst snd].
    + split; [intros other Hne; rewrite !lookup_insert_ne by auto; reflexivity|].
      split; [reflexivity|].
      split; [intros _; rewrite !insert_insert_eq; reflexivity|].
      split; [rewrite !insert_insert_eq; reflexivity | discriminate].
    + split; [intros other Hne; rewrite lookup_insert_ne by auto; reflexivity|].
      split; [reflexivity|].
      split; [intros _; rewrite insert_insert_eq; reflexivity|].
      split; [rewrite insert_insert_eq; reflexivity | discriminate].
Qed.

(** X10. [Serializer.to_file] opens the file before it calls
    [serialize]. When [serialize] raises and [open] has got the file, the
    exception of [serialize] comes after the file was truncated: the file
    is left empty, whatever it held, and loading it fails with
    [JSONDecodeError]. When [open] raises, its exception is the outcome
    and the file is as it was. *)
Theorem serializer_to_file_failure_truncates
    (nb : notebook) (filename : str) (fs : filesystem) (e : exn) :
  serialize nb = Raise e →
  match open_refused Writing filename with
  | Some e' => to_file nb filename fs = (Raise e', fs)
  | None =>
    to_file nb filename fs = (Raise e, <[filename := Truncated]> fs)
    ∧ (open_refused Reading filename = None →
       Notebook_from_file filename (to_file nb filename fs).2
       = Raise JSONDecodeError)
  end.
Proof.
  intros He. unfold to_file.
  destruct (open_refused Writing filename) as [e'|]; [reflexivity|].
  rewrite He. split; [reflexivity|].
  intros Hr. unfold Notebook_from_file. cbn [snd].
  rewrite Hr, lookup_insert_eq. reflexivity.
Qed.

End SerializerMore.

Lemma serialize_entries_verbatim_witness :
  let s := serialized_notebook 4 5 (cells hello_world_notebook) in
  getitem s (u "metadata") = OK (JDict [])
  ∧ ∃ entries,
      getitem s (u "cells") = OK (JList entries)
      ∧ Forall2 (fun c e =>
           getitem e (u "id") = OK (cell_id c)
           ∧ getitem e (u "source") = OK (cell_source c)
           ∧ getitem e (u "metadata") = OK (JDict [])
           ∧ getitem e (u "medatada") = Raise (KeyError (JStr (u "medatada")))
           ∧ match c with
             | CodeCell n _ _ =>
               getitem e (u "execution_count") = OK n
               ∧ getitem e (u "outputs") = OK (JList [])
             | _ =>
               getitem e (u "execution_count")
               = Raise (KeyError (JStr (u "execution_count")))
               ∧ getitem e (u "outputs") = Raise (KeyError (JStr (u "outputs")))
             end) (cells hello_world_notebook) entries.
Proof.
  apply (serialize_entries_verbatim (H := ascii_interpreter) hello_world_notebook).
  reflexivity.
Defined.

Lemma serialize_load_serialize_witness :
  let nb := Notebook (u " +04.5_0") [hello_code_cell] in
  let s := serialized_notebook 4 50 [hello_code_cell] in
  ∃ nb', Notebook_init (H := ascii_interpreter) s = OK nb'
         ∧ cells nb' = cells nb
         ∧ Serializer.serialize (H := ascii_interpreter) nb' = OK s.
Proof.
  apply (serialize_load_serialize (H := ascii_interpreter)
           (Notebook (u " +04.5_0") [hello_code_cell])).
  - cbv [cells hello_code_cell]. subclass_instances.
  - reflexivity.
Defined.

Lemma load_serialize_fields_witness :
  let raws := take 2 hello_world_cells ++ raw_cell :: drop 2 hello_world_cells in
  let s := serialized_notebook 4 5 (cells hello_world_notebook) in
  ∃ entries,
    getitem s (u "cells") = OK (JList entries)
    ∧ Forall2 (fun raw e =>
         getitem e (u "cell_type") = getitem raw (u "cell_type")
         ∧ getitem e (u "id") = getitem raw (u "id")
         ∧ getitem e (u "source") = getitem raw (u "source")
         ∧ getitem e (u "metadata") = OK (JDict [])
         ∧ (has_cell_type (u "code") raw = true →
            getitem e (u "execution_count") = getitem raw (u "execution_count")
            ∧ getitem e (u "outputs") = OK (JList [])))
        (List.filter recognized raws) entries.
Proof.
  apply (load_serialize_fields (H := ascii_interpreter)
           hello_world_raw hello_world_notebook).
  - reflexivity.
  - reflexivity.
  - reflexivity.
Defined.

Lemma serializer_to_file_failure_truncates_witness :
  let fs : filesystem := {[ u "notebook.ipynb" := Document hello_world ]} in
  let nb := Notebook (u "4") (cells hello_world_notebook) in
  Serializer.to_file (H := ascii_interpreter) (OS := sample_platform)
    nb (u "notebook.ipynb") fs
  = (Raise ValueError, <[u "notebook.ipynb" := Truncated]> fs)
  ∧ (open_refused (Platform := sample_platform) Reading (u "notebook.ipynb")
     = None →
     Notebook_from_file (H := ascii_interpreter) (OS := sample_platform)
       (u "notebook.ipynb")
       (Serializer.to_file (H := ascii_interpreter) (OS := sample_platform)
          nb (u "notebook.ipynb") fs).2
     = Raise JSONDecodeError).
Proof.
  exact (serializer_to_file_failure_truncates (H := ascii_interpreter)
           (OS := sample_platform)
           (Notebook (u "4") (cells hello_world_notebook)) (u "notebook.ipynb")
           {[ u "notebook.ipynb" := Document hello_world ]} ValueError eq_refl).
Defined.

(** ** The py-percent serializer *)

Section PyPercentMore.
Context {OS : Platform}.
Import PyPercentSerializer.

(** One turn of the loop, whatever the [source] is. *)
Lemma to_py_percent_step_unfold (text : str) (c : cell) :
  to_py_percent_step text c
  = match class_of c with
    | ClsCell => OK text
    | _ =>
      lines ← stripped_lines (cell_source c);
      OK (text ++ ([NL] ++ marker c ++ [NL])
               ++ (line_prefix c ++ str_join ([NL] ++ line_prefix c) lines
                   ++ [NL]))
    end.
Proof.
  unfold to_py_percent_step.
  destruct c as [i src|n i src|i src];
    cbn [is_MarkdownCell is_CodeCell cell_source class_of]; [reflexivity| |];
    (destruct (stripped_lines src) as [lines|e]; [|reflexivity]);
    cbn [mbind result_bind]; rewrite <- app_assoc; reflexivity.
Qed.

Lemma stripped_lines_inv (source : json) (ls : list str) :
  stripped_lines source = OK ls →
  ∃ lines, py_iter source = OK (map JStr lines) ∧ ls = map str_strip lines.
Proof.
  unfold stripped_lines. intros Hls.
  apply bind_OK in Hls as (items & -> & Hls).
  revert ls Hls. induction items as [|x items IH]; intros ls Hls.
  - injection Hls as <-. exists []. split; reflexivity.
  - cbn [mapM_result] in Hls.
    apply bind_OK in Hls as (l & Hl & Hls).
    apply bind_OK in Hls as (ls' & Hls' & [= <-]).
    destruct (IH ls' Hls') as (lines & [= ->] & ->).
    destruct x as [| | |s| |]; try discriminate. injection Hl as <-.
    exists (s :: lines). split; reflexivity.
Qed.

Lemma stripped_lines_iter (source : json) (lines : list str) :
  py_iter source = OK (map JStr lines) →
  stripped_lines source = OK (map str_strip lines).
Proof.
  unfold stripped_lines. intros ->. cbn [mbind result_bind].
  induction lines as [|l lines IH]; [reflexivity|].
  cbn [map mapM_result strip_method mbind result_bind]. rewrite IH. reflexivity.
Qed.

Lemma stripped_lines_error (source : json) (e : exn) :
  stripped_lines source = Raise e → e = TypeError ∨ e = AttributeError.
Proof.
  unfold stripped_lines.
  destruct (py_iter source) as [items|e'] eqn:Hit.
  - cbn [mbind result_bind]. clear Hit. right.
    induction items as [|x items IH]; [discriminate|].
    cbn [mapM_result] in *.
    destruct (strip_method x) as [l|e'] eqn:Hx.
    + cbn [mbind result_bind] in *.
      destruct (mapM_result strip_method items); [discriminate|].
      apply IH. cbn [mbind result_bind] in *. congruence.
    + destruct x; try discriminate; cbn in Hx; cbn [mbind result_bind] in *;
        congruence.
  - cbn [mbind result_bind]. intros [= <-]. left.
    destruct source; cbn in Hit; congruence.
Qed.

Lemma to_py_percent_step_renderable (text : str) (c : cell) :
  (∃ text', to_py_percent_step text c = OK text') ↔ renderable c.
Proof.
  rewrite to_py_percent_step_unfold. unfold renderable. split.
  - intros [text' Hstep].
    destruct (class_of c); [left; reflexivity| |];
      apply bind_OK in Hstep as (ls & Hls & _);
      apply stripped_lines_inv in Hls as (lines & Hit & _); eauto.
  - intros [->|[lines Hit]]; [eauto|].
    rewrite (stripped_lines_iter _ lines Hit).
    destruct (class_of c); eauto.
Qed.

Lemma to_py_percent_step_error (text : str) (c : cell) (e : exn) :
  to_py_percent_step text c = Raise e → e = TypeError ∨ e = AttributeError.
Proof.
  rewrite to_py_percent_step_unfold.
  destruct (class_of c); [discriminate| |];
    (destruct (stripped_lines (cell_source c)) as [ls|e'] eqn:Hls;
     [discriminate|]);
    cbn [mbind result_bind]; intros [= <-];
    eapply stripped_lines_error, Hls.
Qed.

(** X11. [to_py_percent] returns exactly when every code or markdown cell
    has a [source] that can be iterated and yields [str] items only; when
    it raises, it raises [TypeError] (a [source] that cannot be iterated)
    or [AttributeError] (an item without [strip]). *)
Theorem to_py_percent_succeeds_iff (nb : notebook) :
  ((∃ out, to_py_percent nb = OK out) ↔ Forall renderable (cells nb))
  ∧ ∀ e, to_py_percent nb = Raise e → e = TypeError ∨ e = AttributeError.
Proof.
  unfold to_py_percent, Notebook_iter.
  generalize (@nil char) as text. intros text.
  split; [split|].
  - intros [out Hout]. apply bind_OK in Hout as (text' & Hfold & _).
    revert text Hfold. induction (cells nb) as [|c cs IH]; intros text Hfold.
    + constructor.
    + cbn [foldM] in Hfold. apply bind_OK in Hfold as (text1 & Hstep & Hfold).
      constructor; [|eapply IH, Hfold].
      apply (to_py_percent_step_renderable text c). eauto.
  - intros Hall. revert text.
    induction Hall as [|c cs Hc _ IH]; intros text.
    + cbn. eauto.
    + apply (to_py_percent_step_renderable text c) in Hc as [text1 Hstep].
      cbn [foldM]. rewrite Hstep. cbn [mbind result_bind]. apply IH.
  - intros e. revert text. induction (cells nb) as [|c cs IH]; intros text.
    + discriminate.
    + cbn [foldM]. destruct (to_py_percent_step text c) as [text1|e'] eqn:Hstep.
      * cbn [mbind result_bind]. apply IH.
      * cbn [mbind result_bind]. intros [= <-].
        eapply to_py_percent_step_error, Hstep.
Qed.

(** The loop goes the same way over two lists of cells that it cannot
    tell apart. *)
Lemma to_py_percent_fold_ext (text : str) (cs cs' : list cell) :
  Forall2 (fun c c' => ∀ text, to_py_percent_step text c
                              = to_py_percent_step text c') cs cs' →
  foldM to_py_percent_step text cs = foldM to_py_percent_step text cs'.
Proof.
  intros Hall. revert text.
  induction Hall as [|c c' cs cs' Hc _ IH]; intros text; [reflexivity|].
  cbn [foldM]. rewrite Hc.
  destruct (to_py_percent_step text c'); cbn [mbind result_bind];
    [apply IH | reflexivity].
Qed.

(** X12. [to_py_percent] depends on nothing but the class of each cell and
    its source lines once stripped: the version, the [id]s, the
    [execution_count]s and the blanks around a line, the indentation of
    code included, do not show in the text. *)
Theorem to_py_percent_reads_stripped_lines_only
    (v v' : str) (cs cs' : list cell) :
  Forall2 (fun c c' => class_of c = class_of c'
                       ∧ stripped_lines (cell_source c)
                         = stripped_lines (cell_source c')) cs cs' →
  to_py_percent (Notebook v cs) = to_py_percent (Notebook v' cs').
Proof.
  intros Hall. unfold to_py_percent, Notebook_iter. cbn [cells].
  rewrite (to_py_percent_fold_ext [] cs cs'); [reflexivity|].
  eapply Forall2_impl; [exact Hall|].
  intros c c' [Hcls Hlines] text. rewrite !to_py_percent_step_unfold.
  unfold marker, line_prefix. rewrite Hlines, Hcls.
  destruct c as [i src|n i src|i src], c' as [i' src'|n' i' src'|i' src'];
    try discriminate; reflexivity.
Qed.

(** X20. On a notebook of code and markdown cells whose sources are lists
    of [str], and whose last line does not end with a blank, the text of
    [to_py_percent] is made of the lines of the blocks, one empty line
    between two blocks, joined by newlines: nothing before the first
    marker, no newline after the last line. *)
Theorem to_py_percent_lines (nb : notebook) (line : str) (ch : char) :
  Forall (fun c => subclass_instance c ∧ has_source_list c) (cells nb) →
  last (blocks_lines (cells nb)) = Some line →
  last line = Some ch → is_whitespace ch = false →
  to_py_percent nb = OK (str_join [NL] (blocks_lines (cells nb))).
Proof.
  intros Hall Hline Hch Hws.
  assert (Hne : cells nb ≠ []) by (intros E; rewrite E in Hline; discriminate).
  rewrite to_py_percent_OK
    by (eapply Forall_impl; [exact Hall|]; intros c [_ Hc]; exact Hc).
  rewrite emitted_blocks_lines, lines_ended_join;
    [|apply blocks_lines_nonempty, Hne
     |eapply Forall_impl; [exact Hall|]; intros c [Hc _]; exact Hc
     |exact Hne].
  f_equal. apply (str_strip_lines _ 35%N ch).
  - destruct (cells nb) as [|c [|c' cs]]; [contradiction| |];
      cbn [blocks_lines block_lines app]; apply str_join_head;
      unfold marker; destruct (is_MarkdownCell c); reflexivity.
  - reflexivity.
  - eapply str_join_last; eassumption.
  - exact Hws.
Qed.

(** X13. When [PyPercentSerializer.to_file] returns, the file holds the
    text of [to_py_percent] and one newline after it, the text itself ends
    with no blank, and it has no character that UTF-8 cannot encode. *)
Theorem py_percent_to_file_writes_text
    (nb : notebook) (filename : str) (fs fs' : text_filesystem) :
  to_file nb filename fs = (OK (), fs') →
  ∃ text, to_py_percent nb = OK text
          ∧ fs' = <[filename := text ++ [NL]]> fs
          ∧ (∀ ch, last text = Some ch → is_whitespace ch = false)
          ∧ Forall (fun ch => is_surrogate ch = false) text.
Proof.
  unfold to_file. intros Hw.
  destruct (open_refused Writing filename); [discriminate|].
  destruct (to_py_percent nb) as [text|e] eqn:Htext; [|discriminate].
  destruct (existsb is_surrogate text) eqn:Hsur; [discriminate|].
  injection Hw as <-. exists text. split; [reflexivity|].
  split; [apply insert_insert_eq|]. split.
  - unfold to_py_percent in Htext. apply bind_OK in Htext as (t & _ & [= <-]).
    intros ch. apply str_strip_last.
  - apply Forall_forall. intros ch Hch.
    destruct (is_surrogate ch) eqn:E; [|reflexivity].
    rewrite <- Hsur. symmetry. apply existsb_exists. exists ch.
    split; [apply list_elem_of_In, Hch | exact E].
Qed.


End PyPercentMore.

Lemma to_py_percent_reads_stripped_lines_only_witness :
  PyPercentSerializer.to_py_percent
    (Notebook (u "4.5")
       [CodeCell (JInt 1) (JStr (u "b777420a"))
          (JList [JStr (u "def f():\n"); JStr (u "    return 1\n")])])
  = PyPercentSerializer.to_py_percent
      (Notebook (u "3.0")
         [CodeCell JNull (JInt 0)
            (JList [JStr (u "def f():"); JStr (u "return 1")])]).
Proof.
  apply to_py_percent_reads_stripped_lines_only.
  repeat constructor.
Defined.

Lemma to_py_percent_lines_witness :
  PyPercentSerializer.to_py_percent hello_world_notebook
  = OK (str_join [NL] (blocks_lines (cells hello_world_notebook))).
Proof.
  apply (to_py_percent_lines hello_world_notebook (u "# Goodbye! 👋") 128075%N).
  - repeat (apply List.Forall_cons;
            [split; [first [left; reflexivity | right; reflexivity] | reflexivity]|]).
    apply List.Forall_nil.
  - reflexivity.
  - reflexivity.
  - reflexivity.
Defined.

(** The text that the docstring of the class shows for the sample. *)
Lemma hello_world_py_percent :
  PyPercentSerializer.to_py_percent hello_world_notebook
  = OK (u "# %% [markdown]\n# Hello world!\n# ============\n# Print `Hello world!`:\n\n# %%\nprint(\x22Hello world!\x22)\n\n# %% [markdown]\n# Goodbye! 👋").
Proof. reflexivity. Qed.

Lemma py_percent_to_file_writes_text_witness :
  let filename := u "samples/hello-world-serialized-py-percent.py" in
  let fs' := (PyPercentSerializer.to_file (OS := sample_platform)
                hello_world_notebook filename ∅).2 in
  ∃ text, PyPercentSerializer.to_py_percent hello_world_notebook = OK text
          ∧ fs' = <[filename := text ++ [NL]]> ∅
          ∧ (∀ ch, last text = Some ch → is_whitespace ch = false)
          ∧ Forall (fun ch => is_surrogate ch = false) text.
Proof.
  apply (py_percent_to_file_writes_text (OS := sample_platform)). reflexivity.
Defined.


(** ** The outliner, further *)


(** If one turn of a loop fails on [x] whatever has been accumulated, the
    loop fails on a list that holds [x]. *)
Lemma foldM_raises {A B} (step : A → B → result A) (acc : A)
    (before : list B) (x : B) (after : list B) :
  (∀ a, ∃ e, step a x = Raise e) →
  ∃ e, foldM step acc (before ++ x :: after) = Raise e.
Proof.
  intros Hx. revert acc. induction before as [|b before IH]; intros acc.
  - destruct (Hx acc) as [e He]. exists e. cbn [app foldM]. rewrite He. reflexivity.
  - cbn [app foldM]. destruct (step acc b) as [acc'|e]; cbn [mbind result_bind]; eauto.
Qed.

Lemma getitem_int_characters (s : str) (i : Z) :
  getitem_int (JStr s) i = getitem_int (characters s) i.
Proof.
  unfold characters, getitem_int. rewrite length_map.
  destruct (index_of (length s) i) as [j|]; [|reflexivity].
  cbn [mbind option_bind]. rewrite list_lookup_fmap.
  match goal with |- context [fmap _ ?o] => change (s !! j) with o; destruct o end;
    reflexivity.
Qed.

Section OutlinerMore.
Context `{Interpreter}.
Import Outliner.

(** X15. Whenever [outline] returns, the text that its loops had built
    is its result with one newline after it: the one character that
    [text[:-1]] took off was a newline, never a character of the outline.
    The result starts with the line [Jupyter Notebook v<version>]. *)
Theorem outline_trims_a_newline (nb : notebook) (out : str) :
  outline nb = OK out →
  foldM outline_step (u "Jupyter Notebook v" ++ version nb ++ [NL])
    (Notebook_iter nb)
  = OK (out ++ [NL])
  ∧ ∃ body, out ++ [NL] = u "Jupyter Notebook v" ++ version nb ++ [NL] ++ body.
Proof.
  intros Hout. apply outline_inv in Hout. split; [exact Hout|].
  apply outline_steps_append in Hout as [Hout|(chunk & Hout)].
  - exists []. rewrite Hout, app_nil_r. reflexivity.
  - exists (chunk ++ [NL]). rewrite Hout, <- ?app_assoc. reflexivity.
Qed.

(** X16. On a notebook of code and markdown cells whose sources are lists
    of [str], [outline] returns, and what it returns is, up to the last
    newline, the version line and then, for each cell in order, its header
    line and its source lines. *)
Theorem outline_text (nb : notebook) :
  Forall (fun c => subclass_instance c ∧ has_source_list c) (cells nb) →
  ∃ out, outline nb = OK out
         ∧ out ++ [NL] = u "Jupyter Notebook v" ++ version nb ++ [NL]
                           ++ concat (map outline_block (cells nb)).
Proof.
  intros Hall.
  destruct (outline nb) as [out|e] eqn:Hout.
  - exists out. split; [reflexivity|].
    apply outline_inv in Hout. rewrite (outline_fold _ _ Hall) in Hout.
    injection Hout as Hout. rewrite <- Hout, <- !app_assoc. reflexivity.
  - unfold outline, Notebook_iter in Hout.
    rewrite (outline_fold _ _ Hall) in Hout. discriminate.
Qed.

Lemma start_characters (s : str) (line : json) :
  start (JStr s) line = start (characters s) line.
Proof.
  unfold start. rewrite !getitem_int_characters.
  assert (Hlen : py_len (characters s) = py_len (JStr s))
    by (unfold characters; cbn [py_len]; rewrite length_map; reflexivity).
  rewrite Hlen. reflexivity.
Qed.

Lemma outline_step_by_character (text : str) (c : cell) :
  outline_step text c = outline_step text (by_character c).
Proof.
  unfold by_character. destruct (cell_source c) as [| | |s| |] eqn:Hsrc;
    try reflexivity.
  unfold outline_step.
  replace (cell_source (with_source c (characters s))) with (characters s)
    by (destruct c; reflexivity).
  replace (is_MarkdownCell (with_source c (characters s))) with (is_MarkdownCell c)
    by (destruct c; reflexivity).
  replace (cell_execution_count (with_source c (characters s)))
    with (cell_execution_count c) by (destruct c; reflexivity).
  replace (cell_id (with_source c (characters s))) with (cell_id c)
    by (destruct c; reflexivity).
  rewrite Hsrc.
  match goal with |- ?m ≫= _ = _ => destruct m as [[t n]|e] end;
    [|reflexivity].
  cbn [mbind result_bind py_iter characters].
  apply foldM_ext. intros a x. unfold outline_line.
  rewrite (start_characters s x). reflexivity.
Qed.

Lemma to_py_percent_step_by_character (text : str) (c : cell) :
  PyPercentSerializer.to_py_percent_step text c
  = PyPercentSerializer.to_py_percent_step text (by_character c).
Proof.
  unfold by_character. destruct (cell_source c) as [| | |s| |] eqn:Hsrc;
    try reflexivity.
  unfold PyPercentSerializer.to_py_percent_step.
  replace (cell_source (with_source c (characters s))) with (characters s)
    by (destruct c; reflexivity).
  replace (is_MarkdownCell (with_source c (characters s))) with (is_MarkdownCell c)
    by (destruct c; reflexivity).
  replace (is_CodeCell (with_source c (characters s))) with (is_CodeCell c)
    by (destruct c; reflexivity).
  rewrite Hsrc. reflexivity.
Qed.

(** X17. A [source] that is a [str] rather than a list of [str] is taken
    character by character by both renderers: the text is the one they
    give for the list of the characters, each on a line of its own. *)
Theorem str_source_rendered_by_character (nb : notebook) :
  PyPercentSerializer.to_py_percent nb
  = PyPercentSerializer.to_py_percent
      (Notebook (version nb) (map by_character (cells nb)))
  ∧ outline nb = outline (Notebook (version nb) (map by_character (cells nb)))
  ∧ ∀ c s, cell_source c = JStr s →
           has_source_list (by_character c)
           ∧ lines_of (by_character c) = map (fun ch => [ch]) s.
Proof.
  split; [|split].
  - unfold PyPercentSerializer.to_py_percent, Notebook_iter. cbn [cells].
    f_equal. generalize (@nil char).
    induction (cells nb) as [|c cs IH]; intros text; [reflexivity|].
    cbn [map foldM]. rewrite <- to_py_percent_step_by_character.
    destruct (PyPercentSerializer.to_py_percent_step text c);
      cbn [mbind result_bind]; auto.
  - unfold outline, Notebook_iter. cbn [cells version]. f_equal.
    generalize (u "Jupyter Notebook v" ++ version nb ++ u "\n").
    induction (cells nb) as [|c cs IH]; intros text; [reflexivity|].
    cbn [map foldM]. rewrite <- outline_step_by_character.
    destruct (outline_step text c); cbn [mbind result_bind]; auto.
  - intros c s Hsrc.
    assert (Hlist : cell_source (by_character c)
                    = JList (map JStr (map (fun ch => [ch]) s))).
    { unfold by_character. rewrite Hsrc. unfold characters. rewrite map_map.
      destruct c; reflexivity. }
    pose proof (lines_of_source _ _ Hlist) as Hlines.
    split; [|exact Hlines]. unfold has_source_list. congruence.
Qed.

(** X18. An instance of the base class [Cell] in a notebook is skipped by
    [to_py_percent], makes [outline] raise ([AttributeError], when the
    cells before it are in order: it has no [execution_count]), and gets
    from [serialize] an entry whose [cell_type] is the placeholder [0]. *)
Theorem base_class_cell_handling
    (nb : notebook) (before : list cell) (c : cell) (after : list cell) :
  cells nb = before ++ c :: after → class_of c = ClsCell →
  PyPercentSerializer.to_py_percent nb
  = PyPercentSerializer.to_py_percent (Notebook (version nb) (before ++ after))
  ∧ (∃ e, outline nb = Raise e)
  ∧ (Forall (fun c => subclass_instance c ∧ has_source_list c) before →
     outline nb = Raise AttributeError)
  ∧ ∀ s, Serializer.serialize nb = OK s →
         ∃ entries e, getitem s (u "cells") = OK (JList entries)
                      ∧ entries !! length before = Some e
                      ∧ getitem e (u "cell_type") = OK (JInt 0).
Proof.
  intros Hcells Hc.
  assert (Hstep : ∀ text, outline_step text c = Raise AttributeError).
  { intros text. destruct c; try discriminate. reflexivity. }
  split; [|split; [|split]].
  - unfold PyPercentSerializer.to_py_percent, Notebook_iter. cbn [cells].
    rewrite Hcells, !foldM_app.
    destruct (foldM PyPercentSerializer.to_py_percent_step [] before);
      [|reflexivity].
    cbn [mbind result_bind foldM].
    destruct c; try discriminate. reflexivity.
  - unfold outline, Notebook_iter. rewrite Hcells.
    destruct (foldM_raises outline_step
                (u "Jupyter Notebook v" ++ version nb ++ u "\n") before c after)
      as [e He]; [eauto|].
    exists e. rewrite He. reflexivity.
  - intros Hall. unfold outline, Notebook_iter. rewrite Hcells, foldM_app.
    rewrite (outline_fold _ _ Hall). cbn [mbind result_bind foldM].
    rewrite Hstep. reflexivity.
  - intros s Hs.
    apply serialize_inv in Hs as (_ & _ & major & minor & _ & _ & _ & _ & ->).
    exists (map serialized_cell (cells nb)), (serialized_cell c).
    split; [reflexivity|]. split.
    + rewrite Hcells, map_app. cbn [map].
      rewrite <- (length_map serialized_cell before). apply list_lookup_middle.
      reflexivity.
    + destruct c; try discriminate. reflexivity.
Qed.

End OutlinerMore.

Lemma outline_trims_a_newline_witness :
  let out :=
    u "Jupyter Notebook v4.5\n└─▶ Markdown cell #a9541506\n    ┌  Hello world!\n    │  ============\n    └  Print `Hello world!`:\n└─▶ Code cell #b777420a (1)\n    | print(\x22Hello world!\x22)\n└─▶ Markdown cell #a23ab5ac\n    | Goodbye! 👋" in
  foldM (Outliner.outline_step (H := ascii_interpreter))
    (u "Jupyter Notebook v" ++ version hello_world_notebook ++ [NL])
    (Notebook_iter hello_world_notebook)
  = OK (out ++ [NL])
  ∧ ∃ body,
      out ++ [NL]
      = u "Jupyter Notebook v" ++ version hello_world_notebook ++ [NL] ++ body.
Proof.
  apply (outline_trims_a_newline (H := ascii_interpreter) hello_world_notebook).
  reflexivity.
Defined.

Lemma outline_text_witness :
  ∃ out, Outliner.outline (H := ascii_interpreter) hello_world_notebook = OK out
         ∧ out ++ [NL]
           = u "Jupyter Notebook v" ++ version hello_world_notebook ++ [NL]
               ++ concat (map (outline_block (H := ascii_interpreter))
                            (cells hello_world_notebook)).
Proof.
  apply (outline_text (H := ascii_interpreter)).
  repeat (apply List.Forall_cons;
          [split; [first [left; reflexivity | right; reflexivity] | reflexivity]|]).
  apply List.Forall_nil.
Defined.

Lemma base_class_cell_handling_witness :
  let before := [MarkdownCell (JStr (u "a9541506")) (JList [JStr (u "Hello")])] in
  let c := Cell (JStr (u "c0ffee00")) (JList [JStr (u "---")]) in
  let after := [hello_code_cell] in
  let nb := Notebook (u "4.5") (before ++ c :: after) in
  PyPercentSerializer.to_py_percent nb
  = PyPercentSerializer.to_py_percent (Notebook (version nb) (before ++ after))
  ∧ (∃ e, Outliner.outline (H := ascii_interpreter) nb = Raise e)
  ∧ (Forall (fun c => subclass_instance c ∧ has_source_list c) before →
     Outliner.outline (H := ascii_interpreter) nb = Raise AttributeError)
  ∧ ∀ s, Serializer.serialize (H := ascii_interpreter) nb = OK s →
         ∃ entries e, getitem s (u "cells") = OK (JList entries)
                      ∧ entries !! length before = Some e
                      ∧ getitem e (u "cell_type") = OK (JInt 0).
Proof.
  apply (base_class_cell_handling (H := ascii_interpreter)
           (Notebook (u "4.5")
              ([MarkdownCell (JStr (u "a9541506")) (JList [JStr (u "Hello")])]
               ++ Cell (JStr (u "c0ffee00")) (JList [JStr (u "---")])
               :: [hello_code_cell]))
           [MarkdownCell (JStr (u "a9541506")) (JList [JStr (u "Hello")])]
           (Cell (JStr (u "c0ffee00")) (JList [JStr (u "---")]))
           [hello_code_cell]).
  - reflexivity.
  - reflexivity.
Defined.
